(** * ECC100 high-frequency MQTT streaming core: model and verification

    A shallow embedding of the streaming program (sampler, lock-free ring,
    batch publisher, command processor, MQTT callbacks) and the proofs of the
    properties its specification states about it.

    Modelling choices:
    - machine integers are [Z] with the wrap-around written out
      ([wrap_int32], [wrap_uint64]); signed overflow is taken to wrap, as
      two's complement hardware does;
    - text is [string]; [std::atoi] is glibc's, [(int) strtol(s, NULL, 10)];
    - the globals of the program are the record [Sys]; code runs in the state
      monad [M] over it;
    - libecc, the clock and the MQTT client are a [Platform], to which every
      theorem is generic; calls and published messages are recorded in the
      trace of [Sys], in program order;
    - console output ([std::cout], [std::cerr]) and the scheduling calls of
      the sampler are not modelled: a branch that only logs is [ret tt];
    - the threads are interleaved at the granularity of one loop iteration or
      one callback ([Step], [run]). *)

From Stdlib Require Import ZArith Lia Bool Ascii String.
From stdpp Require Import base tactics option list strings.

Local Open Scope string_scope.
Local Open Scope list_scope.
Local Open Scope Z_scope.

#[local] Arguments String.append : simpl nomatch.

(** ** Machine integers *)

Definition INT32_MIN : Z := - 2 ^ 31.
Definition INT32_MAX : Z := 2 ^ 31 - 1.
Definition UINT64_MOD : Z := 2 ^ 64.
Definition LONG_MIN : Z := - 2 ^ 63.
Definition LONG_MAX : Z := 2 ^ 63 - 1.

(** Conversion to [int32_t]: reduction modulo 2^32 into the signed range. *)
Definition wrap_int32 (z : Z) : Z := (z + 2 ^ 31) mod 2 ^ 32 - 2 ^ 31.

(** Arithmetic on [uint64_t] (and [std::atomic<uint64_t>::fetch_add]). *)
Definition wrap_uint64 (z : Z) : Z := z mod UINT64_MOD.

Definition is_int32 (z : Z) : Prop := INT32_MIN <= z <= INT32_MAX.
Definition is_uint64 (z : Z) : Prop := 0 <= z < UINT64_MOD.

(** ** Characters and C strings *)

Definition char_code (c : ascii) : Z := Z.of_nat (nat_of_ascii c).

(** ['0' + d] *)
Definition digit_char (d : Z) : ascii := ascii_of_nat (Z.to_nat (48 + d)).

Definition isdigit (c : ascii) : bool :=
  (48 <=? char_code c) && (char_code c <=? 57).

(** [isspace] in the C locale: space, \t, \n, \v, \f, \r. *)
Definition isspace (c : ascii) : bool :=
  (char_code c =? 32) || ((9 <=? char_code c) && (char_code c <=? 13)).

Definition newline : ascii := ascii_of_nat 10.
Definition slash : ascii := "/"%char.

(** Decimal text of a non-negative number, most significant digit first, as
    [std::to_string] and [operator<<] print it.  [fuel] bounds the number of
    digits. *)
Fixpoint dec_digits (fuel : nat) (v : Z) : string :=
  match fuel with
  | O => ""
  | S f =>
      if v <? 10 then String (digit_char v) ""
      else dec_digits f (v / 10) +:+ String (digit_char (v mod 10)) ""
  end.

(** [std::to_string] / stream insertion of an integer of at most 64 bits
    (twenty digits). *)
Definition to_string (v : Z) : string :=
  if v <? 0 then String "-" (dec_digits 20 (- v)) else dec_digits 20 v.

(** [strtol]'s digit loop: consume digits while there are some. *)
Fixpoint strtol_digits (s : string) (acc : Z) : Z :=
  match s with
  | String c s' =>
      if isdigit c then strtol_digits s' (acc * 10 + (char_code c - 48)) else acc
  | "" => acc
  end.

(** Optional sign, then the digits. *)
Definition strtol_signed (s : string) : Z :=
  match s with
  | String c s' =>
      if Ascii.eqb c "-" then - strtol_digits s' 0
      else if Ascii.eqb c "+" then strtol_digits s' 0
      else strtol_digits s 0
  | "" => 0
  end.

(** Leading white space is skipped. *)
Fixpoint strtol_skip (s : string) : Z :=
  match s with
  | String c s' => if isspace c then strtol_skip s' else strtol_signed s
  | "" => 0
  end.

(** [strtol(s, NULL, 10)]: the value saturates at the limits of [long]. *)
Definition strtol (s : string) : Z :=
  Z.max LONG_MIN (Z.min LONG_MAX (strtol_skip s)).

(** [std::atoi]: glibc's [(int) strtol(s, NULL, 10)].  The text is read up to
    the first character that is no digit, so the terminating NUL of [c_str()]
    needs no separate treatment. *)
Definition atoi (s : string) : Z := wrap_int32 (strtol s).

(** Does [atoi] find a number at all: after white space and an optional sign,
    is there a digit? *)
Definition starts_with_digit (s : string) : bool :=
  match s with String c _ => isdigit c | "" => false end.



(** Membership of a character in a string. *)
Fixpoint contains (c : ascii) (s : string) : bool :=
  match s with
  | String d s' => Ascii.eqb c d || contains c s'
  | "" => false
  end.

(** ** PositionSample *)

Record PositionSample := mkSample {
  timestamp_ns : Z;   (* uint64_t *)
  x_position : Z;     (* int32_t *)
  y_position : Z;
  z_position : Z;
  r_position : Z;
  valid_mask : Z      (* uint8_t: X=1, Y=2, Z=4, R=8 *)
}.

(** The default constructor. *)
Definition sample0 : PositionSample := mkSample 0 0 0 0 0 0.

Definition sample_wf (p : PositionSample) : Prop :=
  is_uint64 (timestamp_ns p) /\ is_int32 (x_position p) /\
  is_int32 (y_position p) /\ is_int32 (z_position p) /\
  is_int32 (r_position p) /\ 0 <= valid_mask p < 256.

(** [valid_mask & bit] as a condition. *)
Definition mask_set (p : PositionSample) (bit : Z) : bool :=
  negb (Z.land (valid_mask p) bit =? 0).

(** ** FastStringBuffer *)

Module FastStringBuffer.

(** The [while (value > 0)] loop filling [temp] from index 0 upwards; [fuel] is
    the size of [temp]. *)
Fixpoint fill_temp_u (fuel : nat) (value : Z) (temp : list ascii) : list ascii :=
  match fuel with
  | O => temp
  | S f =>
      if 0 <? value
      then fill_temp_u f (value / 10) (temp ++ [digit_char (value mod 10)])
      else temp
  end.

(** The same loop on a signed value: [%] and [/] truncate towards zero. *)
Fixpoint fill_temp_s (fuel : nat) (value : Z) (temp : list ascii) : list ascii :=
  match fuel with
  | O => temp
  | S f =>
      if 0 <? value
      then fill_temp_s f (Z.quot value 10) (temp ++ [digit_char (Z.rem value 10)])
      else temp
  end.

(** [for (i = 0; i < pos; ++i) buf[i] = temp[pos - 1 - i]] *)
Definition copy_reversed (temp : list ascii) : string :=
  string_of_list_ascii (rev temp).

(** [uint64_to_string]: the characters written to [buf] (their number is the
    returned length). *)
Definition uint64_to_string (value : Z) : string :=
  if value =? 0 then "0"
  else copy_reversed (fill_temp_u 32 value []).

(** [int32_to_string]: [value = -value] is computed in [int32_t].  For the
    least [int32_t] the negation overflows, which C++ leaves undefined: there
    the function below follows two's complement (the value stays as it is),
    which is one thing a build may do, and no theorem rests on it there;
    [int32_to_string_defined] further down is the function with the negation
    as C++ defines it. *)
Definition int32_to_string (value : Z) : string :=
  let sign := if value <? 0 then "-" else "" in
  let value := if value <? 0 then wrap_int32 (- value) else value in
  if value =? 0 then sign +:+ "0"
  else sign +:+ copy_reversed (fill_temp_s 16 value []).

(** [format_position]: the text left in [buffer] before the terminating NUL. *)
Definition format_position (p : PositionSample) : string :=
  uint64_to_string (timestamp_ns p) +:+ "/" +:+
  (if mask_set p 1 then int32_to_string (x_position p) else "NaN") +:+ "/" +:+
  (if mask_set p 2 then int32_to_string (y_position p) else "NaN") +:+ "/" +:+
  (if mask_set p 4 then int32_to_string (z_position p) else "NaN") +:+ "/" +:+
  (if mask_set p 8 then int32_to_string (r_position p) else "NaN").

End FastStringBuffer.

(** The position field of a sample as the format of the position message
    defines it. *)
Definition position_field (valid : bool) (pos : Z) : string :=
  if valid then to_string pos else "NaN".

(** ** Configuration constants *)

Definition BUFFER_SIZE : nat := 1000.
Definition MQTT_TOPIC_POSITION : string := "microscope/stage/position".
Definition MQTT_TOPIC_COMMAND : string := "microscope/stage/command".
Definition MQTT_TOPIC_RESULT : string := "microscope/stage/result".
Definition MQTT_TOPIC_STATUS : string := "microscope/stage/status".

(** [MOSQ_ERR_SUCCESS] of mosquitto.h. *)
Definition MOSQ_ERR_SUCCESS : Z := 0.

(** ** LockFreeBuffer: the single-producer/single-consumer ring

    The atomics are modelled by their values; an operation takes effect at
    its final store ([write_pos] for the producer, [read_pos] for the
    consumer), which is the only store of the operation another thread reads. *)

Module LockFreeBuffer.

Record t := mk {
  buffer : list PositionSample;   (* std::array<PositionSample, BUFFER_SIZE * 4> *)
  write_pos : nat;
  read_pos : nat
}.

Definition size (b : t) : nat := length (buffer b).

Definition init : t := mk (replicate (BUFFER_SIZE * 4) sample0) 0 0.

Definition try_write (b : t) (sample : PositionSample) : bool * t :=
  let current_write := write_pos b in
  let next_write := ((current_write + 1) mod size b)%nat in
  if (next_write =? read_pos b)%nat then (false, b)
  else (true, mk (<[current_write := sample]> (buffer b)) next_write (read_pos b)).

(** [try_read] returns the sample through its reference argument; [None]
    stands for the result [false], which leaves the argument untouched. *)
Definition try_read (b : t) : option PositionSample * t :=
  let current_read := read_pos b in
  if (current_read =? write_pos b)%nat then (None, b)
  else (buffer b !! current_read,
        mk (buffer b) (write_pos b) ((current_read + 1) mod size b)%nat).

Definition available (b : t) : nat :=
  let w := write_pos b in
  let r := read_pos b in
  if (r <=? w)%nat then (w - r)%nat else (size b - r + w)%nat.

(** The condition under which [try_write] refuses. *)
Definition full (b : t) : bool := ((write_pos b + 1) mod size b =? read_pos b)%nat.

(** The unread samples, oldest first: the slots from [read_pos] up to
    [write_pos], around the end of the array. *)
Definition unread (b : t) : list PositionSample :=
  if (read_pos b <=? write_pos b)%nat
  then take (write_pos b - read_pos b) (drop (read_pos b) (buffer b))
  else drop (read_pos b) (buffer b) ++ take (write_pos b) (buffer b).

(** Cursors within the array, which is never empty. *)
Definition wf (b : t) : Prop :=
  (1 < size b)%nat /\ (write_pos b < size b)%nat /\ (read_pos b < size b)%nat.

End LockFreeBuffer.

(** A sequence of operations on the ring, by the producer and the consumer
    in any order. *)
Inductive RingOp :=
  | Write (sample : PositionSample)
  | Read.

Definition ring_op (b : LockFreeBuffer.t) (op : RingOp) : LockFreeBuffer.t :=
  match op with
  | Write sample => snd (LockFreeBuffer.try_write b sample)
  | Read => snd (LockFreeBuffer.try_read b)
  end.

Definition ring_run (ops : list RingOp) : LockFreeBuffer.t :=
  foldl ring_op LockFreeBuffer.init ops.

(** ** The vendor library (ecc.h) and the platform

    ecc.h, libecc and libmosquitto are external: a call is described by its
    arguments, and its outcome is whatever the platform answers. *)

Inductive EccCall :=
  | ECC_getPosition (handle axis : Z)
  | ECC_getFirmwareVersion (handle : Z)
  | ECC_getActorType (handle axis : Z)
  | ECC_getActorName (handle axis : Z)
  | ECC_controlAmplitude (handle axis value : Z) (set : bool)
  | ECC_controlFrequency (handle axis value : Z) (set : bool)
  | ECC_controlTargetRange (handle axis value : Z) (set : bool)
  | ECC_controlTargetPosition (handle axis value : Z) (set : bool)
  | ECC_controlMove (handle axis enable : Z) (set : bool)
  | ECC_getStatusReference (handle axis : Z)
  | ECC_getReferencePosition (handle axis : Z)
  | ECC_getStatusMoving (handle axis : Z)
  | ECC_getStatusTargetRange (handle axis : Z)
  | ECC_getStatusEotFwd (handle axis : Z)
  | ECC_getStatusEotBkwd (handle axis : Z).

(** The return code, the value left in the output argument, and the text left
    in a character buffer. *)
Record EccReply := mkReply { rc : Z; out : Z; out_text : string }.

Class Platform := {
  World : Type;
  (** a call into libecc *)
  ecc : EccCall -> World -> EccReply * World;
  (** [high_resolution_clock::now()] in nanoseconds *)
  clock_now : World -> Z * World;
  (** [sleep_for] / [sleep_until] / busy-wait up to a point in time *)
  wait_until : Z -> World -> World;
  (** [mosquitto_publish(client, nullptr, topic, len, payload, qos, retain)] *)
  mosquitto_publish : string -> string -> Z -> bool -> World -> Z * World;
  (** the enumerators of [ECC_actorType] *)
  ECC_actorLinear : Z;
  ECC_actorGonio : Z;
  ECC_actorRot : Z
}.

(** What the program does to its surroundings, in order. *)
Inductive Event :=
  | Ecc (c : EccCall) (r : EccReply)
  | Publish (topic payload : string) (qos : Z) (retain : bool) (result : Z)
  | Subscribe (topic : string) (qos : Z).

Definition is_publish (e : Event) : bool :=
  match e with Publish _ _ _ _ _ => true | _ => false end.

Definition ecc_call_of (e : Event) : option EccCall :=
  match e with Ecc c _ => Some c | _ => None end.

(** The messages published in a trace, and the libecc calls made in it. *)
Definition publishes (tr : list Event) : list Event := filter (fun e => is_publish e = true) tr.
Definition ecc_calls (tr : list Event) : list EccCall := omap ecc_call_of tr.

(** ** Global state *)

Record ControllerInfo := mkController {
  handle : Z;
  id : Z;
  connected : bool;
  axis0_connected : bool;   (* axes_connected[0] *)
  axis1_connected : bool;
  axis2_connected : bool
}.

Definition axes_connected (c : ControllerInfo) (axis : Z) : bool :=
  if axis =? 0 then axis0_connected c
  else if axis =? 1 then axis1_connected c
  else axis2_connected c.

Definition controller0 : ControllerInfo := mkController (-1) (-1) false false false false.

Section Program.
Context {P : Platform}.

Record Sys := mkSys {
  g_sample_rate_hz : Z;          (* int *)
  g_sample_interval_ns : Z;      (* int *)
  g_running : bool;
  g_controllers_connected : bool;
  g_mqtt_connected : bool;
  g_command_queue : list string; (* std::queue<std::string>, front first *)
  g_position_buffer : LockFreeBuffer.t;
  g_controllers_0 : ControllerInfo;   (* g_controllers[0] *)
  g_controllers_1 : ControllerInfo;   (* g_controllers[1] *)
  g_total_captured : Z;          (* std::atomic<uint64_t> *)
  g_total_published : Z;
  g_total_dropped : Z;
  world : World;
  trace : list Event             (* oldest first *)
}.

Definition g_controllers (s : Sys) (i : Z) : ControllerInfo :=
  if i =? 0 then g_controllers_0 s else g_controllers_1 s.

(** The globals as initialised at program start. *)
Definition initial (w : World) : Sys :=
  mkSys 80 (Z.quot 1000000000 80) true false false [] LockFreeBuffer.init
        controller0 controller0 0 0 0 w [].

(** *** The state monad of the program *)

Definition M (A : Type) : Type := Sys -> A * Sys.

Definition ret {A} (a : A) : M A := fun s => (a, s).
Definition bind {A B} (m : M A) (f : A -> M B) : M B :=
  fun s => let (a, s') := m s in f a s'.

Notation "x <- m ;; k" := (bind m (fun x => k))
  (at level 20, m at level 99, k at level 200, only parsing).
Notation "m ;;; k" := (bind m (fun _ => k))
  (at level 100, k at level 200, only parsing, right associativity).

Definition get : M Sys := fun s => (s, s).

Definition set_world (w : World) (s : Sys) : Sys :=
  mkSys (g_sample_rate_hz s) (g_sample_interval_ns s) (g_running s)
        (g_controllers_connected s) (g_mqtt_connected s) (g_command_queue s)
        (g_position_buffer s) (g_controllers_0 s) (g_controllers_1 s)
        (g_total_captured s) (g_total_published s) (g_total_dropped s)
        w (trace s).

Definition emit (e : Event) (s : Sys) : Sys :=
  mkSys (g_sample_rate_hz s) (g_sample_interval_ns s) (g_running s)
        (g_controllers_connected s) (g_mqtt_connected s) (g_command_queue s)
        (g_position_buffer s) (g_controllers_0 s) (g_controllers_1 s)
        (g_total_captured s) (g_total_published s) (g_total_dropped s)
        (world s) (trace s ++ [e]).

Definition set_rate (rate interval : Z) (s : Sys) : Sys :=
  mkSys rate interval (g_running s)
        (g_controllers_connected s) (g_mqtt_connected s) (g_command_queue s)
        (g_position_buffer s) (g_controllers_0 s) (g_controllers_1 s)
        (g_total_captured s) (g_total_published s) (g_total_dropped s)
        (world s) (trace s).

Definition set_mqtt_connected (b : bool) (s : Sys) : Sys :=
  mkSys (g_sample_rate_hz s) (g_sample_interval_ns s) (g_running s)
        (g_controllers_connected s) b (g_command_queue s)
        (g_position_buffer s) (g_controllers_0 s) (g_controllers_1 s)
        (g_total_captured s) (g_total_published s) (g_total_dropped s)
        (world s) (trace s).

Definition set_queue (q : list string) (s : Sys) : Sys :=
  mkSys (g_sample_rate_hz s) (g_sample_interval_ns s) (g_running s)
        (g_controllers_connected s) (g_mqtt_connected s) q
        (g_position_buffer s) (g_controllers_0 s) (g_controllers_1 s)
        (g_total_captured s) (g_total_published s) (g_total_dropped s)
        (world s) (trace s).

Definition set_buffer (b : LockFreeBuffer.t) (s : Sys) : Sys :=
  mkSys (g_sample_rate_hz s) (g_sample_interval_ns s) (g_running s)
        (g_controllers_connected s) (g_mqtt_connected s) (g_command_queue s)
        b (g_controllers_0 s) (g_controllers_1 s)
        (g_total_captured s) (g_total_published s) (g_total_dropped s)
        (world s) (trace s).

Definition set_counters (captured published dropped : Z) (s : Sys) : Sys :=
  mkSys (g_sample_rate_hz s) (g_sample_interval_ns s) (g_running s)
        (g_controllers_connected s) (g_mqtt_connected s) (g_command_queue s)
        (g_position_buffer s) (g_controllers_0 s) (g_controllers_1 s)
        captured published dropped (world s) (trace s).

(** A call into libecc: the platform answers, the call is recorded. *)
Definition call (c : EccCall) : M EccReply := fun s =>
  let (r, w) := ecc c (world s) in
  (r, emit (Ecc c r) (set_world w s)).

(** [std::chrono::...::now()] *)
Definition now : M Z := fun s =>
  let (t, w) := clock_now (world s) in (t, set_world w s).

(** [get_nanosecond_timestamp()]: the clock reading as [uint64_t]. *)
Definition get_nanosecond_timestamp : M Z :=
  t <- now ;; ret (wrap_uint64 t).

Definition publish (topic payload : string) (qos : Z) (retain : bool) : M Z := fun s =>
  let (r, w) := mosquitto_publish topic payload qos retain (world s) in
  (r, emit (Publish topic payload qos retain r) (set_world w s)).

Definition sleep_until (t : Z) : M unit := fun s =>
  (tt, set_world (wait_until t (world s)) s).

(** [if (c) { m }] *)
Definition when (c : bool) (m : M unit) : M unit := if c then m else ret tt.

(** *** Sampler thread *)

(** [read_all_positions_fast]: controller 0 carries X (axis 0), Y (axis 1) and
    Z (axis 2); controller 1 carries R (axis 0). *)
Definition read_axis (c : ControllerInfo) (axis : Z) : M (option Z) :=
  if axes_connected c axis then
    r <- call (ECC_getPosition (handle c) axis) ;;
    ret (if rc r =? 0 then Some (wrap_int32 (out r)) else None)
  else ret None.

Definition read_all_positions_fast : M PositionSample :=
  ts <- get_nanosecond_timestamp ;;
  s <- get ;;
  let sample := mkSample ts 0 0 0 0 0 in
  sample <-
    (if connected (g_controllers s 0) then
       x <- read_axis (g_controllers s 0) 0 ;;
       let sample := match x with
         | Some pos => mkSample (timestamp_ns sample) pos (y_position sample)
                         (z_position sample) (r_position sample)
                         (Z.lor (valid_mask sample) 1)
         | None => sample end in
       y <- read_axis (g_controllers s 0) 1 ;;
       let sample := match y with
         | Some pos => mkSample (timestamp_ns sample) (x_position sample) pos
                         (z_position sample) (r_position sample)
                         (Z.lor (valid_mask sample) 2)
         | None => sample end in
       z <- read_axis (g_controllers s 0) 2 ;;
       let sample := match z with
         | Some pos => mkSample (timestamp_ns sample) (x_position sample)
                         (y_position sample) pos (r_position sample)
                         (Z.lor (valid_mask sample) 4)
         | None => sample end in
       ret sample
     else ret sample) ;;
  if connected (g_controllers s 1) && axes_connected (g_controllers s 1) 0 then
    r <- call (ECC_getPosition (handle (g_controllers s 1)) 0) ;;
    ret (if rc r =? 0
         then mkSample (timestamp_ns sample) (x_position sample) (y_position sample)
                (z_position sample) (wrap_int32 (out r)) (Z.lor (valid_mask sample) 8)
         else sample)
  else ret sample.

(** The locals of [high_speed_sampler_thread]. *)
Record Sampler := mkSampler {
  target_interval : Z;     (* const, read once before the loop *)
  next_sample_time : Z;
  sample_count : Z;        (* uint64_t *)
  dropped_count : Z;
  debug_counter : Z
}.

(** The thread up to its loop: [target_interval] is initialised from
    [g_sample_interval_ns], [next_sample_time] from the clock. *)
Definition high_speed_sampler_thread_init : M Sampler :=
  s <- get ;;
  t <- now ;;
  ret (mkSampler (g_sample_interval_ns s) t 0 0 0).

(** One iteration of [while (g_running && g_controllers_connected)]. *)
Definition high_speed_sampler_thread_tick (l : Sampler) : M Sampler :=
  sample <- read_all_positions_fast ;;
  let debug := wrap_uint64 (debug_counter l + 1) in
  s <- get ;;
  let (ok, b) := LockFreeBuffer.try_write (g_position_buffer s) sample in
  l' <-
    (if ok then
       (fun s => (tt, set_counters (wrap_uint64 (g_total_captured s + 1))
                        (g_total_published s) (g_total_dropped s)
                        (set_buffer b s))) ;;;
       ret (mkSampler (target_interval l) (next_sample_time l)
              (wrap_uint64 (sample_count l + 1)) (dropped_count l) debug)
     else
       (fun s => (tt, set_counters (g_total_captured s) (g_total_published s)
                        (wrap_uint64 (g_total_dropped s + 1)) s)) ;;;
       ret (mkSampler (target_interval l) (next_sample_time l)
              (sample_count l) (wrap_uint64 (dropped_count l + 1)) debug)) ;;
  let next := next_sample_time l' + target_interval l' in
  t <- now ;;
  when (t <? next) (sleep_until next) ;;;
  ret (mkSampler (target_interval l') next (sample_count l')
         (dropped_count l') (debug_counter l')).

(** *** Publisher thread *)

Record Publisher := mkPublisher {
  published_count : Z;     (* uint64_t *)
  batch_count : Z;
  next_batch_time : Z
}.

Definition batch_interval : Z := 100 * 1000000.

(** [while (batch.size() < BUFFER_SIZE && try_read(sample)) batch.push_back(sample)];
    [fuel] is the number of iterations left before the batch is full. *)
Fixpoint collect (fuel : nat) (batch : list PositionSample) (b : LockFreeBuffer.t)
  : list PositionSample * LockFreeBuffer.t :=
  match fuel with
  | O => (batch, b)
  | S f =>
      if (length batch <? BUFFER_SIZE)%nat then
        match LockFreeBuffer.try_read b with
        | (Some sample, b') => collect f (batch ++ [sample]) b'
        | (None, b') => (batch, b')
        end
      else (batch, b)
  end.

(** The batched message: formatted samples separated by newlines. *)
Fixpoint batch_msg (batch : list PositionSample) : string :=
  match batch with
  | [] => ""
  | [p] => FastStringBuffer.format_position p
  | p :: rest =>
      FastStringBuffer.format_position p +:+ String newline "" +:+ batch_msg rest
  end.

(** One iteration of [while (g_running)] in [batch_publisher_thread]; the
    batch is empty when an iteration starts. *)
Definition batch_publisher_thread_iter (l : Publisher) : M Publisher :=
  s <- get ;;
  let (batch, b) := collect BUFFER_SIZE [] (g_position_buffer s) in
  (fun s => (tt, set_buffer b s)) ;;;
  l' <-
    (if negb (length batch =? 0)%nat then
       let batches := wrap_uint64 (batch_count l + 1) in
       s <- get ;;
       if g_mqtt_connected s then
         r <- publish MQTT_TOPIC_POSITION (batch_msg batch) 0 false ;;
         if r =? MOSQ_ERR_SUCCESS then
           (fun s => (tt, set_counters (g_total_captured s)
                            (wrap_uint64 (g_total_published s + Z.of_nat (length batch)))
                            (g_total_dropped s) s)) ;;;
           ret (mkPublisher (wrap_uint64 (published_count l + Z.of_nat (length batch)))
                  batches (next_batch_time l))
         else ret (mkPublisher (published_count l) batches (next_batch_time l))
       else ret (mkPublisher (published_count l) batches (next_batch_time l))
     else ret l) ;;
  sleep_until (next_batch_time l') ;;;
  ret (mkPublisher (published_count l') (batch_count l')
         (next_batch_time l' + batch_interval)).

(** *** std::istringstream and std::getline *)

Record istringstream := mkStream {
  remaining : string;
  eofbit : bool;
  failbit : bool
}.

Definition istringstream_of (text : string) : istringstream := mkStream text false false.

(** The characters before the first [delim], and what follows it when there
    is one. *)
Fixpoint split_delim (delim : ascii) (s : string) : string * option string :=
  match s with
  | "" => ("", None)
  | String c s' =>
      if Ascii.eqb c delim then ("", Some s')
      else let (line, rest) := split_delim delim s' in (String c line, rest)
  end.

(** [std::getline(iss, str, delim)] followed by the stream's conversion to
    [bool]: [Some str] when the stream is still good afterwards.  A stream
    that is not good on entry fails; otherwise characters are extracted up to
    and including the delimiter, the end of the text sets [eofbit], and
    extracting nothing at all sets [failbit]. *)
Definition getline (iss : istringstream) (delim : ascii) : option string * istringstream :=
  if eofbit iss || failbit iss then (None, mkStream (remaining iss) (eofbit iss) true)
  else
    match split_delim delim (remaining iss) with
    | (line, Some rest) => (Some line, mkStream rest false false)
    | ("", None) => (None, mkStream "" true true)
    | (line, None) => (Some line, mkStream "" true false)
    end.

(** *** Command processor thread *)

Definition nl : string := String newline "".

Definition yes_no (v : Z) : string := if v =? 0 then "NO" else "YES".
Definition detected_clear (v : Z) : string := if v =? 0 then "Clear" else "DETECTED".

(** [get_axis_name] *)
Definition get_axis_name (controller axis : Z) : string :=
  if controller =? 0 then
    if axis =? 0 then "X"
    else if axis =? 1 then "Y"
    else if axis =? 2 then "Z"
    else "UNKNOWN"
  else if (controller =? 1) && (axis =? 0) then "R"
  else "UNKNOWN".

(** The mapping of axis names to controller and axis numbers, as each of the
    SET_AMP, SET_FREQ, MOVE and STOP branches spells it out:
    [(controller, axis, valid_axis)]. *)
Definition axis_of_name (axis_str : string) : Z * Z * bool :=
  if String.eqb axis_str "X" then (0, 0, true)
  else if String.eqb axis_str "Y" then (0, 1, true)
  else if String.eqb axis_str "Z" then (0, 2, true)
  else if String.eqb axis_str "R" then (1, 0, true)
  else (-1, -1, false).

(** The units of an actor type ([switch (actor_type)]). *)
Definition actor_units (actor_type : Z) : string :=
  if actor_type =? ECC_actorLinear then " nm [Linear]"
  else if actor_type =? ECC_actorGonio then
    " " +:+ String (ascii_of_nat 194) (String (ascii_of_nat 181)
      (String (ascii_of_nat 194) (String (ascii_of_nat 176) ""))) +:+ " [Goniometer]"
  else if actor_type =? ECC_actorRot then
    " " +:+ String (ascii_of_nat 194) (String (ascii_of_nat 181)
      (String (ascii_of_nat 194) (String (ascii_of_nat 176) ""))) +:+ " [Rotator]"
  else "".

Definition moving_text (moving : Z) : string :=
  if moving =? 0 then "IDLE"
  else if moving =? 1 then "MOVING"
  else if moving =? 2 then "PENDING"
  else "UNKNOWN(" +:+ to_string moving +:+ ")".

(** The report of one connected axis, appended to [status]. *)
Definition status_axis (i : Z) (c : ControllerInfo) (axis : Z) (status : string) : M string :=
  let status := status +:+ "  Axis " +:+ to_string axis +:+ " (" +:+ get_axis_name i axis +:+ "):" in
  r <- call (ECC_getPosition (handle c) axis) ;;
  status <-
    (if rc r =? 0 then
       let status := status +:+ " " +:+ to_string (wrap_int32 (out r)) in
       t <- call (ECC_getActorType (handle c) axis) ;;
       let status := if rc t =? 0 then status +:+ actor_units (out t) else status in
       n <- call (ECC_getActorName (handle c) axis) ;;
       ret (if rc n =? 0 then status +:+ " (" +:+ out_text n +:+ ")" else status)
     else ret status) ;;
  let status := status +:+ nl in
  a <- call (ECC_controlAmplitude (handle c) axis 0 false) ;;
  let status := if rc a =? 0
    then status +:+ "    Amplitude: " +:+ to_string (wrap_int32 (out a)) +:+ " mV" +:+ nl
    else status in
  f <- call (ECC_controlFrequency (handle c) axis 0 false) ;;
  let status := if rc f =? 0
    then status +:+ "    Frequency: " +:+ to_string (wrap_int32 (out f)) +:+ " mHz" +:+ nl
    else status in
  g <- call (ECC_controlTargetRange (handle c) axis 0 false) ;;
  let status := if rc g =? 0
    then status +:+ "    Target Range: " +:+ to_string (wrap_int32 (out g)) +:+ " nm/"
           +:+ String (ascii_of_nat 194) (String (ascii_of_nat 181)
                (String (ascii_of_nat 194) (String (ascii_of_nat 176) ""))) +:+ nl
    else status in
  v <- call (ECC_getStatusReference (handle c) axis) ;;
  status <-
    (if rc v =? 0 then
       let status := status +:+ "    Reference Valid: " +:+ yes_no (out v) in
       status <-
         (if negb (out v =? 0) then
            p <- call (ECC_getReferencePosition (handle c) axis) ;;
            ret (if rc p =? 0
                 then status +:+ " (Position: " +:+ to_string (wrap_int32 (out p)) +:+ ")"
                 else status)
          else ret status) ;;
       ret (status +:+ nl)
     else ret status) ;;
  m <- call (ECC_getStatusMoving (handle c) axis) ;;
  let status := if rc m =? 0
    then status +:+ "    Moving Status: " +:+ moving_text (wrap_int32 (out m)) +:+ nl
    else status in
  tr <- call (ECC_getStatusTargetRange (handle c) axis) ;;
  let status := if rc tr =? 0
    then status +:+ "    In Target Range: " +:+ yes_no (out tr) +:+ nl
    else status in
  ef <- call (ECC_getStatusEotFwd (handle c) axis) ;;
  let status := if rc ef =? 0
    then status +:+ "    EOT Forward: " +:+ detected_clear (out ef) +:+ nl
    else status in
  eb <- call (ECC_getStatusEotBkwd (handle c) axis) ;;
  let status := if rc eb =? 0
    then status +:+ "    EOT Backward: " +:+ detected_clear (out eb) +:+ nl
    else status in
  ret (status +:+ nl).

(** [for (int axis = 0; axis < 3; ++axis)] over the axes from [axis] on. *)
Fixpoint status_axes (n : nat) (i : Z) (c : ControllerInfo) (axis : Z) (status : string)
  : M string :=
  match n with
  | O => ret status
  | S n' =>
      status <- (if axes_connected c axis then status_axis i c axis status else ret status) ;;
      status_axes n' i c (axis + 1) status
  end.

(** The report of controller [i]. *)
Definition status_controller (i : Z) (status : string) : M string :=
  s <- get ;;
  let c := g_controllers s i in
  if connected c then
    let status := status +:+ "Controller " +:+ to_string i +:+ " (ID=" +:+ to_string (id c) +:+ ")" +:+ nl in
    v <- call (ECC_getFirmwareVersion (handle c)) ;;
    let status := if rc v =? 0
      then status +:+ "  Firmware Version: " +:+ to_string (wrap_int32 (out v)) +:+ nl
      else status in
    status <- status_axes 3 i c 0 status ;;
    ret (status +:+ nl)
  else ret status.

Definition status_report : M string :=
  s <- get ;;
  let status :=
    "=== ECC100 MQTT System Status ===" +:+ nl +:+
    "MQTT Connected: " +:+ (if g_mqtt_connected s then "YES" else "NO") +:+ nl +:+
    "Controllers Connected: " +:+ (if g_controllers_connected s then "YES" else "NO") +:+ nl +:+
    "Sample Rate: " +:+ to_string (g_sample_rate_hz s) +:+ " Hz" +:+ nl +:+
    "Total Captured: " +:+ to_string (g_total_captured s) +:+ nl +:+
    "Total Published: " +:+ to_string (g_total_published s) +:+ nl +:+
    "Total Dropped: " +:+ to_string (g_total_dropped s) +:+ nl +:+
    "Buffer Usage: " +:+ to_string (Z.of_nat (LockFreeBuffer.available (g_position_buffer s)))
      +:+ "/" +:+ to_string (Z.of_nat (BUFFER_SIZE * 4)) +:+ nl +:+ nl in
  status <- status_controller 0 status ;;
  status_controller 1 status.

(** [if (g_mqtt_connected) { ...; mosquitto_publish(..., MQTT_TOPIC_RESULT, ..., 1, false); }]
    with the message [timestamp + text]. *)
Definition publish_result (text : string) : M unit :=
  s <- get ;;
  when (g_mqtt_connected s)
    (timestamp <- get_nanosecond_timestamp ;;
     publish MQTT_TOPIC_RESULT (to_string timestamp +:+ text) 1 false ;;;
     ret tt).

Definition cmd_status : M unit :=
  status <- status_report ;;
  publish_result ("/STATUS/SYSTEM_INFO/ALL/SUCCESS/" +:+ status).

Definition cmd_set_rate (cmd : string) : M unit :=
  let iss := istringstream_of cmd in
  match getline iss slash with
  | (Some rate_cmd, iss) =>
    match getline iss newline with
    | (Some rate_str, iss) =>
        let new_rate := atoi rate_str in
        if (100 <=? new_rate) && (new_rate <=? 15000) then
          (fun s => (tt, set_rate new_rate (Z.quot 1000000000 new_rate) s)) ;;;
          publish_result ("/COMMAND/SET_RATE/ALL/SUCCESS/Sampling rate set to " +:+ rate_str +:+ " Hz")
        else
          publish_result "/COMMAND/SET_RATE/ALL/FAILED/Invalid rate (must be 100-15000 Hz)"
    | (None, _) => ret tt   (* Invalid SET_RATE command format: console only *)
    end
  | (None, _) => ret tt
  end.

Definition cmd_set_amp (cmd : string) : M unit :=
  let iss := istringstream_of cmd in
  match getline iss slash with
  | (Some amp_cmd, iss) =>
    match getline iss slash with
    | (Some axis_str, iss) =>
      match getline iss newline with
      | (Some amp_str, iss) =>
          let amplitude := atoi amp_str in
          let '(controller, axis, valid_axis) := axis_of_name axis_str in
          if valid_axis && (0 <=? controller) && (0 <=? axis) then
            s <- get ;;
            if connected (g_controllers s controller)
               && axes_connected (g_controllers s controller) axis then
              r <- call (ECC_controlAmplitude (handle (g_controllers s controller)) axis amplitude true) ;;
              if rc r =? 0 then
                publish_result ("/COMMAND/SET_AMP/" +:+ axis_str +:+ "/SUCCESS/Amplitude set to " +:+ amp_str +:+ " mV")
              else
                publish_result ("/COMMAND/SET_AMP/" +:+ axis_str +:+ "/FAILED/Failed to set amplitude")
            else ret tt   (* Axis not connected: console only *)
          else ret tt     (* Invalid axis for SET_AMP: console only *)
      | (None, _) => ret tt   (* Invalid SET_AMP command format: console only *)
      end
    | (None, _) => ret tt
    end
  | (None, _) => ret tt
  end.

Definition cmd_set_freq (cmd : string) : M unit :=
  let iss := istringstream_of cmd in
  match getline iss slash with
  | (Some freq_cmd, iss) =>
    match getline iss slash with
    | (Some axis_str, iss) =>
      match getline iss newline with
      | (Some freq_str, iss) =>
          let frequency := atoi freq_str in
          let '(controller, axis, valid_axis) := axis_of_name axis_str in
          if valid_axis && (0 <=? controller) && (0 <=? axis) then
            s <- get ;;
            if connected (g_controllers s controller)
               && axes_connected (g_controllers s controller) axis then
              r <- call (ECC_controlFrequency (handle (g_controllers s controller)) axis frequency true) ;;
              if rc r =? 0 then
                publish_result ("/COMMAND/SET_FREQ/" +:+ axis_str +:+ "/SUCCESS/Frequency set to " +:+ freq_str +:+ " mHz")
              else
                publish_result ("/COMMAND/SET_FREQ/" +:+ axis_str +:+ "/FAILED/Failed to set frequency")
            else ret tt   (* Axis not connected: console only *)
          else ret tt     (* Invalid axis for SET_FREQ: console only *)
      | (None, _) => ret tt   (* Invalid SET_FREQ command format: console only *)
      end
    | (None, _) => ret tt
    end
  | (None, _) => ret tt
  end.

Definition cmd_move (cmd : string) : M unit :=
  let iss := istringstream_of cmd in
  match getline iss slash with
  | (Some move_cmd, iss) =>
    match getline iss slash with
    | (Some axis_str, iss) =>
      match getline iss newline with
      | (Some pos_str, iss) =>
          let target_position := atoi pos_str in
          let '(controller, axis, valid_axis) := axis_of_name axis_str in
          if valid_axis && (0 <=? controller) && (0 <=? axis) then
            s <- get ;;
            if connected (g_controllers s controller)
               && axes_connected (g_controllers s controller) axis then
              r1 <- call (ECC_controlTargetPosition (handle (g_controllers s controller)) axis target_position true) ;;
              if rc r1 =? 0 then
                r2 <- call (ECC_controlMove (handle (g_controllers s controller)) axis 1 true) ;;
                if rc r2 =? 0 then
                  publish_result ("/COMMAND/MOVE/" +:+ axis_str +:+ "/SUCCESS/Movement started to " +:+ pos_str)
                else
                  publish_result ("/COMMAND/MOVE/" +:+ axis_str +:+ "/FAILED/Failed to enable movement")
              else
                publish_result ("/COMMAND/MOVE/" +:+ axis_str +:+ "/FAILED/Failed to set target position")
            else
              publish_result ("/COMMAND/MOVE/" +:+ axis_str +:+ "/FAILED/Axis not connected")
          else
            publish_result ("/COMMAND/MOVE/" +:+ axis_str +:+ "/FAILED/Invalid axis name")
      | (None, _) => ret tt   (* Invalid MOVE command format: console only *)
      end
    | (None, _) => ret tt
    end
  | (None, _) => ret tt
  end.

Definition cmd_stop (cmd : string) : M unit :=
  let iss := istringstream_of cmd in
  match getline iss slash with
  | (Some stop_cmd, iss) =>
    match getline iss newline with
    | (Some axis_str, iss) =>
        let '(controller, axis, valid_axis) := axis_of_name axis_str in
        if valid_axis && (0 <=? controller) && (0 <=? axis) then
          s <- get ;;
          if connected (g_controllers s controller)
             && axes_connected (g_controllers s controller) axis then
            r <- call (ECC_controlMove (handle (g_controllers s controller)) axis 0 true) ;;
            if rc r =? 0 then
              publish_result ("/COMMAND/STOP/" +:+ axis_str +:+ "/SUCCESS/Movement stopped")
            else
              publish_result ("/COMMAND/STOP/" +:+ axis_str +:+ "/FAILED/Failed to stop movement")
          else ret tt   (* Axis not connected: console only *)
        else ret tt     (* Invalid axis for STOP: console only *)
    | (None, _) => ret tt   (* Invalid STOP command format: console only *)
    end
  | (None, _) => ret tt
  end.

(** The chain of comparisons on a dequeued command;
    [cmd.find(p) == 0] holds when [p] is a prefix of [cmd]. *)
Definition process_command (cmd : string) : M unit :=
  if String.eqb cmd "STATUS" then cmd_status
  else if String.prefix "SET_RATE/" cmd then cmd_set_rate cmd
  else if String.prefix "SET_AMP/" cmd then cmd_set_amp cmd
  else if String.prefix "SET_FREQ/" cmd then cmd_set_freq cmd
  else if String.prefix "MOVE/" cmd then cmd_move cmd
  else if String.prefix "STOP/" cmd then cmd_stop cmd
  else ret tt.   (* Unknown command: console only *)

(** One iteration of [while (g_running)] in [command_processor_thread]: take
    the front of the queue, if any, and process it. *)
Definition command_processor_thread_iter : M unit :=
  s <- get ;;
  match g_command_queue s with
  | cmd :: rest =>
      (fun s => (tt, set_queue rest s)) ;;;
      process_command cmd
  | [] => ret tt
  end.

(** *** MQTT callbacks *)

(** [mqtt_on_message]: a message with no payload is ignored, any other is
    pushed on the queue. *)
Definition mqtt_on_message (payload : option string) : M unit :=
  match payload with
  | None => ret tt
  | Some text => fun s => (tt, set_queue (g_command_queue s ++ [text]) s)
  end.

Definition mqtt_on_connect (result : Z) : M unit :=
  when (result =? 0)
    ((fun s => (tt, emit (Subscribe MQTT_TOPIC_COMMAND 0) (set_mqtt_connected true s))) ;;;
     ret tt).

Definition mqtt_on_disconnect (reason : Z) : M unit :=
  fun s => (tt, set_mqtt_connected false s).

(** *** What a computation leaves unchanged, and what it publishes *)

(** The flags, the ring, the controller table and the counters. *)
Definition stable (s s' : Sys) : Prop :=
  g_running s' = g_running s /\
  g_controllers_connected s' = g_controllers_connected s /\
  g_mqtt_connected s' = g_mqtt_connected s /\
  g_position_buffer s' = g_position_buffer s /\
  g_controllers_0 s' = g_controllers_0 s /\
  g_controllers_1 s' = g_controllers_1 s /\
  g_total_captured s' = g_total_captured s /\
  g_total_published s' = g_total_published s /\
  g_total_dropped s' = g_total_dropped s.

(** Every global but the platform and the trace. *)
Definition same_globals (s s' : Sys) : Prop :=
  g_sample_rate_hz s' = g_sample_rate_hz s /\
  g_sample_interval_ns s' = g_sample_interval_ns s /\
  g_command_queue s' = g_command_queue s /\
  stable s s'.

(** A computation that changes no global and publishes nothing. *)
Definition quiet {A} (m : M A) : Prop :=
  forall s, exists evs,
    same_globals s (snd (m s)) /\ trace (snd (m s)) = trace s ++ evs /\ publishes evs = [].

(** A computation of the command processor: it extends the trace, and what
    it publishes satisfies [Q], given whether the broker was connected. *)
Definition emits {A} (Q : bool -> list Event -> Prop) (m : M A) : Prop :=
  forall s, exists evs,
    stable s (snd (m s)) /\ trace (snd (m s)) = trace s ++ evs /\
    Q (g_mqtt_connected s) (publishes evs).

(** The same at one state. *)
Definition emits_at {A} (Q : bool -> list Event -> Prop) (m : M A) (s : Sys) : Prop :=
  exists evs,
    stable s (snd (m s)) /\ trace (snd (m s)) = trace s ++ evs /\
    Q (g_mqtt_connected s) (publishes evs).

Definition is_result (e : Event) : Prop :=
  exists payload r, e = Publish MQTT_TOPIC_RESULT payload 1 false r.

Definition no_result (c : bool) (p : list Event) : Prop := p = [].

Definition one_result (c : bool) (p : list Event) : Prop :=
  if c then exists e, p = [e] /\ is_result e else p = [].

Definition at_most_one_result (c : bool) (p : list Event) : Prop :=
  p = [] \/ (c = true /\ exists e, p = [e] /\ is_result e).

(** The text of the result of a MOVE command whose two libecc calls returned
    [rc1] and [rc2]. *)
Definition move_result_text (axis pos : string) (rc1 rc2 : Z) : string :=
  if rc1 =? 0 then
    if rc2 =? 0 then "/COMMAND/MOVE/" +:+ axis +:+ "/SUCCESS/Movement started to " +:+ pos
    else "/COMMAND/MOVE/" +:+ axis +:+ "/FAILED/Failed to enable movement"
  else "/COMMAND/MOVE/" +:+ axis +:+ "/FAILED/Failed to set target position".

(** What [publish_result text] adds to the trace when the clock reads [t]
    and the broker answers [r]. *)
Definition result_message (text : string) (t r : Z) : Event :=
  Publish MQTT_TOPIC_RESULT (to_string (wrap_uint64 t) +:+ text) 1 false r.

(** *** Commands that are answered, and commands that are ignored *)

(** The named axis exists and is connected. *)
Definition axis_available (s : Sys) (axis_str : string) : bool :=
  let '(controller, axis, valid_axis) := axis_of_name axis_str in
  valid_axis && connected (g_controllers s controller)
  && axes_connected (g_controllers s controller) axis.

(** Commands whose handler reaches a [mosquitto_publish] on every path. *)
Inductive answered (s : Sys) : string -> Prop :=
  | answered_status : answered s "STATUS"
  | answered_set_rate (rate : string) :
      rate <> "" -> answered s ("SET_RATE/" +:+ rate)
  | answered_move (axis pos : string) :
      contains slash axis = false -> pos <> "" ->
      answered s ("MOVE/" +:+ axis +:+ "/" +:+ pos)
  | answered_stop (axis : string) :
      axis_available s axis = true -> answered s ("STOP/" +:+ axis)
  | answered_set_amp (axis value : string) :
      axis_available s axis = true -> value <> "" ->
      answered s ("SET_AMP/" +:+ axis +:+ "/" +:+ value)
  | answered_set_freq (axis value : string) :
      axis_available s axis = true -> value <> "" ->
      answered s ("SET_FREQ/" +:+ axis +:+ "/" +:+ value).

(** A command that none of the comparisons of [command_processor_thread]
    recognises. *)
Definition unknown_command (cmd : string) : bool :=
  negb (String.eqb cmd "STATUS") && negb (String.prefix "SET_RATE/" cmd)
  && negb (String.prefix "SET_AMP/" cmd) && negb (String.prefix "SET_FREQ/" cmd)
  && negb (String.prefix "MOVE/" cmd) && negb (String.prefix "STOP/" cmd).

(** Commands that are only reported on the console: unknown ones, and known
    ones with a field missing. *)
Inductive ignored : string -> Prop :=
  | ignored_unknown (cmd : string) : unknown_command cmd = true -> ignored cmd
  | ignored_set_rate : ignored "SET_RATE/"
  | ignored_stop : ignored "STOP/"
  | ignored_move_axis (axis : string) :
      contains slash axis = false -> ignored ("MOVE/" +:+ axis)
  | ignored_move_pos (axis : string) :
      contains slash axis = false -> ignored ("MOVE/" +:+ axis +:+ "/")
  | ignored_set_amp_axis (axis : string) :
      contains slash axis = false -> ignored ("SET_AMP/" +:+ axis)
  | ignored_set_amp_value (axis : string) :
      contains slash axis = false -> ignored ("SET_AMP/" +:+ axis +:+ "/")
  | ignored_set_freq_axis (axis : string) :
      contains slash axis = false -> ignored ("SET_FREQ/" +:+ axis)
  | ignored_set_freq_value (axis : string) :
      contains slash axis = false -> ignored ("SET_FREQ/" +:+ axis +:+ "/").

(** *** The running system

    The three threads and the MQTT callbacks, interleaved at the granularity
    of one loop iteration or one callback: the schedules in which no thread
    is interrupted within an iteration.  [fine_step] further down interleaves
    the threads between their accesses to the ring and the counters; what
    relates the counters of different threads is stated there. *)

Record Machine := mkMachine {
  sys : Sys;
  sampler : Sampler;
  publisher : Publisher
}.

Inductive Step :=
  | SamplerTick
  | PublisherIter
  | CommandIter
  | OnMessage (payload : option string)
  | OnConnect (result : Z)
  | OnDisconnect (reason : Z).

(** The samples currently in the ring, as [available()] reports them. *)
Definition buffered (s : Sys) : Z :=
  Z.of_nat (LockFreeBuffer.available (g_position_buffer s)).

(** A position batch that was handed to the broker was accepted. *)
Definition batch_ok (e : Event) : bool :=
  match e with
  | Publish topic _ _ _ r =>
      negb (String.eqb topic MQTT_TOPIC_POSITION) || (r =? MOSQ_ERR_SUCCESS)
  | _ => true
  end.

(** The arrival of one message per payload. *)
Definition arrivals (payloads : list string) : list Step :=
  map (fun text => OnMessage (Some text)) payloads.

Definition step (m : Machine) (st : Step) : Machine :=
  match st with
  | SamplerTick =>
      if g_running (sys m) && g_controllers_connected (sys m) then
        let (l, s) := high_speed_sampler_thread_tick (sampler m) (sys m) in mkMachine s l (publisher m)
      else m
  | PublisherIter =>
      if g_running (sys m) then
        let (l, s) := batch_publisher_thread_iter (publisher m) (sys m) in mkMachine s (sampler m) l
      else m
  | CommandIter =>
      if g_running (sys m) then
        mkMachine (snd (command_processor_thread_iter (sys m))) (sampler m) (publisher m)
      else m
  | OnMessage payload =>
      mkMachine (snd (mqtt_on_message payload (sys m))) (sampler m) (publisher m)
  | OnConnect result =>
      mkMachine (snd (mqtt_on_connect result (sys m))) (sampler m) (publisher m)
  | OnDisconnect reason =>
      mkMachine (snd (mqtt_on_disconnect reason (sys m))) (sampler m) (publisher m)
  end.

Definition run (m : Machine) (steps : list Step) : Machine := foldl step m steps.

(** The state in which [main] has initialised MQTT and the controllers and
    the threads have reached their loops: the broker is connected, the
    controller table is filled in. *)
Definition ready (w : World) (c0 c1 : ControllerInfo) : Sys :=
  mkSys 80 (Z.quot 1000000000 80) true true true [] LockFreeBuffer.init
        c0 c1 0 0 0 w [].

Definition boot (w : World) (c0 c1 : ControllerInfo) : Machine :=
  let (l, s) := high_speed_sampler_thread_init (ready w c0 c1) in
  let (t, s) := now s in
  mkMachine s l (mkPublisher 0 0 (t + batch_interval)).

End Program.

(** ** A simulated platform

    A platform that can be run: the clock advances by one microsecond at
    every reading, libecc answers as a table says, and the broker accepts or
    refuses every message as [sim_publish_rc] says. *)

Record SimWorld := mkSim {
  sim_time : Z;
  sim_ecc : EccCall -> EccReply;
  sim_publish_rc : Z
}.

#[local] Instance sim : Platform := {|
  World := SimWorld;
  ecc c w := (sim_ecc w c, w);
  clock_now w := (sim_time w, mkSim (sim_time w + 1000) (sim_ecc w) (sim_publish_rc w));
  wait_until t w := mkSim (Z.max t (sim_time w)) (sim_ecc w) (sim_publish_rc w);
  mosquitto_publish _ _ _ _ w := (sim_publish_rc w, w);
  ECC_actorLinear := 0;
  ECC_actorGonio := 1;
  ECC_actorRot := 2
|}.

(** Every call succeeds and reads 42. *)
Definition ecc_ok (c : EccCall) : EccReply := mkReply 0 42 "ECS3030".

(** Every call succeeds except enabling a move. *)
Definition ecc_move_fails (c : EccCall) : EccReply :=
  match c with
  | ECC_controlMove _ _ 1 true => mkReply (-1) 0 ""
  | _ => mkReply 0 42 "ECS3030"
  end.

(** Every call succeeds; a position read on axis [n] yields [100 + n]. *)
Definition ecc_by_axis (c : EccCall) : EccReply :=
  match c with
  | ECC_getPosition _ axis => mkReply 0 (100 + axis) ""
  | _ => mkReply 0 0 ""
  end.

(** Two controllers with every axis connected, handles 7 and 9. *)
Definition xyz_controller : ControllerInfo := mkController 7 4 true true true true.
Definition r_controller : ControllerInfo := mkController 9 2222 true true false false.

Definition sim_ready (f : EccCall -> EccReply) : Sys :=
  ready (mkSim 1000000 f 0) xyz_controller r_controller.

(** A state around a given ring. *)
Definition sim_with_ring (b : LockFreeBuffer.t) : Sys :=
  mkSys 80 12500000 true true true [] b xyz_controller r_controller 0 0 0
        (mkSim 0 ecc_ok 0) [].

(** The writes that fill the ring: one slot stays free. *)
Definition filled_ring : list RingOp := replicate (BUFFER_SIZE * 4 - 1) (Write sample0).

Definition sim_boot : Machine := boot (mkSim 1000000 ecc_ok 0) xyz_controller r_controller.

(** ** What the producer and the consumer see of the ring *)

(** The ring together with the samples that [try_write] has accepted and the
    samples that [try_read] has returned, each in order. *)
Record RingView := mkView {
  view_ring : LockFreeBuffer.t;
  view_accepted : list PositionSample;
  view_returned : list PositionSample
}.

Definition ring_observe_op (v : RingView) (op : RingOp) : RingView :=
  match op with
  | Write sample =>
      let (ok, b) := LockFreeBuffer.try_write (view_ring v) sample in
      mkView b (if ok then view_accepted v ++ [sample] else view_accepted v)
             (view_returned v)
  | Read =>
      let (r, b) := LockFreeBuffer.try_read (view_ring v) in
      mkView b (view_accepted v)
             (match r with Some x => view_returned v ++ [x] | None => view_returned v end)
  end.

Definition ring_observe (ops : list RingOp) : RingView :=
  foldl ring_observe_op (mkView LockFreeBuffer.init [] []) ops.

(** The capacity of the ring: one slot of the array stays free. *)
Definition RING_CAPACITY : nat := BUFFER_SIZE * 4 - 1.


(** ** Counting characters *)

(** The number of occurrences of a character in a text. *)
Fixpoint count_char (c : ascii) (s : string) : nat :=
  match s with
  | "" => 0
  | String d s' => (if Ascii.eqb c d then 1 else 0) + count_char c s'
  end.

(** ** The locals of the threads and the shared counters *)

Section Locals.
Context {P : Platform}.

(** The sampler counts in its locals what it counts in the shared counters,
    and so does the publisher. *)
Definition locals_agree (m : Machine) : Prop :=
  sample_count (sampler m) = g_total_captured (sys m) /\
  dropped_count (sampler m) = g_total_dropped (sys m) /\
  debug_counter (sampler m)
    = wrap_uint64 (g_total_captured (sys m) + g_total_dropped (sys m)) /\
  published_count (publisher m) = g_total_published (sys m).

End Locals.

Definition is_sampler_tick (st : Step) : bool :=
  match st with SamplerTick => true | _ => false end.

Definition is_publisher_iter (st : Step) : bool :=
  match st with PublisherIter => true | _ => false end.

(** How many of the steps are of a kind. *)
Definition count_steps (kind : Step -> bool) (steps : list Step) : Z :=
  Z.of_nat (length (filter (fun st => kind st = true) steps)).

(** ** What the sampler asks of libecc *)

(** A position read, whatever it returned. *)
Definition is_position_read (e : Event) : bool :=
  match e with Ecc (ECC_getPosition _ _) _ => true | _ => false end.

Section Reads.
Context {P : Platform}.

(** From [s] to [s'] at most [n] calls were made, all of them position
    reads, and no global was changed. *)
Definition reads (n : nat) (s s' : Sys) : Prop :=
  same_globals s s' /\
  exists evs, trace s' = trace s ++ evs /\ (length evs <= n)%nat /\
              forallb is_position_read evs = true.

End Reads.

(** ** What the command handlers report *)

Section Reports.
Context {P : Platform}.

(** The result of a MOVE command that names an axis the program cannot
    address. *)
Definition move_refusal_text (axis : string) : string :=
  let '(_, _, valid_axis) := axis_of_name axis in
  if valid_axis then "/COMMAND/MOVE/" +:+ axis +:+ "/FAILED/Axis not connected"
  else "/COMMAND/MOVE/" +:+ axis +:+ "/FAILED/Invalid axis name".

(** Processing [cmd] in state [s] makes the one call [c] and reports on its
    return code: [ok] when it is 0, [failed] otherwise. *)
Definition reports (s : Sys) (cmd : string) (c : EccCall) (ok failed : string) : Prop :=
  let (r, _) := ecc c (world s) in
  let s' := snd (process_command cmd s) in
  same_globals s s' /\
  exists results,
    trace s' = trace s ++ [Ecc c r] ++ results /\
    if g_mqtt_connected s
    then exists t r', results = [result_message (if rc r =? 0 then ok else failed) t r']
    else results = [].

End Reports.

(** ** Invariants of the running system *)

Section Invariants.
Context {P : Platform}.

(** A computation that keeps an invariant of the globals. *)
Definition preserves {A} (I : Sys -> Prop) (m : M A) : Prop :=
  forall s, I s -> I (snd (m s)).

(** The sampling rate is the initial one or one that SET_RATE accepts, and
    the interval is the one computed from it. *)
Definition rate_ok (s : Sys) : Prop :=
  (g_sample_rate_hz s = 80 \/ 100 <= g_sample_rate_hz s <= 15000) /\
  g_sample_interval_ns s = Z.quot 1000000000 (g_sample_rate_hz s).

End Invariants.

(** A call that only reads from the device: a getter, or a control function
    called with [set] = 0. *)
Definition is_query (c : EccCall) : bool :=
  match c with
  | ECC_controlAmplitude _ _ _ set
  | ECC_controlFrequency _ _ _ set
  | ECC_controlTargetRange _ _ _ set
  | ECC_controlTargetPosition _ _ _ set
  | ECC_controlMove _ _ _ set => negb set
  | _ => true
  end.

Definition query_event (e : Event) : bool :=
  match e with Ecc c _ => is_query c | _ => true end.

Definition is_subscribe (e : Event) : bool :=
  match e with Subscribe _ _ => true | _ => false end.

(** The subscriptions made in a trace. *)
Definition subscriptions (tr : list Event) : list Event :=
  filter (fun e => is_subscribe e = true) tr.

Definition is_command_iter (st : Step) : bool :=
  match st with CommandIter => true | _ => false end.

(** The payloads that arrive in a sequence of steps, in order. *)
Definition arrived (steps : list Step) : list string :=
  omap (fun st => match st with OnMessage (Some text) => Some text | _ => None end) steps.

(** What the connect and disconnect callbacks make of the connection flag. *)
Definition connection_after (c : bool) (steps : list Step) : bool :=
  foldl (fun c st =>
           match st with
           | OnConnect result => if result =? 0 then true else c
           | OnDisconnect _ => false
           | _ => c
           end) c steps.

Definition is_successful_connect (st : Step) : bool :=
  match st with OnConnect result => result =? 0 | _ => false end.

(** ** Start-up and shutdown of the controllers

    [initialize_controllers] is called by [main] before the threads start;
    [cleanup_controllers] stands after the loop of [main].  They use
    functions of libecc that the threads do not use. *)

Inductive EccSetupCall :=
  | ECC_Check
  | ECC_ReleaseInfo
  | ECC_getDeviceInfo (device : Z)
  | ECC_Connect (device : Z)
  | ECC_getStatusConnected (handle axis : Z)
  | ECC_controlOutput (handle axis enable : Z) (set : bool)
  | ECC_Close (handle : Z).

(** The return value and what is left in the output arguments: the number of
    controllers for [ECC_Check]; [id] and [locked] for [ECC_getDeviceInfo];
    the handle for [ECC_Connect]; the flag for [ECC_getStatusConnected]. *)
Record SetupReply := mkSetup { setup_rc : Z; setup_out : Z; setup_locked : Z }.

Class Devices (P : Platform) := {
  ecc_setup : EccSetupCall -> World -> SetupReply * World
}.

(** The calls into libecc in the order in which they are made. *)
Inductive LibCall :=
  | Control (c : EccCall)
  | Setup (c : EccSetupCall).

(** [axes_connected[axis] = true] *)
Definition set_axis_connected (c : ControllerInfo) (axis : Z) : ControllerInfo :=
  if axis =? 0 then
    mkController (handle c) (id c) (connected c) true (axis1_connected c) (axis2_connected c)
  else if axis =? 1 then
    mkController (handle c) (id c) (connected c) (axis0_connected c) true (axis2_connected c)
  else
    mkController (handle c) (id c) (connected c) (axis0_connected c) (axis1_connected c) true.

(** What start-up asks of a device before the threads run. *)
Definition is_probe (c : LibCall) : bool :=
  match c with
  | Setup (ECC_getDeviceInfo _) | Setup (ECC_Connect _)
  | Setup (ECC_getStatusConnected _ _) => true
  | Setup (ECC_controlOutput _ _ enable set) => (enable =? 1) && set
  | _ => false
  end.

(** What [ECC_controlMove] leaves in its argument, read as [Bln32]. *)
Definition left_in_argument (r : EccReply) : Z := wrap_int32 (out r).

(** What shutdown asks of one controller of the table, given what libecc
    answers to the [ECC_controlMove] calls: for each connected axis movement
    is disabled, and output is set to what that call left in the variable
    that both calls share; then the handle is closed. *)
Definition shutdown_axis (c : ControllerInfo) (axis : Z) (r : EccReply) : list LibCall :=
  if axes_connected c axis
  then [Control (ECC_controlMove (handle c) axis 0 true);
        Setup (ECC_controlOutput (handle c) axis (left_in_argument r) true)]
  else [].

Definition shutdown_calls (c : ControllerInfo) (r0 r1 r2 : EccReply) : list LibCall :=
  if connected c && negb (handle c =? -1)
  then shutdown_axis c 0 r0 ++ shutdown_axis c 1 r1 ++ shutdown_axis c 2 r2
       ++ [Setup (ECC_Close (handle c))]
  else [].

(** The calls of shutdown that the trace records, with their replies. *)
Definition shutdown_axis_events (c : ControllerInfo) (axis : Z) (r : EccReply) : list Event :=
  if axes_connected c axis then [Ecc (ECC_controlMove (handle c) axis 0 true) r] else [].

Definition shutdown_events (c : ControllerInfo) (r0 r1 r2 : EccReply) : list Event :=
  if connected c && negb (handle c =? -1)
  then shutdown_axis_events c 0 r0 ++ shutdown_axis_events c 1 r1
       ++ shutdown_axis_events c 2 r2
  else [].

Section Lifecycle.
Context {P : Platform} {D : Devices P}.

Definition set_controller (i : Z) (c : ControllerInfo) (s : Sys) : Sys :=
  mkSys (g_sample_rate_hz s) (g_sample_interval_ns s) (g_running s)
        (g_controllers_connected s) (g_mqtt_connected s) (g_command_queue s)
        (g_position_buffer s)
        (if i =? 0 then c else g_controllers_0 s)
        (if i =? 0 then g_controllers_1 s else c)
        (g_total_captured s) (g_total_published s) (g_total_dropped s)
        (world s) (trace s).

Definition set_controllers_connected (b : bool) (s : Sys) : Sys :=
  mkSys (g_sample_rate_hz s) (g_sample_interval_ns s) (g_running s)
        b (g_mqtt_connected s) (g_command_queue s)
        (g_position_buffer s) (g_controllers_0 s) (g_controllers_1 s)
        (g_total_captured s) (g_total_published s) (g_total_dropped s)
        (world s) (trace s).

(** Everything but the platform, the controller table and
    [g_controllers_connected]. *)
Definition untouched (s s' : Sys) : Prop :=
  g_sample_rate_hz s' = g_sample_rate_hz s /\
  g_sample_interval_ns s' = g_sample_interval_ns s /\
  g_running s' = g_running s /\
  g_mqtt_connected s' = g_mqtt_connected s /\
  g_command_queue s' = g_command_queue s /\
  g_position_buffer s' = g_position_buffer s /\
  g_total_captured s' = g_total_captured s /\
  g_total_published s' = g_total_published s /\
  g_total_dropped s' = g_total_dropped s /\
  trace s' = trace s.

(** The controller table as it is before start-up. *)
Definition table_fresh (s : Sys) : Prop :=
  g_controllers_0 s = controller0 /\ g_controllers_1 s = controller0.

(** *** The state monad of start-up and shutdown: the globals and the calls
    made so far *)

Definition L (A : Type) : Type := Sys * list LibCall -> A * (Sys * list LibCall).

Definition lret {A} (a : A) : L A := fun st => (a, st).
Definition lbind {A B} (m : L A) (f : A -> L B) : L B :=
  fun st => let (a, st') := m st in f a st'.

Notation "x <- m ;; k" := (lbind m (fun x => k))
  (at level 20, m at level 99, k at level 200, only parsing).
Notation "m ;;; k" := (lbind m (fun _ => k))
  (at level 100, k at level 200, only parsing, right associativity).

Definition lget : L Sys := fun st => (fst st, st).

Definition modify (f : Sys -> Sys) : L unit := fun st => (tt, (f (fst st), snd st)).

Definition setup (c : EccSetupCall) : L SetupReply := fun st =>
  let (r, w) := ecc_setup c (world (fst st)) in
  (r, (set_world w (fst st), snd st ++ [Setup c])).

Definition control (c : EccCall) : L EccReply := fun st =>
  let (r, s') := call c (fst st) in (r, (s', snd st ++ [Control c])).

(** *** initialize_controllers *)

(** The body of [for (int axis = 0; axis < 3; ++axis)]. *)
Definition init_axis (i handle axis : Z) : L unit :=
  r <- setup (ECC_getStatusConnected handle axis) ;;
  if (setup_rc r =? 0) && negb (setup_out r =? 0) then
    modify (fun s => set_controller i (set_axis_connected (g_controllers s i) axis) s) ;;;
    setup (ECC_controlOutput handle axis 1 true) ;;;
    lret tt
  else lret tt.

Fixpoint init_axes (n : nat) (i handle axis : Z) : L unit :=
  match n with
  | O => lret tt
  | S n' => init_axis i handle axis ;;; init_axes n' i handle (axis + 1)
  end.

(** The body of [for (int i = 0; i < std::min(num_controllers, 2); ++i)];
    [continue] ends it. *)
Definition init_controller (i : Z) : L unit :=
  d <- setup (ECC_getDeviceInfo i) ;;
  if negb (setup_rc d =? 0) then lret tt
  else if negb (setup_locked d =? 0) then lret tt
  else
    c <- setup (ECC_Connect i) ;;
    if negb (setup_rc c =? 0) then lret tt
    else
      let handle := wrap_int32 (setup_out c) in
      modify (fun s =>
        set_controller i
          (mkController handle (wrap_int32 (setup_out d)) true
             (axis0_connected (g_controllers s i)) (axis1_connected (g_controllers s i))
             (axis2_connected (g_controllers s i))) s) ;;;
      init_axes 3 i handle 0.

Fixpoint init_controllers (n : nat) (i bound : Z) : L unit :=
  match n with
  | O => lret tt
  | S n' =>
      if i <? bound then init_controller i ;;; init_controllers n' (i + 1) bound
      else lret tt
  end.

Definition initialize_controllers : L bool :=
  n <- setup ECC_Check ;;
  let num_controllers := wrap_int32 (setup_rc n) in
  if num_controllers <=? 0 then
    setup ECC_ReleaseInfo ;;;
    lret false
  else
    init_controllers 2 0 (Z.min num_controllers 2) ;;;
    setup ECC_ReleaseInfo ;;;
    modify (set_controllers_connected true) ;;;
    lret true.

(** *** cleanup_controllers *)

(** [Bln32 disable = 0] is passed by address to [ECC_controlMove] and then to
    [ECC_controlOutput]: the second call is given what the first left in it. *)
Definition cleanup_axis (c : ControllerInfo) (axis : Z) : L unit :=
  if axes_connected c axis then
    r <- control (ECC_controlMove (handle c) axis 0 true) ;;
    setup (ECC_controlOutput (handle c) axis (left_in_argument r) true) ;;;
    lret tt
  else lret tt.

Fixpoint cleanup_axes (n : nat) (c : ControllerInfo) (axis : Z) : L unit :=
  match n with
  | O => lret tt
  | S n' => cleanup_axis c axis ;;; cleanup_axes n' c (axis + 1)
  end.

(** The body of [for (auto& controller : g_controllers)]. *)
Definition cleanup_controller (i : Z) : L unit :=
  s <- lget ;;
  let c := g_controllers s i in
  if connected c && negb (handle c =? -1) then
    cleanup_axes 3 c 0 ;;;
    setup (ECC_Close (handle c)) ;;;
    lret tt
  else lret tt.

Definition cleanup_controllers : L unit :=
  cleanup_controller 0 ;;;
  cleanup_controller 1.

End Lifecycle.

(** Devices on the simulated platform: libecc answers as a table says. *)
Definition sim_devices (table : EccSetupCall -> SetupReply) : Devices sim :=
  {| ecc_setup c w := (table c, w) |}.

(** Two controllers are found; the first has axes 0 and 1 connected, the
    second is locked. *)
Definition second_locked (c : EccSetupCall) : SetupReply :=
  match c with
  | ECC_Check => mkSetup 2 0 0
  | ECC_getDeviceInfo 0 => mkSetup 0 4 0
  | ECC_getDeviceInfo _ => mkSetup 0 2222 1
  | ECC_Connect device => mkSetup 0 (7 + device) 0
  | ECC_getStatusConnected _ 2 => mkSetup 0 0 0
  | ECC_getStatusConnected _ _ => mkSetup 0 1 0
  | _ => mkSetup 0 0 0
  end.

(** One controller is found and cannot be queried. *)
Definition none_usable (c : EccSetupCall) : SetupReply :=
  match c with
  | ECC_Check => mkSetup 1 0 0
  | _ => mkSetup (-1) 0 0
  end.

(** One controller is found whose handle is -1. *)
Definition handle_minus_one (c : EccSetupCall) : SetupReply :=
  match c with
  | ECC_Check => mkSetup 1 0 0
  | ECC_getDeviceInfo _ => mkSetup 0 4 0
  | ECC_Connect _ => mkSetup 0 (-1) 0
  | ECC_getStatusConnected _ _ => mkSetup 0 1 0
  | _ => mkSetup 0 0 0
  end.

(** What start-up asks about one axis of a controller that ends up in the
    table as [c], and about the controller as a whole once it is connected. *)
Definition startup_axis (c : ControllerInfo) (axis : Z) : list LibCall :=
  Setup (ECC_getStatusConnected (handle c) axis)
  :: (if axes_connected c axis then [Setup (ECC_controlOutput (handle c) axis 1 true)] else []).

Definition startup_calls (i : Z) (c : ControllerInfo) : list LibCall :=
  Setup (ECC_Connect i) :: startup_axis c 0 ++ startup_axis c 1 ++ startup_axis c 2.

(** How device [i] was probed, given its entry [c] of the table after
    start-up and the calls [new] made after [ECC_getDeviceInfo]: it was
    connected and its axes were gone through, or its entry is as before. *)
Definition probed (i : Z) (c : ControllerInfo) (new : list LibCall) : Prop :=
  if connected c then new = startup_calls i c
  else c = controller0 /\ (new = [] \/ new = [Setup (ECC_Connect i)]).

(** ** The formatter where C++ defines its behaviour

    [int32_to_string] negates a negative value in [int32_t].  The negation
    of the least [int32_t] is not representable, and signed overflow is
    undefined behaviour: what a build prints there is not determined by the
    source.  The functions below are the formatter with that made explicit:
    [None] stands for undefined behaviour. *)

(** [value = -value] in [int32_t]. *)
Definition negate_int32 (value : Z) : option Z :=
  if (INT32_MIN <=? - value) && (- value <=? INT32_MAX) then Some (- value) else None.

(** The part of [int32_to_string] after the sign. *)
Definition int32_digits (value : Z) : string :=
  if value =? 0 then "0"
  else FastStringBuffer.copy_reversed (FastStringBuffer.fill_temp_s 16 value []).

Definition int32_to_string_defined (value : Z) : option string :=
  if value <? 0 then
    match negate_int32 value with
    | Some value' => Some ("-" +:+ int32_digits value')
    | None => None
    end
  else Some (int32_digits value).

(** A position field of [format_position]. *)
Definition field_defined (p : PositionSample) (bit pos : Z) : option string :=
  if mask_set p bit then int32_to_string_defined pos else Some "NaN".

Definition format_position_defined (p : PositionSample) : option string :=
  match field_defined p 1 (x_position p), field_defined p 2 (y_position p),
        field_defined p 4 (z_position p), field_defined p 8 (r_position p) with
  | Some x, Some y, Some z, Some r =>
      Some (FastStringBuffer.uint64_to_string (timestamp_ns p) +:+ "/" +:+
            x +:+ "/" +:+ y +:+ "/" +:+ z +:+ "/" +:+ r)
  | _, _, _, _ => None
  end.

(** A field that is marked valid and holds the least [int32_t]. *)
Definition least_int32_field (p : PositionSample) : Prop :=
  (mask_set p 1 = true /\ x_position p = INT32_MIN) \/
  (mask_set p 2 = true /\ y_position p = INT32_MIN) \/
  (mask_set p 4 = true /\ z_position p = INT32_MIN) \/
  (mask_set p 8 = true /\ r_position p = INT32_MIN).

(** The position line as the interface description has it. *)
Definition position_line (p : PositionSample) : string :=
  to_string (timestamp_ns p) +:+ "/" +:+
  position_field (mask_set p 1) (x_position p) +:+ "/" +:+
  position_field (mask_set p 2) (y_position p) +:+ "/" +:+
  position_field (mask_set p 4) (z_position p) +:+ "/" +:+
  position_field (mask_set p 8) (r_position p).

(** ** Position tokens *)




(** ** The threads between their accesses to the ring and the counters

    A tick of the sampler and an iteration of the publisher are not atomic:
    the sampler stores a sample in the ring ([try_write]) and counts it
    afterwards ([fetch_add]); the publisher takes samples from the ring one
    by one ([try_read]), hands the batch to the broker, and counts it
    afterwards.  The other thread can run in between.  Here each thread
    goes from one access of the ring or of a counter to the next, and the
    threads and the callbacks are interleaved at that granularity.  A call
    of [try_write] or [try_read] and a [fetch_add] are one step each, and
    all threads see the steps in one order: each counter is written by one
    thread only, and the ring has one producer and one consumer, each of
    which publishes its cursor with a release store at the end of the
    call. *)

(** Where the sampler is: at the top of its loop, or past [try_write] (which
    returned [ok]) and before the [fetch_add] that counts the sample. *)
Inductive SamplerPhase :=
  | AtLoopTop
  | Wrote (ok : bool).

(** Where the publisher is: in the drain loop with the batch collected so
    far (at the top of its loop the batch is empty); past the drain loop;
    or past [mosquitto_publish] (which returned [result]) and before the
    [fetch_add] that counts the batch. *)
Inductive PublisherPhase :=
  | Draining (batch : list PositionSample)
  | Drained (batch : list PositionSample)
  | Sent (batch : list PositionSample) (result : Z).

(** The batch in the hands of the publisher. *)
Definition batch_of (ph : PublisherPhase) : list PositionSample :=
  match ph with Draining batch | Drained batch | Sent batch _ => batch end.

(** Who acts next. *)
Inductive Action :=
  | SamplerAction
  | PublisherAction
  | CommandAction
  | MessageArrives (payload : option string)
  | Connects (result : Z)
  | Disconnects (reason : Z).

Definition no_disconnect (a : Action) : bool :=
  match a with Disconnects _ => false | _ => true end.

Section Fine.
Context {P : Platform}.

Notation "x <- m ;; k" := (bind m (fun x => k))
  (at level 20, m at level 99, k at level 200, only parsing).
Notation "m ;;; k" := (bind m (fun _ => k))
  (at level 100, k at level 200, only parsing, right associativity).

(** *** The sampler: up to [try_write], and from there to the end of the tick *)

Definition sampler_write (l : Sampler) : M (Sampler * bool) :=
  sample <- read_all_positions_fast ;;
  let debug := wrap_uint64 (debug_counter l + 1) in
  s <- get ;;
  let (ok, b) := LockFreeBuffer.try_write (g_position_buffer s) sample in
  when ok (fun s => (tt, set_buffer b s)) ;;;
  ret (mkSampler (target_interval l) (next_sample_time l) (sample_count l)
         (dropped_count l) debug, ok).

Definition sampler_count (l : Sampler) (ok : bool) : M Sampler :=
  l' <-
    (if ok then
       (fun s => (tt, set_counters (wrap_uint64 (g_total_captured s + 1))
                        (g_total_published s) (g_total_dropped s) s)) ;;;
       ret (mkSampler (target_interval l) (next_sample_time l)
              (wrap_uint64 (sample_count l + 1)) (dropped_count l) (debug_counter l))
     else
       (fun s => (tt, set_counters (g_total_captured s) (g_total_published s)
                        (wrap_uint64 (g_total_dropped s + 1)) s)) ;;;
       ret (mkSampler (target_interval l) (next_sample_time l)
              (sample_count l) (wrap_uint64 (dropped_count l + 1)) (debug_counter l))) ;;
  let next := next_sample_time l' + target_interval l' in
  t <- now ;;
  when (t <? next) (sleep_until next) ;;;
  ret (mkSampler (target_interval l') next (sample_count l')
         (dropped_count l') (debug_counter l')).

(** *** The publisher: one turn of the drain loop, the publication, and the
    counting *)

(** [batch.size() < BUFFER_SIZE && g_position_buffer.try_read(sample)] and, if
    it holds, [batch.push_back(sample)]. *)
Definition publisher_read (batch : list PositionSample) : M PublisherPhase :=
  if (length batch <? BUFFER_SIZE)%nat then
    s <- get ;;
    match LockFreeBuffer.try_read (g_position_buffer s) with
    | (Some sample, b) =>
        (fun s => (tt, set_buffer b s)) ;;;
        ret (Draining (batch ++ [sample]))
    | (None, _) => ret (Drained batch)
    end
  else ret (Drained batch).

(** The drain loop: turns of [publisher_read] until one ends it; [fuel]
    bounds their number. *)
Fixpoint publisher_drain (fuel : nat) (batch : list PositionSample)
  : M (list PositionSample) :=
  match fuel with
  | O => ret batch
  | S f =>
      ph <- publisher_read batch ;;
      match ph with
      | Draining batch' => publisher_drain f batch'
      | _ => ret (batch_of ph)
      end
  end.

(** From the end of the drain loop to [mosquitto_publish]; a batch that is
    empty, or that is skipped because the broker is not connected, ends the
    iteration ([batch.clear()], then the wait). *)
Definition publisher_publish (l : Publisher) (batch : list PositionSample)
  : M (Publisher * PublisherPhase) :=
  if negb (length batch =? 0)%nat then
    let batches := wrap_uint64 (batch_count l + 1) in
    s <- get ;;
    if g_mqtt_connected s then
      r <- publish MQTT_TOPIC_POSITION (batch_msg batch) 0 false ;;
      ret (mkPublisher (published_count l) batches (next_batch_time l), Sent batch r)
    else
      sleep_until (next_batch_time l) ;;;
      ret (mkPublisher (published_count l) batches (next_batch_time l + batch_interval),
           Draining [])
  else
    sleep_until (next_batch_time l) ;;;
    ret (mkPublisher (published_count l) (batch_count l) (next_batch_time l + batch_interval),
         Draining []).

(** From the return of [mosquitto_publish] to the end of the iteration. *)
Definition publisher_count (l : Publisher) (batch : list PositionSample) (result : Z)
  : M Publisher :=
  l' <-
    (if result =? MOSQ_ERR_SUCCESS then
       (fun s => (tt, set_counters (g_total_captured s)
                        (wrap_uint64 (g_total_published s + Z.of_nat (length batch)))
                        (g_total_dropped s) s)) ;;;
       ret (mkPublisher (wrap_uint64 (published_count l + Z.of_nat (length batch)))
              (batch_count l) (next_batch_time l))
     else ret l) ;;
  sleep_until (next_batch_time l') ;;;
  ret (mkPublisher (published_count l') (batch_count l')
         (next_batch_time l' + batch_interval)).

(** *** The interleaved system *)

Record Fine := mkFine {
  fine_sys : Sys;
  fine_sampler : Sampler;
  sampler_phase : SamplerPhase;
  fine_publisher : Publisher;
  publisher_phase : PublisherPhase;
  (** A count that the program does not keep, for stating what becomes of
      the samples; no action reads it: the samples of the batches that the
      publisher has cleared without counting them. *)
  samples_discarded : Z
}.

Definition fine_step (m : Fine) (a : Action) : Fine :=
  match a with
  | SamplerAction =>
      match sampler_phase m with
      | AtLoopTop =>
          if g_running (fine_sys m) && g_controllers_connected (fine_sys m) then
            let (x, s) := sampler_write (fine_sampler m) (fine_sys m) in
            mkFine s (fst x) (Wrote (snd x)) (fine_publisher m) (publisher_phase m)
                   (samples_discarded m)
          else m
      | Wrote ok =>
          let (l, s) := sampler_count (fine_sampler m) ok (fine_sys m) in
          mkFine s l AtLoopTop (fine_publisher m) (publisher_phase m)
                 (samples_discarded m)
      end
  | PublisherAction =>
      match publisher_phase m with
      | Draining batch =>
          if match batch with [] => g_running (fine_sys m) | _ => true end then
            let (ph, s) := publisher_read batch (fine_sys m) in
            mkFine s (fine_sampler m) (sampler_phase m) (fine_publisher m) ph
                   (samples_discarded m)
          else m
      | Drained batch =>
          let (x, s) := publisher_publish (fine_publisher m) batch (fine_sys m) in
          mkFine s (fine_sampler m) (sampler_phase m) (fst x) (snd x)
                 (samples_discarded m
                  + match snd x with Sent _ _ => 0 | _ => Z.of_nat (length batch) end)
      | Sent batch result =>
          let (l, s) := publisher_count (fine_publisher m) batch result (fine_sys m) in
          mkFine s (fine_sampler m) (sampler_phase m) l (Draining [])
                 (samples_discarded m
                  + if result =? MOSQ_ERR_SUCCESS then 0 else Z.of_nat (length batch))
      end
  | CommandAction =>
      if g_running (fine_sys m) then
        mkFine (snd (command_processor_thread_iter (fine_sys m)))
               (fine_sampler m) (sampler_phase m) (fine_publisher m) (publisher_phase m)
               (samples_discarded m)
      else m
  | MessageArrives payload =>
      mkFine (snd (mqtt_on_message payload (fine_sys m)))
             (fine_sampler m) (sampler_phase m) (fine_publisher m) (publisher_phase m)
             (samples_discarded m)
  | Connects result =>
      mkFine (snd (mqtt_on_connect result (fine_sys m)))
             (fine_sampler m) (sampler_phase m) (fine_publisher m) (publisher_phase m)
             (samples_discarded m)
  | Disconnects reason =>
      mkFine (snd (mqtt_on_disconnect reason (fine_sys m)))
             (fine_sampler m) (sampler_phase m) (fine_publisher m) (publisher_phase m)
             (samples_discarded m)
  end.

Definition fine_run (m : Fine) (actions : list Action) : Fine := foldl fine_step m actions.

(** The threads at the top of their loops. *)
Definition fine_start (s : Sys) (l : Sampler) (p : Publisher) : Fine :=
  mkFine s l AtLoopTop p (Draining []) 0.

(** The counters and the ring as they are when the program starts. *)
Definition nothing_sampled (s : Sys) : Prop :=
  g_position_buffer s = LockFreeBuffer.init /\
  g_total_captured s = 0 /\ g_total_published s = 0 /\ g_total_dropped s = 0.

(** A sample that is in the ring and not yet counted as captured; a sample
    that the ring refused and that is not yet counted as dropped; and the
    samples in the hands of the publisher. *)
Definition pending_captured (m : Fine) : Z :=
  match sampler_phase m with Wrote true => 1 | _ => 0 end.

Definition pending_dropped (m : Fine) : Z :=
  match sampler_phase m with Wrote false => 1 | _ => 0 end.

Definition held (m : Fine) : Z := Z.of_nat (length (batch_of (publisher_phase m))).

(** What holds between the actions of a run of [n] actions. *)
Definition accounts (m : Fine) (n : nat) : Prop :=
  LockFreeBuffer.wf (g_position_buffer (fine_sys m)) /\
  0 <= g_total_captured (fine_sys m) /\ 0 <= g_total_published (fine_sys m) /\
  0 <= g_total_dropped (fine_sys m) /\ 0 <= samples_discarded m /\
  g_total_captured (fine_sys m) + pending_captured m
    = g_total_published (fine_sys m) + buffered (fine_sys m) + held m + samples_discarded m /\
  g_total_captured (fine_sys m) + pending_captured m
    + g_total_dropped (fine_sys m) + pending_dropped m = debug_counter (fine_sampler m) /\
  debug_counter (fine_sampler m) <= Z.of_nat n.

(** The batch that was handed to the broker is in the trace, with what the
    broker answered. *)
Definition sent_recorded (m : Fine) : Prop :=
  match publisher_phase m with
  | Sent batch result =>
      exists payload,
        In (Publish MQTT_TOPIC_POSITION payload 0 false result) (trace (fine_sys m))
  | _ => True
  end.

(** The shared counters are as they were. *)
Definition counters_kept (s s' : Sys) : Prop :=
  g_total_captured s' = g_total_captured s /\
  g_total_published s' = g_total_published s /\
  g_total_dropped s' = g_total_dropped s.

(** What one action does to the ring, the counters, the phases and the
    trace: the eight cases of [fine_step]. *)
Inductive acted (m m' : Fine) : Prop :=
  | did_nothing (evs : list Event) :
      g_position_buffer (fine_sys m') = g_position_buffer (fine_sys m) ->
      counters_kept (fine_sys m) (fine_sys m') ->
      sampler_phase m' = sampler_phase m ->
      publisher_phase m' = publisher_phase m ->
      debug_counter (fine_sampler m') = debug_counter (fine_sampler m) ->
      samples_discarded m' = samples_discarded m ->
      trace (fine_sys m') = trace (fine_sys m) ++ evs ->
      acted m m'
  | did_write (sample : PositionSample) (ok : bool) (evs : list Event) :
      sampler_phase m = AtLoopTop ->
      sampler_phase m' = Wrote ok ->
      LockFreeBuffer.try_write (g_position_buffer (fine_sys m)) sample
        = (ok, g_position_buffer (fine_sys m')) ->
      counters_kept (fine_sys m) (fine_sys m') ->
      publisher_phase m' = publisher_phase m ->
      debug_counter (fine_sampler m')
        = wrap_uint64 (debug_counter (fine_sampler m) + 1) ->
      samples_discarded m' = samples_discarded m ->
      trace (fine_sys m') = trace (fine_sys m) ++ evs ->
      acted m m'
  | did_count (ok : bool) :
      sampler_phase m = Wrote ok ->
      sampler_phase m' = AtLoopTop ->
      g_position_buffer (fine_sys m') = g_position_buffer (fine_sys m) ->
      g_total_captured (fine_sys m')
        = (if ok then wrap_uint64 (g_total_captured (fine_sys m) + 1)
           else g_total_captured (fine_sys m)) ->
      g_total_dropped (fine_sys m')
        = (if ok then g_total_dropped (fine_sys m)
           else wrap_uint64 (g_total_dropped (fine_sys m) + 1)) ->
      g_total_published (fine_sys m') = g_total_published (fine_sys m) ->
      publisher_phase m' = publisher_phase m ->
      debug_counter (fine_sampler m') = debug_counter (fine_sampler m) ->
      samples_discarded m' = samples_discarded m ->
      trace (fine_sys m') = trace (fine_sys m) ->
      acted m m'
  | did_read (batch : list PositionSample) (sample : PositionSample) :
      publisher_phase m = Draining batch ->
      publisher_phase m' = Draining (batch ++ [sample]) ->
      LockFreeBuffer.try_read (g_position_buffer (fine_sys m))
        = (Some sample, g_position_buffer (fine_sys m')) ->
      counters_kept (fine_sys m) (fine_sys m') ->
      sampler_phase m' = sampler_phase m ->
      debug_counter (fine_sampler m') = debug_counter (fine_sampler m) ->
      samples_discarded m' = samples_discarded m ->
      trace (fine_sys m') = trace (fine_sys m) ->
      acted m m'
  | did_end_drain (batch : list PositionSample) :
      publisher_phase m = Draining batch ->
      publisher_phase m' = Drained batch ->
      g_position_buffer (fine_sys m') = g_position_buffer (fine_sys m) ->
      counters_kept (fine_sys m) (fine_sys m') ->
      sampler_phase m' = sampler_phase m ->
      debug_counter (fine_sampler m') = debug_counter (fine_sampler m) ->
      samples_discarded m' = samples_discarded m ->
      trace (fine_sys m') = trace (fine_sys m) ->
      acted m m'
  | did_send (batch : list PositionSample) (result : Z) :
      publisher_phase m = Drained batch ->
      publisher_phase m' = Sent batch result ->
      g_mqtt_connected (fine_sys m) = true ->
      g_position_buffer (fine_sys m') = g_position_buffer (fine_sys m) ->
      counters_kept (fine_sys m) (fine_sys m') ->
      sampler_phase m' = sampler_phase m ->
      debug_counter (fine_sampler m') = debug_counter (fine_sampler m) ->
      samples_discarded m' = samples_discarded m ->
      trace (fine_sys m')
        = trace (fine_sys m)
          ++ [Publish MQTT_TOPIC_POSITION (batch_msg batch) 0 false result] ->
      acted m m'
  | did_skip (batch : list PositionSample) :
      publisher_phase m = Drained batch ->
      publisher_phase m' = Draining [] ->
      batch = [] \/ g_mqtt_connected (fine_sys m) = false ->
      g_position_buffer (fine_sys m') = g_position_buffer (fine_sys m) ->
      counters_kept (fine_sys m) (fine_sys m') ->
      sampler_phase m' = sampler_phase m ->
      debug_counter (fine_sampler m') = debug_counter (fine_sampler m) ->
      samples_discarded m' = samples_discarded m + Z.of_nat (length batch) ->
      trace (fine_sys m') = trace (fine_sys m) ->
      acted m m'
  | did_count_batch (batch : list PositionSample) (result : Z) :
      publisher_phase m = Sent batch result ->
      publisher_phase m' = Draining [] ->
      g_position_buffer (fine_sys m') = g_position_buffer (fine_sys m) ->
      g_total_captured (fine_sys m') = g_total_captured (fine_sys m) ->
      g_total_dropped (fine_sys m') = g_total_dropped (fine_sys m) ->
      g_total_published (fine_sys m')
        = (if result =? MOSQ_ERR_SUCCESS
           then wrap_uint64 (g_total_published (fine_sys m) + Z.of_nat (length batch))
           else g_total_published (fine_sys m)) ->
      sampler_phase m' = sampler_phase m ->
      debug_counter (fine_sampler m') = debug_counter (fine_sampler m) ->
      samples_discarded m'
        = samples_discarded m
          + (if result =? MOSQ_ERR_SUCCESS then 0 else Z.of_nat (length batch)) ->
      trace (fine_sys m') = trace (fine_sys m) ->
      acted m m'.

End Fine.

(** * Properties *)

(** ** Decimal text *)

Section Decimal.

Lemma append_nil_r (s : string) : s +:+ "" = s.
Proof. induction s as [|c s IH]; simpl; [reflexivity | now rewrite IH]. Qed.

Lemma append_assoc (a b c : string) : (a +:+ b) +:+ c = a +:+ (b +:+ c).
Proof. induction a as [|x a IH]; simpl; [reflexivity | now rewrite IH]. Qed.

Lemma string_of_list_ascii_app (l1 l2 : list ascii) :
  string_of_list_ascii (l1 ++ l2) = string_of_list_ascii l1 +:+ string_of_list_ascii l2.
Proof. induction l1 as [|x l1 IH]; simpl; [reflexivity | now rewrite IH]. Qed.

Lemma contains_app (c : ascii) (a b : string) :
  contains c (a +:+ b) = contains c a || contains c b.
Proof.
  induction a as [|x a IH]; simpl; [reflexivity |].
  rewrite IH. now rewrite orb_assoc.
Qed.

Lemma char_code_digit_char (d : Z) : 0 <= d < 10 -> char_code (digit_char d) = 48 + d.
Proof.
  intros Hd. unfold char_code, digit_char.
  rewrite nat_ascii_embedding by lia. lia.
Qed.

Lemma isdigit_digit_char (d : Z) : 0 <= d < 10 -> isdigit (digit_char d) = true.
Proof.
  intros Hd. unfold isdigit. rewrite char_code_digit_char by assumption.
  apply andb_true_intro. split; apply Z.leb_le; lia.
Qed.

(** A digit is no white space, no sign and no line end. *)
Lemma isdigit_plain (c : ascii) :
  isdigit c = true ->
  isspace c = false /\ Ascii.eqb c "-" = false /\ Ascii.eqb c "+" = false
  /\ Ascii.eqb c newline = false /\ Ascii.eqb c slash = false.
Proof.
  destruct c as [[] [] [] [] [] [] [] []]; vm_compute; intros H;
    first [discriminate H | repeat split].
Qed.

Lemma pow10_succ (f : nat) : 10 ^ Z.of_nat (S f) = 10 * 10 ^ Z.of_nat f.
Proof. rewrite Nat2Z.inj_succ, Z.pow_succ_r by lia. reflexivity. Qed.

(** Enough fuel is as good as any other. *)
Lemma dec_digits_fuel (f f' : nat) (v : Z) :
  (0 < f)%nat -> (0 < f')%nat ->
  0 <= v < 10 ^ Z.of_nat f -> v < 10 ^ Z.of_nat f' ->
  dec_digits f v = dec_digits f' v.
Proof.
  revert f' v. induction f as [|f IH]; intros f' v Hf Hf' Hv Hv'; [lia |].
  destruct f' as [|f']; [lia |]. simpl.
  destruct (v <? 10) eqn:E; [reflexivity |].
  apply Z.ltb_ge in E. rewrite !pow10_succ in *.
  assert (0 <= v / 10 < 10 ^ Z.of_nat f).
  { split; [apply Z.div_pos; lia | apply Z.div_lt_upper_bound; lia]. }
  assert (v / 10 < 10 ^ Z.of_nat f') by (apply Z.div_lt_upper_bound; lia).
  assert (1 <= v / 10) by (apply Z.div_le_lower_bound; lia).
  f_equal. apply IH; try lia.
  - destruct f; [simpl in *; lia | lia].
  - destruct f'; [simpl in *; lia | lia].
Qed.

Lemma dec_digits_head (f : nat) (v : Z) :
  (0 < f)%nat -> 0 <= v ->
  exists c s, dec_digits f v = String c s /\ isdigit c = true.
Proof.
  revert v. induction f as [|f IH]; intros v Hf Hv; [lia |]. simpl.
  destruct (v <? 10) eqn:E.
  - apply Z.ltb_lt in E. eexists _, _. split; [reflexivity |].
    apply isdigit_digit_char. lia.
  - apply Z.ltb_ge in E. destruct f as [|f].
    + simpl. eexists _, _. split; [reflexivity |].
      apply isdigit_digit_char. apply Z.mod_pos_bound. lia.
    + destruct (IH (v / 10)) as (c & s & Hs & Hc); [lia | apply Z.div_pos; lia |].
      rewrite Hs. simpl. eauto.
Qed.

Lemma dec_digits_no (c : ascii) (f : nat) (v : Z) :
  (forall d, isdigit d = true -> Ascii.eqb c d = false) ->
  0 <= v -> contains c (dec_digits f v) = false.
Proof.
  intros Hc. revert v. induction f as [|f IH]; intros v Hv; [reflexivity |]. simpl.
  destruct (v <? 10) eqn:E.
  - apply Z.ltb_lt in E. simpl. rewrite Hc; [reflexivity |].
    apply isdigit_digit_char. lia.
  - apply Z.ltb_ge in E. rewrite contains_app, IH by (apply Z.div_pos; lia).
    simpl. rewrite Hc; [reflexivity |].
    apply isdigit_digit_char. apply Z.mod_pos_bound. lia.
Qed.

(** [strtol] reads back what [dec_digits] printed. *)
Lemma strtol_digits_dec (f : nat) (v : Z) (rest : string) :
  0 <= v < 10 ^ Z.of_nat f ->
  strtol_digits (dec_digits f v +:+ rest) 0 = strtol_digits rest v.
Proof.
  revert v rest. induction f as [|f IH]; intros v rest Hv.
  - simpl in *. replace v with 0 by lia. reflexivity.
  - simpl. destruct (v <? 10) eqn:E.
    + apply Z.ltb_lt in E. simpl.
      rewrite isdigit_digit_char, char_code_digit_char by lia.
      f_equal. lia.
    + apply Z.ltb_ge in E. rewrite pow10_succ in Hv.
      rewrite append_assoc, IH.
      2:{ split; [apply Z.div_pos; lia | apply Z.div_lt_upper_bound; lia]. }
      pose proof (Z.mod_pos_bound v 10 ltac:(lia)) as Hm.
      simpl. rewrite isdigit_digit_char, char_code_digit_char by lia.
      f_equal. pose proof (Z.div_mod v 10 ltac:(lia)). lia.
Qed.

Lemma wrap_int32_id (z : Z) : is_int32 z -> wrap_int32 z = z.
Proof.
  unfold is_int32, INT32_MIN, INT32_MAX, wrap_int32. intros H.
  rewrite Z.mod_small by lia. lia.
Qed.

Lemma wrap_int32_range (z : Z) : is_int32 (wrap_int32 z).
Proof.
  unfold is_int32, INT32_MIN, INT32_MAX, wrap_int32.
  pose proof (Z.mod_pos_bound (z + 2 ^ 31) (2 ^ 32) ltac:(lia)). lia.
Qed.

(** [atoi] is a left inverse of [to_string] on [int]. *)
Lemma atoi_to_string (n : Z) : is_int32 n -> atoi (to_string n) = n.
Proof.
  intros Hn. pose proof Hn as Hr. unfold is_int32, INT32_MIN, INT32_MAX in Hr.
  assert (Hval : strtol_skip (to_string n) = n).
  { unfold to_string. destruct (n <? 0) eqn:E.
    - apply Z.ltb_lt in E.
      pose proof (strtol_digits_dec 20 (- n) "") as H.
      rewrite append_nil_r in H.
      remember (dec_digits 20 (- n)) as d. simpl.
      rewrite H by (simpl; lia). simpl. lia.
    - apply Z.ltb_ge in E.
      destruct (dec_digits_head 20 n) as (c & s & Hs & Hc); [lia | lia |].
      destruct (isdigit_plain c Hc) as (Hsp & Hm & Hp & _).
      pose proof (strtol_digits_dec 20 n "") as H.
      rewrite append_nil_r in H.
      remember (dec_digits 20 n) as d. subst d. rewrite Hs in *.
      unfold strtol_skip, strtol_signed. rewrite Hsp, Hm, Hp.
      rewrite H by (simpl; lia). reflexivity. }
  unfold atoi, strtol. rewrite Hval.
  unfold LONG_MIN, LONG_MAX.
  rewrite Z.min_r, Z.max_r by lia. now apply wrap_int32_id.
Qed.

Lemma to_string_nonempty (n : Z) : to_string n <> "".
Proof.
  unfold to_string. destruct (n <? 0) eqn:E; [discriminate |].
  apply Z.ltb_ge in E.
  destruct (dec_digits_head 20 n) as (c & s & Hs & _); [lia | lia |].
  rewrite Hs. discriminate.
Qed.

Lemma to_string_one_line (n : Z) : contains newline (to_string n) = false.
Proof.
  unfold to_string. destruct (n <? 0) eqn:E.
  - apply Z.ltb_lt in E.
    remember (dec_digits 20 (- n)) as ds eqn:Hds. simpl. subst ds.
    apply dec_digits_no; [| lia].
    intros d Hd. destruct (isdigit_plain d Hd) as (_ & _ & _ & H & _).
    now rewrite Ascii.eqb_sym.
  - apply Z.ltb_ge in E. apply dec_digits_no; [| lia].
    intros d Hd. destruct (isdigit_plain d Hd) as (_ & _ & _ & H & _).
    now rewrite Ascii.eqb_sym.
Qed.

End Decimal.

(** ** The formatter *)

Section Formatter.

Import FastStringBuffer.

Lemma fill_temp_u_dec (f : nat) (v : Z) (temp : list ascii) :
  0 < v < 10 ^ Z.of_nat f ->
  copy_reversed (fill_temp_u f v temp) = dec_digits f v +:+ copy_reversed temp.
Proof.
  unfold copy_reversed.
  revert v temp. induction f as [|f IH]; intros v temp Hv; [simpl in Hv; lia |].
  rewrite pow10_succ in Hv. simpl.
  replace (0 <? v) with true by (symmetry; apply Z.ltb_lt; lia).
  destruct (v <? 10) eqn:E.
  - apply Z.ltb_lt in E. rewrite (Z.div_small v 10), (Z.mod_small v 10) by lia.
    replace (fill_temp_u f 0 (temp ++ [digit_char v])) with (temp ++ [digit_char v])%list
      by (destruct f; reflexivity).
    rewrite rev_app_distr. reflexivity.
  - apply Z.ltb_ge in E. rewrite IH.
    + rewrite rev_app_distr, append_assoc. reflexivity.
    + split; [| apply Z.div_lt_upper_bound; lia].
      apply Z.lt_le_trans with 1; [lia | apply Z.div_le_lower_bound; lia].
Qed.

Lemma fill_temp_s_u (f : nat) (v : Z) (temp : list ascii) :
  0 <= v -> fill_temp_s f v temp = fill_temp_u f v temp.
Proof.
  revert v temp. induction f as [|f IH]; intros v temp Hv; [reflexivity |]. simpl.
  rewrite Z.quot_div_nonneg, Z.rem_mod_nonneg by lia.
  destruct (0 <? v); [| reflexivity]. apply IH. apply Z.div_pos; lia.
Qed.

(** [uint64_to_string] prints the decimal text of every [uint64_t]. *)
Lemma uint64_to_string_decimal (v : Z) : is_uint64 v -> uint64_to_string v = to_string v.
Proof.
  unfold is_uint64, UINT64_MOD, uint64_to_string, to_string. intros Hv.
  replace (v <? 0) with false by (symmetry; apply Z.ltb_ge; lia).
  destruct (v =? 0) eqn:E.
  - apply Z.eqb_eq in E. subst v. reflexivity.
  - apply Z.eqb_neq in E. rewrite fill_temp_u_dec by (simpl; lia).
    unfold copy_reversed. change (string_of_list_ascii (rev [])) with "".
    rewrite append_nil_r. apply dec_digits_fuel; simpl; lia.
Qed.

(** [int32_to_string] prints the decimal text of every [int32_t] above the
    least one. *)
Lemma int32_to_string_decimal (v : Z) :
  INT32_MIN < v <= INT32_MAX -> int32_to_string v = to_string v.
Proof.
  unfold INT32_MIN, INT32_MAX, int32_to_string, to_string. intros Hv.
  destruct (v <? 0) eqn:E.
  - apply Z.ltb_lt in E.
    rewrite wrap_int32_id by (unfold is_int32, INT32_MIN, INT32_MAX; lia).
    replace (- v =? 0) with false by (symmetry; apply Z.eqb_neq; lia).
    rewrite fill_temp_s_u, fill_temp_u_dec by (simpl; lia).
    unfold copy_reversed. change (string_of_list_ascii (rev [])) with "".
    rewrite append_nil_r.
    rewrite (dec_digits_fuel 16 20) by (simpl; lia). reflexivity.
  - apply Z.ltb_ge in E. destruct (v =? 0) eqn:E0.
    + apply Z.eqb_eq in E0. subst v. reflexivity.
    + apply Z.eqb_neq in E0.
      rewrite fill_temp_s_u, fill_temp_u_dec by (simpl; lia).
      unfold copy_reversed. change (string_of_list_ascii (rev [])) with "".
      rewrite append_nil_r.
      rewrite (dec_digits_fuel 16 20) by (simpl; lia). reflexivity.
Qed.

(** Away from the least [int32_t], a sample is formatted as
    [<timestamp>/<X>/<Y>/<Z>/<R>] with decimal fields, [NaN] standing for a
    field exactly when its bit of [valid_mask] is clear. *)
Lemma format_position_decimal (p : PositionSample) :
  sample_wf p ->
  x_position p <> INT32_MIN -> y_position p <> INT32_MIN ->
  z_position p <> INT32_MIN -> r_position p <> INT32_MIN ->
  format_position p =
    to_string (timestamp_ns p) +:+ "/" +:+
    position_field (mask_set p 1) (x_position p) +:+ "/" +:+
    position_field (mask_set p 2) (y_position p) +:+ "/" +:+
    position_field (mask_set p 4) (z_position p) +:+ "/" +:+
    position_field (mask_set p 8) (r_position p).
Proof.
  intros (Ht & Hx & Hy & Hz & Hr & _) Nx Ny Nz Nr.
  unfold format_position, position_field, is_int32 in *.
  rewrite uint64_to_string_decimal by assumption.
  rewrite !int32_to_string_decimal by lia. reflexivity.
Qed.

End Formatter.

(** ** The ring *)

Section Ring.

Import LockFreeBuffer.

Lemma init_wf : wf init.
Proof.
  unfold wf, size.
  change (buffer init) with (replicate (BUFFER_SIZE * 4) sample0).
  change (write_pos init) with 0%nat. change (read_pos init) with 0%nat.
  rewrite length_replicate. unfold BUFFER_SIZE. lia.
Qed.

Lemma next_pos (i n : nat) :
  (i < n)%nat ->
  ((i + 1) mod n = if (i + 1 =? n)%nat then 0 else i + 1)%nat.
Proof.
  intros Hi. destruct (i + 1 =? n)%nat eqn:E.
  - apply Nat.eqb_eq in E. rewrite E. apply Nat.Div0.mod_same.
  - apply Nat.eqb_neq in E. apply Nat.mod_small. lia.
Qed.

Lemma try_write_wf (b : t) (sample : PositionSample) :
  wf b -> wf (snd (try_write b sample)).
Proof.
  unfold wf, try_write, size. intros (Hn & Hw & Hr).
  destruct (_ =? _)%nat; simpl; [auto |].
  rewrite length_insert. repeat split; try assumption.
  apply Nat.mod_upper_bound. lia.
Qed.

Lemma try_read_wf (b : t) : wf b -> wf (snd (try_read b)).
Proof.
  unfold wf, try_read, size. intros (Hn & Hw & Hr).
  destruct (_ =? _)%nat; simpl; [auto |].
  repeat split; try assumption. apply Nat.mod_upper_bound. lia.
Qed.

Lemma ring_run_wf (ops : list RingOp) : wf (ring_run ops).
Proof.
  unfold ring_run. induction ops as [|op ops IH] using rev_ind; [apply init_wf |].
  rewrite foldl_app. simpl. destruct op; simpl.
  - now apply try_write_wf.
  - now apply try_read_wf.
Qed.

(** [available] counts the unread samples. *)
Lemma available_unread (b : t) : wf b -> available b = length (unread b).
Proof.
  unfold wf, available, unread, size. intros (Hn & Hw & Hr).
  destruct (_ <=? _)%nat eqn:E.
  - apply Nat.leb_le in E. rewrite length_take, length_drop. lia.
  - apply Nat.leb_gt in E. rewrite length_app, length_take, length_drop. lia.
Qed.

(** One slot always stays free. *)
Lemma unread_bound (b : t) : wf b -> (length (unread b) < size b)%nat.
Proof.
  intros H. rewrite <- available_unread by assumption.
  unfold wf, available, size in *. destruct H as (Hn & Hw & Hr).
  destruct (_ <=? _)%nat eqn:E; [apply Nat.leb_le in E | apply Nat.leb_gt in E]; lia.
Qed.

(** A full ring refuses the sample and is left as it was. *)
Lemma try_write_full (b : t) (sample : PositionSample) :
  full b = true -> try_write b sample = (false, b).
Proof. unfold full, try_write. intros ->. reflexivity. Qed.

Lemma insert_last {A} (l : list A) (k : nat) (x : A) :
  length l = S k -> <[k:=x]> l = take k l ++ [x].
Proof.
  intros Hl. rewrite insert_take_drop by lia.
  rewrite (drop_ge l (S k)) by lia. reflexivity.
Qed.

Lemma take_succ_insert {A} (l : list A) (k : nat) (x : A) :
  (k < length l)%nat -> take (S k) (<[k:=x]> l) = take k l ++ [x].
Proof.
  intros Hk. rewrite (take_S_r _ _ x) by (now apply list_lookup_insert_eq).
  rewrite take_insert_ge by lia. reflexivity.
Qed.

(** A write that is accepted appends the sample to the unread ones. *)
Lemma try_write_unread (b : t) (sample : PositionSample) :
  wf b -> full b = false ->
  fst (try_write b sample) = true /\
  unread (snd (try_write b sample)) = unread b ++ [sample].
Proof.
  unfold wf, full, try_write, unread, size. intros (Hn & Hw & Hr) Hf.
  rewrite Hf. simpl. split; [reflexivity |].
  apply Nat.eqb_neq in Hf. rewrite next_pos in * by assumption.
  destruct (write_pos b + 1 =? length (buffer b))%nat eqn:Ew.
  - apply Nat.eqb_eq in Ew.
    replace (read_pos b <=? 0)%nat with false by (symmetry; apply Nat.leb_gt; lia).
    replace (read_pos b <=? write_pos b)%nat with true by (symmetry; apply Nat.leb_le; lia).
    rewrite app_nil_r, drop_insert_ge by lia.
    apply insert_last. rewrite length_drop. lia.
  - apply Nat.eqb_neq in Ew.
    destruct (read_pos b <=? write_pos b)%nat eqn:E.
    + apply Nat.leb_le in E.
      replace (read_pos b <=? write_pos b + 1)%nat with true by (symmetry; apply Nat.leb_le; lia).
      rewrite drop_insert_ge by lia.
      replace (write_pos b + 1 - read_pos b)%nat with (S (write_pos b - read_pos b)) by lia.
      apply take_succ_insert. rewrite length_drop. lia.
    + apply Nat.leb_gt in E.
      replace (read_pos b <=? write_pos b + 1)%nat with false by (symmetry; apply Nat.leb_gt; lia).
      rewrite drop_insert_lt by lia.
      replace (write_pos b + 1)%nat with (S (write_pos b)) by lia.
      rewrite take_succ_insert by lia. now rewrite app_assoc.
Qed.

(** Whatever [try_write] does, the unread samples stay in place. *)
Lemma try_write_keeps_unread (b : t) (sample : PositionSample) :
  wf b -> exists new, unread (snd (try_write b sample)) = unread b ++ new.
Proof.
  intros Hwf. destruct (full b) eqn:Hf.
  - exists []. rewrite try_write_full by assumption. now rewrite app_nil_r.
  - exists [sample]. now apply try_write_unread.
Qed.

(** A read takes the oldest unread sample, if there is one. *)
Lemma try_read_unread (b : t) :
  wf b ->
  match try_read b with
  | (Some sample, b') => unread b = sample :: unread b'
  | (None, b') => unread b = [] /\ b' = b
  end.
Proof.
  unfold wf, try_read, unread, size. intros (Hn & Hw & Hr).
  destruct (read_pos b =? write_pos b)%nat eqn:Eq.
  - apply Nat.eqb_eq in Eq. rewrite Eq, Nat.leb_refl, Nat.sub_diag. split; reflexivity.
  - apply Nat.eqb_neq in Eq.
    destruct (lookup_lt_is_Some_2 (buffer b) (read_pos b) Hr) as [x Hx].
    rewrite Hx. simpl. rewrite next_pos by assumption.
    destruct (read_pos b <=? write_pos b)%nat eqn:E.
    + apply Nat.leb_le in E.
      replace (read_pos b + 1 =? length (buffer b))%nat with false
        by (symmetry; apply Nat.eqb_neq; lia).
      replace (read_pos b + 1 <=? write_pos b)%nat with true by (symmetry; apply Nat.leb_le; lia).
      rewrite (drop_S _ x (read_pos b)) by assumption.
      replace (write_pos b - read_pos b)%nat with (S (write_pos b - (read_pos b + 1))) by lia.
      simpl. now rewrite Nat.add_1_r.
    + apply Nat.leb_gt in E.
      rewrite (drop_S _ x (read_pos b)) by assumption.
      destruct (read_pos b + 1 =? length (buffer b))%nat eqn:Ee.
      * apply Nat.eqb_eq in Ee. simpl.
        rewrite (drop_ge _ (S (read_pos b))) by lia.
        now rewrite Nat.sub_0_r.
      * apply Nat.eqb_neq in Ee.
        replace (read_pos b + 1 <=? write_pos b)%nat with false by (symmetry; apply Nat.leb_gt; lia).
        simpl. now rewrite Nat.add_1_r.
Qed.

Lemma try_read_buffer (b : t) : buffer (snd (try_read b)) = buffer b.
Proof. unfold try_read. destruct (_ =? _)%nat; reflexivity. Qed.

End Ring.

(** ** Effects of the primitive operations *)

Section Effects.
Context {P : Platform}.

Notation "x <- m ;; k" := (bind m (fun x => k))
  (at level 20, m at level 99, k at level 200, only parsing).

Lemma publishes_app (a b : list Event) : publishes (a ++ b) = publishes a ++ publishes b.
Proof. apply filter_app. Qed.

Lemma stable_refl (s : Sys) : stable s s.
Proof. repeat split. Qed.

Lemma stable_trans (s1 s2 s3 : Sys) : stable s1 s2 -> stable s2 s3 -> stable s1 s3.
Proof. unfold stable. intros H1 H2. intuition congruence. Qed.

Lemma same_globals_refl (s : Sys) : same_globals s s.
Proof. repeat split. Qed.

Lemma same_globals_trans (s1 s2 s3 : Sys) :
  same_globals s1 s2 -> same_globals s2 s3 -> same_globals s1 s3.
Proof. unfold same_globals, stable. intros H1 H2. intuition congruence. Qed.

Lemma quiet_ret {A} (a : A) : quiet (ret a).
Proof. intros s. exists []. simpl. rewrite app_nil_r. repeat split. Qed.

Lemma quiet_get : quiet get.
Proof. intros s. exists []. simpl. rewrite app_nil_r. repeat split. Qed.

Lemma quiet_bind {A B} (m : M A) (f : A -> M B) :
  quiet m -> (forall a, quiet (f a)) -> quiet (bind m f).
Proof.
  intros Hm Hf s. unfold bind.
  destruct (Hm s) as (e1 & G1 & T1 & P1). destruct (m s) as [a s1]. simpl in *.
  destruct (Hf a s1) as (e2 & G2 & T2 & P2).
  exists (e1 ++ e2). split; [eapply same_globals_trans; eassumption |].
  split; [rewrite T2, T1; now rewrite app_assoc |].
  rewrite publishes_app, P1, P2. reflexivity.
Qed.

Lemma quiet_call (c : EccCall) : quiet (call c).
Proof.
  intros s. unfold call. destruct (ecc c (world s)) as [r w].
  exists [Ecc c r]. repeat split.
Qed.

Lemma quiet_now : quiet now.
Proof.
  intros s. unfold now. destruct (clock_now (world s)) as [t w].
  exists []. simpl. rewrite app_nil_r. repeat split.
Qed.

Lemma quiet_timestamp : quiet get_nanosecond_timestamp.
Proof. apply quiet_bind; [apply quiet_now | intros; apply quiet_ret]. Qed.

Lemma quiet_sleep_until (t : Z) : quiet (sleep_until t).
Proof. intros s. exists []. simpl. rewrite app_nil_r. repeat split. Qed.

Lemma quiet_when (c : bool) (m : M unit) : quiet m -> quiet (when c m).
Proof. destruct c; simpl; [auto | intros; apply quiet_ret]. Qed.

(** Proves [quiet] of a computation built from calls, clock readings and
    local branching. *)
Ltac quiet_step :=
  first
    [ apply quiet_ret | apply quiet_get | apply quiet_call | apply quiet_now
    | apply quiet_timestamp | apply quiet_sleep_until
    | apply quiet_when
    | apply quiet_bind; [| intros ?]
    | match goal with
      | |- quiet (if ?c then _ else _) => destruct c
      | |- quiet (match ?x with _ => _ end) => destruct x
      end ].

Ltac quiet_tac := cbv zeta; repeat (quiet_step; cbv zeta).

Lemma quiet_read_axis (c : ControllerInfo) (axis : Z) : quiet (read_axis c axis).
Proof. unfold read_axis. quiet_tac. Qed.

Lemma quiet_read_all_positions_fast : quiet read_all_positions_fast.
Proof.
  unfold read_all_positions_fast.
  repeat first [ apply quiet_read_axis | quiet_step; cbv zeta ].
Qed.

Lemma quiet_status_axis (i : Z) (c : ControllerInfo) (axis : Z) (status : string) :
  quiet (status_axis i c axis status).
Proof. unfold status_axis. quiet_tac. Qed.

Lemma quiet_status_axes (n : nat) (i : Z) (c : ControllerInfo) (axis : Z) (status : string) :
  quiet (status_axes n i c axis status).
Proof.
  revert axis status. induction n as [|n IH]; intros axis status; simpl.
  - apply quiet_ret.
  - apply quiet_bind; [| intros; apply IH].
    destruct (axes_connected c axis); [apply quiet_status_axis | apply quiet_ret].
Qed.

Lemma quiet_status_controller (i : Z) (status : string) : quiet (status_controller i status).
Proof.
  unfold status_controller.
  repeat first [ apply quiet_status_axes | quiet_step; cbv zeta ].
Qed.

Lemma quiet_status_report : quiet status_report.
Proof.
  unfold status_report.
  apply quiet_bind; [apply quiet_get | intros s; cbv zeta].
  apply quiet_bind; [apply quiet_status_controller | intros; apply quiet_status_controller].
Qed.

(** *** The command processor's results *)

Lemma emits_weaken {A} (Q Q' : bool -> list Event -> Prop) (m : M A) :
  (forall c p, Q c p -> Q' c p) -> emits Q m -> emits Q' m.
Proof.
  intros HQ Hm s. destruct (Hm s) as (evs & H1 & H2 & H3). exists evs. auto.
Qed.

Lemma quiet_emits {A} (m : M A) : quiet m -> emits no_result m.
Proof.
  intros Hm s. destruct (Hm s) as (evs & (_ & _ & _ & H1) & H2 & H3). exists evs. auto.
Qed.

Lemma emits_ret {A} (a : A) : emits no_result (ret a).
Proof. apply quiet_emits, quiet_ret. Qed.

Lemma emits_bind {A B} (Q : bool -> list Event -> Prop) (m : M A) (f : A -> M B) :
  emits no_result m -> (forall a, emits Q (f a)) -> emits Q (bind m f).
Proof.
  intros Hm Hf s. unfold bind.
  destruct (Hm s) as (e1 & G1 & T1 & P1). destruct (m s) as [a s1]. simpl in *.
  destruct (Hf a s1) as (e2 & G2 & T2 & P2).
  exists (e1 ++ e2). split; [eapply stable_trans; eassumption |].
  split; [rewrite T2, T1; now rewrite app_assoc |].
  unfold no_result in P1. rewrite publishes_app, P1. simpl.
  destruct G1 as (_ & _ & <- & _). exact P2.
Qed.

Lemma emits_set_rate (rate interval : Z) :
  emits no_result (fun s => (tt, set_rate rate interval s)).
Proof. intros s. exists []. simpl. rewrite app_nil_r. repeat split. Qed.

Lemma emits_set_queue (q : list string) :
  emits no_result (fun s => (tt, set_queue q s)).
Proof. intros s. exists []. simpl. rewrite app_nil_r. repeat split. Qed.

(** [publish_result] publishes one message on the result topic at QoS 1 when
    the broker is connected, and nothing otherwise. *)
Lemma emits_publish_result (text : string) : emits one_result (publish_result text).
Proof.
  intros s. unfold publish_result, bind, get, when.
  destruct (g_mqtt_connected s) eqn:Hc.
  - unfold get_nanosecond_timestamp, bind, now, ret, publish.
    destruct (clock_now (world s)) as [t w]. simpl.
    destruct (mosquitto_publish _ _ _ _ w) as [r w']. simpl.
    eexists [_]. split; [repeat split |]. split; [reflexivity |].
    unfold one_result. eexists. split; [reflexivity |]. eexists _, _. reflexivity.
  - exists []. simpl. rewrite app_nil_r. repeat split.
Qed.

Lemma one_at_most (c : bool) (p : list Event) : one_result c p -> at_most_one_result c p.
Proof. unfold one_result, at_most_one_result. destruct c; auto. Qed.

Lemma none_at_most (c : bool) (p : list Event) : no_result c p -> at_most_one_result c p.
Proof. unfold no_result, at_most_one_result. auto. Qed.

End Effects.

(** ** std::getline *)

Section Getline.

Lemma split_delim_field (d : ascii) (a rest : string) :
  contains d a = false -> split_delim d (a +:+ String d rest) = (a, Some rest).
Proof.
  induction a as [|c a IH]; simpl; intros H.
  - now rewrite Ascii.eqb_refl.
  - apply orb_false_elim in H as [H1 H2]. rewrite Ascii.eqb_sym, H1, IH by assumption.
    reflexivity.
Qed.

Lemma split_delim_tail (d : ascii) (a : string) :
  contains d a = false -> split_delim d a = (a, None).
Proof.
  induction a as [|c a IH]; simpl; intros H; [reflexivity |].
  apply orb_false_elim in H as [H1 H2]. rewrite Ascii.eqb_sym, H1, IH by assumption.
  reflexivity.
Qed.

(** A field that is followed by its delimiter. *)
Lemma getline_field (d : ascii) (a rest : string) :
  contains d a = false ->
  getline (mkStream (a +:+ String d rest) false false) d
  = (Some a, mkStream rest false false).
Proof.
  intros H. unfold getline. simpl. rewrite split_delim_field by assumption.
  destruct a; reflexivity.
Qed.

(** The last field, up to the end of the text. *)
Lemma getline_tail (d : ascii) (a : string) :
  contains d a = false -> a <> "" ->
  getline (mkStream a false false) d = (Some a, mkStream "" true false).
Proof.
  intros H Ha. unfold getline. simpl. rewrite split_delim_tail by assumption.
  destruct a; [contradiction | reflexivity].
Qed.

(** Text that is left always yields a line. *)
Lemma getline_some (d : ascii) (a : string) :
  a <> "" -> exists line iss, getline (mkStream a false false) d = (Some line, iss).
Proof.
  intros Ha. unfold getline. simpl.
  destruct (split_delim d a) as [line [rest|]] eqn:E.
  - destruct line; eauto.
  - destruct line; [| eauto]. exfalso.
    destruct a as [|c a]; [contradiction |]. simpl in E.
    destruct (Ascii.eqb c d); [discriminate |].
    destruct (split_delim d a) as [l r]. discriminate.
Qed.

(** No text left: the stream fails. *)
Lemma getline_empty (d : ascii) :
  getline (mkStream "" false false) d = (None, mkStream "" true true).
Proof. reflexivity. Qed.

(** Beyond the end of the text: the stream fails. *)
Lemma getline_eof (d : ascii) (a : string) (f : bool) :
  getline (mkStream a true f) d = (None, mkStream a true true).
Proof. reflexivity. Qed.

End Getline.

(** ** The command processor *)

Section Dispatcher.
Context {P : Platform}.

Lemma emits_publish_at_most (text : string) :
  emits at_most_one_result (publish_result text).
Proof. eapply emits_weaken; [apply one_at_most | apply emits_publish_result]. Qed.

Lemma emits_ret_at_most {A} (a : A) : emits at_most_one_result (ret a).
Proof. eapply emits_weaken; [apply none_at_most | apply emits_ret]. Qed.

(** Walks through a command handler: sequencing, branching, and the
    operations that publish nothing, down to [publish_result] and [ret]. *)
Ltac emits_step :=
  first
    [ apply emits_publish_result
    | apply emits_publish_at_most
    | apply emits_ret_at_most
    | apply emits_ret
    | apply emits_bind;
        [ first [ apply emits_set_rate | apply emits_set_queue
                | apply quiet_emits, quiet_get
                | apply quiet_emits, quiet_call
                | apply quiet_emits, quiet_status_report ]
        | intros ? ]
    | match goal with
      | |- emits _ (if ?c then _ else _) => destruct c
      | |- emits _ (match ?x with _ => _ end) => destruct x
      end ].

Ltac emits_tac := cbv zeta; repeat (emits_step; cbv zeta).

Lemma cmd_status_one : emits one_result cmd_status.
Proof. unfold cmd_status. emits_tac. Qed.

Lemma cmd_set_rate_at_most (cmd : string) : emits at_most_one_result (cmd_set_rate cmd).
Proof. unfold cmd_set_rate. emits_tac. Qed.

Lemma cmd_set_amp_at_most (cmd : string) : emits at_most_one_result (cmd_set_amp cmd).
Proof. unfold cmd_set_amp. emits_tac. Qed.

Lemma cmd_set_freq_at_most (cmd : string) : emits at_most_one_result (cmd_set_freq cmd).
Proof. unfold cmd_set_freq. emits_tac. Qed.

Lemma cmd_move_at_most (cmd : string) : emits at_most_one_result (cmd_move cmd).
Proof. unfold cmd_move. emits_tac. Qed.

Lemma cmd_stop_at_most (cmd : string) : emits at_most_one_result (cmd_stop cmd).
Proof. unfold cmd_stop. emits_tac. Qed.

(** Whatever the command, the processor publishes at most one message, a
    result, and only while the broker is connected; the flags, the ring, the
    controller table and the counters are left alone. *)
Lemma process_command_at_most (cmd : string) :
  emits at_most_one_result (process_command cmd).
Proof.
  unfold process_command.
  repeat match goal with |- emits _ (if ?c then _ else _) => destruct c end;
    auto using cmd_set_rate_at_most, cmd_set_amp_at_most, cmd_set_freq_at_most,
      cmd_move_at_most, cmd_stop_at_most, emits_ret_at_most.
  eapply emits_weaken; [apply one_at_most | apply cmd_status_one].
Qed.

Lemma command_processor_thread_iter_at_most : emits at_most_one_result command_processor_thread_iter.
Proof.
  unfold command_processor_thread_iter.
  apply emits_bind; [apply quiet_emits, quiet_get | intros s].
  destruct (g_command_queue s) as [|cmd rest]; [apply emits_ret_at_most |].
  apply emits_bind; [apply emits_set_queue | intros _; apply process_command_at_most].
Qed.

(** *** Commands that are answered *)

Lemma emits_at_all {A} (Q : bool -> list Event -> Prop) (m : M A) (s : Sys) :
  emits Q m -> emits_at Q m s.
Proof. intros H. apply H. Qed.

Lemma emits_at_get {A} (Q : bool -> list Event -> Prop) (f : Sys -> M A) (s : Sys) :
  emits_at Q (f s) s -> emits_at Q (bind get f) s.
Proof. intros H. exact H. Qed.

(** The names the command processor accepts, and where it sends them. *)
Lemma axis_of_name_valid (axis_str : string) (controller axis : Z) :
  axis_of_name axis_str = (controller, axis, true) ->
  (axis_str = "X" /\ controller = 0 /\ axis = 0) \/
  (axis_str = "Y" /\ controller = 0 /\ axis = 1) \/
  (axis_str = "Z" /\ controller = 0 /\ axis = 2) \/
  (axis_str = "R" /\ controller = 1 /\ axis = 0).
Proof.
  unfold axis_of_name.
  destruct (String.eqb_spec axis_str "X"); [intros [= <- <-]; intuition auto |].
  destruct (String.eqb_spec axis_str "Y"); [intros [= <- <-]; intuition auto |].
  destruct (String.eqb_spec axis_str "Z"); [intros [= <- <-]; intuition auto |].
  destruct (String.eqb_spec axis_str "R"); [intros [= <- <-]; intuition auto |].
  discriminate.
Qed.

Lemma axis_available_name (s : Sys) (axis_str : string) :
  axis_available s axis_str = true ->
  axis_str = "X" \/ axis_str = "Y" \/ axis_str = "Z" \/ axis_str = "R".
Proof.
  unfold axis_available.
  destruct (axis_of_name axis_str) as [[c a] v] eqn:E. destruct v; [| discriminate].
  intros _. destruct (axis_of_name_valid _ _ _ E) as [H|[H|[H|H]]]; tauto.
Qed.

Lemma prefix_app (p s : string) : String.prefix p (p +:+ s) = true.
Proof.
  induction p as [|c p IH]; simpl.
  - destruct s; reflexivity.
  - destruct (ascii_dec c c); [assumption | contradiction].
Qed.

(** A command that starts with a keyword and a slash goes to the handler of
    the keyword. *)
Lemma process_command_known (x : string) :
  process_command ("SET_RATE/" +:+ x) = cmd_set_rate ("SET_RATE/" +:+ x) /\
  process_command ("SET_AMP/" +:+ x) = cmd_set_amp ("SET_AMP/" +:+ x) /\
  process_command ("SET_FREQ/" +:+ x) = cmd_set_freq ("SET_FREQ/" +:+ x) /\
  process_command ("MOVE/" +:+ x) = cmd_move ("MOVE/" +:+ x) /\
  process_command ("STOP/" +:+ x) = cmd_stop ("STOP/" +:+ x).
Proof.
  unfold process_command.
  rewrite (prefix_app "SET_RATE/"), (prefix_app "SET_AMP/"), (prefix_app "SET_FREQ/"),
    (prefix_app "MOVE/"), (prefix_app "STOP/").
  repeat split; reflexivity.
Qed.

Lemma cmd_set_rate_one (rate : string) :
  rate <> "" -> emits one_result (cmd_set_rate ("SET_RATE/" +:+ rate)).
Proof.
  intros Hr. unfold cmd_set_rate.
  change (istringstream_of ("SET_RATE/" +:+ rate))
    with (mkStream ("SET_RATE" +:+ String slash rate) false false).
  rewrite getline_field by reflexivity.
  destruct (getline_some newline rate Hr) as (line & iss & ->).
  emits_tac.
Qed.

Lemma cmd_move_one (axis pos : string) :
  contains slash axis = false -> pos <> "" ->
  emits one_result (cmd_move ("MOVE/" +:+ axis +:+ "/" +:+ pos)).
Proof.
  intros Ha Hp. unfold cmd_move.
  change (istringstream_of ("MOVE/" +:+ axis +:+ "/" +:+ pos))
    with (mkStream ("MOVE" +:+ String slash (axis +:+ String slash pos)) false false).
  rewrite getline_field by reflexivity.
  rewrite getline_field by assumption.
  destruct (getline_some newline pos Hp) as (line & iss & ->).
  emits_tac.
Qed.

Lemma axis_available_inv (s : Sys) (axis_str : string) :
  axis_available s axis_str = true ->
  exists c a,
    axis_of_name axis_str = (c, a, true) /\
    (0 <=? c) = true /\ (0 <=? a) = true /\
    connected (g_controllers s c) = true /\
    axes_connected (g_controllers s c) a = true /\
    contains slash axis_str = false /\ contains newline axis_str = false /\
    axis_str <> "".
Proof.
  unfold axis_available.
  destruct (axis_of_name axis_str) as [[c a] v] eqn:E. intros Ha.
  apply andb_prop in Ha as [Ha Ha3]. apply andb_prop in Ha as [Ha1 Ha2]. subst v.
  exists c, a. split; [reflexivity |].
  destruct (axis_of_name_valid _ _ _ E) as [(-> & -> & ->)|[(-> & -> & ->)|
    [(-> & -> & ->)|(-> & -> & ->)]]]; repeat split; auto; discriminate.
Qed.

Lemma cmd_stop_one (s : Sys) (axis : string) :
  axis_available s axis = true ->
  emits_at one_result (cmd_stop ("STOP/" +:+ axis)) s.
Proof.
  intros Ha.
  destruct (axis_available_inv s axis Ha) as (c & a & E & Hc & Hx & H1 & H2 & Hs & Hn & He).
  unfold cmd_stop.
  change (istringstream_of ("STOP/" +:+ axis))
    with (mkStream ("STOP" +:+ String slash axis) false false).
  rewrite getline_field by reflexivity.
  rewrite getline_tail by assumption.
  rewrite E, Hc, Hx. cbn [andb].
  apply emits_at_get. rewrite H1, H2. cbn [andb].
  apply emits_at_all. emits_tac.
Qed.

Lemma cmd_set_amp_one (s : Sys) (axis value : string) :
  axis_available s axis = true -> value <> "" ->
  emits_at one_result (cmd_set_amp ("SET_AMP/" +:+ axis +:+ "/" +:+ value)) s.
Proof.
  intros Ha Hv.
  destruct (axis_available_inv s axis Ha) as (c & a & E & Hc & Hx & H1 & H2 & Hs & Hn & He).
  unfold cmd_set_amp.
  change (istringstream_of ("SET_AMP/" +:+ axis +:+ "/" +:+ value))
    with (mkStream ("SET_AMP" +:+ String slash (axis +:+ String slash value)) false false).
  rewrite getline_field by reflexivity.
  rewrite getline_field by assumption.
  destruct (getline_some newline value Hv) as (line & iss & ->).
  rewrite E, Hc, Hx. cbn [andb].
  apply emits_at_get. rewrite H1, H2. cbn [andb].
  apply emits_at_all. emits_tac.
Qed.

Lemma cmd_set_freq_one (s : Sys) (axis value : string) :
  axis_available s axis = true -> value <> "" ->
  emits_at one_result (cmd_set_freq ("SET_FREQ/" +:+ axis +:+ "/" +:+ value)) s.
Proof.
  intros Ha Hv.
  destruct (axis_available_inv s axis Ha) as (c & a & E & Hc & Hx & H1 & H2 & Hs & Hn & He).
  unfold cmd_set_freq.
  change (istringstream_of ("SET_FREQ/" +:+ axis +:+ "/" +:+ value))
    with (mkStream ("SET_FREQ" +:+ String slash (axis +:+ String slash value)) false false).
  rewrite getline_field by reflexivity.
  rewrite getline_field by assumption.
  destruct (getline_some newline value Hv) as (line & iss & ->).
  rewrite E, Hc, Hx. cbn [andb].
  apply emits_at_get. rewrite H1, H2. cbn [andb].
  apply emits_at_all. emits_tac.
Qed.

(** An answered command gets its one result while the broker is connected. *)
Lemma answered_one (s : Sys) (cmd : string) :
  answered s cmd -> emits_at one_result (process_command cmd) s.
Proof.
  destruct 1 as [|rate Hr|axis pos Ha Hp|axis Ha|axis value Ha Hv|axis value Ha Hv].
  - apply emits_at_all. exact cmd_status_one.
  - destruct (process_command_known rate) as (-> & _).
    apply emits_at_all. exact (cmd_set_rate_one rate Hr).
  - destruct (process_command_known (axis +:+ "/" +:+ pos)) as (_ & _ & _ & -> & _).
    apply emits_at_all. exact (cmd_move_one axis pos Ha Hp).
  - destruct (process_command_known axis) as (_ & _ & _ & _ & ->).
    exact (cmd_stop_one s axis Ha).
  - destruct (process_command_known (axis +:+ "/" +:+ value)) as (_ & -> & _).
    exact (cmd_set_amp_one s axis value Ha Hv).
  - destruct (process_command_known (axis +:+ "/" +:+ value)) as (_ & _ & -> & _).
    exact (cmd_set_freq_one s axis value Ha Hv).
Qed.

(** *** Commands that are ignored *)

Lemma missing_field (d : ascii) (axis : string) :
  contains slash axis = false ->
  match getline (mkStream axis false false) slash with
  | (Some _, iss) => fst (getline iss d) = None
  | (None, _) => True
  end.
Proof.
  intros Ha. destruct axis as [|c axis]; [exact I |].
  rewrite getline_tail by (assumption || discriminate). reflexivity.
Qed.

Lemma cmd_three_fields_missing (axis : string) :
  contains slash axis = false ->
  cmd_move ("MOVE/" +:+ axis) = ret tt /\
  cmd_move ("MOVE/" +:+ axis +:+ "/") = ret tt /\
  cmd_set_amp ("SET_AMP/" +:+ axis) = ret tt /\
  cmd_set_amp ("SET_AMP/" +:+ axis +:+ "/") = ret tt /\
  cmd_set_freq ("SET_FREQ/" +:+ axis) = ret tt /\
  cmd_set_freq ("SET_FREQ/" +:+ axis +:+ "/") = ret tt.
Proof.
  intros Ha. pose proof (missing_field newline axis Ha) as Hm.
  unfold cmd_move, cmd_set_amp, cmd_set_freq.
  change (istringstream_of ("MOVE/" +:+ axis))
    with (mkStream ("MOVE" +:+ String slash axis) false false).
  change (istringstream_of ("MOVE/" +:+ axis +:+ "/"))
    with (mkStream ("MOVE" +:+ String slash (axis +:+ String slash "")) false false).
  change (istringstream_of ("SET_AMP/" +:+ axis))
    with (mkStream ("SET_AMP" +:+ String slash axis) false false).
  change (istringstream_of ("SET_AMP/" +:+ axis +:+ "/"))
    with (mkStream ("SET_AMP" +:+ String slash (axis +:+ String slash "")) false false).
  change (istringstream_of ("SET_FREQ/" +:+ axis))
    with (mkStream ("SET_FREQ" +:+ String slash axis) false false).
  change (istringstream_of ("SET_FREQ/" +:+ axis +:+ "/"))
    with (mkStream ("SET_FREQ" +:+ String slash (axis +:+ String slash "")) false false).
  rewrite !getline_field by (assumption || reflexivity).
  rewrite getline_empty.
  destruct (getline (mkStream axis false false) slash) as [[a|] iss]; [| auto 7].
  destruct (getline iss newline) as [[b|] iss']; [discriminate Hm | auto 7].
Qed.

Lemma ignored_silent (cmd : string) :
  ignored cmd -> emits no_result (process_command cmd).
Proof.
  destruct 1 as [cmd Hu| | |axis Ha|axis Ha|axis Ha|axis Ha|axis Ha|axis Ha];
    try (destruct (cmd_three_fields_missing axis Ha) as (M1 & M2 & A1 & A2 & F1 & F2)).
  - unfold unknown_command in Hu. unfold process_command.
    repeat (apply andb_prop in Hu as [Hu ?]).
    repeat match goal with H : negb ?b = true |- _ =>
      apply negb_true_iff in H; rewrite H end.
    apply emits_ret.
  - apply emits_ret.
  - apply emits_ret.
  - destruct (process_command_known axis) as (_ & _ & _ & -> & _).
    rewrite M1. apply emits_ret.
  - destruct (process_command_known (axis +:+ "/")) as (_ & _ & _ & -> & _).
    rewrite M2. apply emits_ret.
  - destruct (process_command_known axis) as (_ & -> & _).
    rewrite A1. apply emits_ret.
  - destruct (process_command_known (axis +:+ "/")) as (_ & -> & _).
    rewrite A2. apply emits_ret.
  - destruct (process_command_known axis) as (_ & _ & -> & _).
    rewrite F1. apply emits_ret.
  - destruct (process_command_known (axis +:+ "/")) as (_ & _ & -> & _).
    rewrite F2. apply emits_ret.
Qed.

(** *** The traces of MOVE, STOP and SET_RATE *)

(** [publish_result] adds its one message, stamped with the clock reading,
    or nothing, and changes no global. *)
Lemma publish_result_effect (text : string) (s : Sys) :
  exists results,
    trace (snd (publish_result text s)) = trace s ++ results /\
    same_globals s (snd (publish_result text s)) /\
    if g_mqtt_connected s
    then exists t r, results = [result_message text t r]
    else results = [].
Proof.
  unfold publish_result, bind, get, when.
  destruct (g_mqtt_connected s) eqn:Hc.
  - unfold get_nanosecond_timestamp, bind, now, ret, publish.
    destruct (clock_now (world s)) as [t w]. cbn [world set_world].
    destruct (mosquitto_publish _ _ _ _ w) as [r w']. cbn [snd trace emit set_world].
    eexists. split; [reflexivity |]. split; [repeat split; assumption |]. eauto.
  - exists []. cbn. rewrite app_nil_r. repeat split.
Qed.

Lemma move_effect (s : Sys) (axis pos : string) (c a : Z) :
  axis_of_name axis = (c, a, true) ->
  connected (g_controllers s c) = true ->
  axes_connected (g_controllers s c) a = true ->
  pos <> "" -> contains newline pos = false ->
  let set_target := ECC_controlTargetPosition (handle (g_controllers s c)) a (atoi pos) true in
  let enable := ECC_controlMove (handle (g_controllers s c)) a 1 true in
  let (r1, w1) := ecc set_target (world s) in
  let (r2, w2) := ecc enable w1 in
  let calls := if rc r1 =? 0 then [Ecc set_target r1; Ecc enable r2]
               else [Ecc set_target r1] in
  exists results,
    trace (snd (process_command ("MOVE/" +:+ axis +:+ "/" +:+ pos) s))
    = trace s ++ calls ++ results /\
    if g_mqtt_connected s
    then exists t r, results = [result_message (move_result_text axis pos (rc r1) (rc r2)) t r]
    else results = [].
Proof.
  intros E H1 H2 Hp Hn.
  assert (Ha : axis_available s axis = true).
  { unfold axis_available. rewrite E, H1, H2. reflexivity. }
  destruct (axis_available_inv s axis Ha) as (c' & a' & E' & Hc & Hx & _ & _ & Hs & _ & He).
  rewrite E in E'. injection E' as <- <-.
  destruct (process_command_known (axis +:+ "/" +:+ pos)) as (_ & _ & _ & -> & _).
  unfold cmd_move.
  change (istringstream_of ("MOVE/" +:+ axis +:+ "/" +:+ pos))
    with (mkStream ("MOVE" +:+ String slash (axis +:+ String slash pos)) false false).
  rewrite getline_field by reflexivity.
  rewrite getline_field by assumption.
  rewrite getline_tail by assumption.
  rewrite E, Hc, Hx. cbn [andb].
  unfold bind at 1. unfold get at 1. cbv beta iota zeta. rewrite H1, H2. cbn [andb].
  unfold bind at 1. unfold call at 1.
  destruct (ecc _ (world s)) as [r1 w1].
  destruct (ecc (ECC_controlMove _ _ _ _) w1) as [r2 w2] eqn:E2.
  unfold move_result_text.
  destruct (rc r1 =? 0).
  - unfold bind at 1. unfold call at 1. cbn [world emit set_world]. rewrite E2.
    destruct (rc r2 =? 0);
      match goal with |- context [publish_result ?text ?st] =>
        destruct (publish_result_effect text st) as (results & T & _ & R) end;
      (exists results; split;
       [ rewrite T; cbn [trace emit set_world]; rewrite <- !app_assoc; reflexivity
       | exact R ]).
  - match goal with |- context [publish_result ?text ?st] =>
      destruct (publish_result_effect text st) as (results & T & _ & R) end.
    exists results. split.
    + rewrite T. cbn [trace emit set_world]. rewrite <- !app_assoc. reflexivity.
    + exact R.
Qed.


(** C4 (as amended): for every MOVE command with a position on a connected
    axis, the first libecc call sets the target position; movement is
    enabled second, and only if the target was set; then the result is
    published (while the broker is connected), which is FAILED when either
    call failed; and that is all: after a failed enable no further call is
    made. *)
Theorem move_sets_target_then_enables (s : Sys) (axis pos : string) (c a : Z) :
  axis_of_name axis = (c, a, true) ->
  connected (g_controllers s c) = true ->
  axes_connected (g_controllers s c) a = true ->
  pos <> "" -> contains newline pos = false ->
  let set_target := ECC_controlTargetPosition (handle (g_controllers s c)) a (atoi pos) true in
  let enable := ECC_controlMove (handle (g_controllers s c)) a 1 true in
  let (r1, w1) := ecc set_target (world s) in
  let (r2, w2) := ecc enable w1 in
  let calls := if rc r1 =? 0 then [Ecc set_target r1; Ecc enable r2]
               else [Ecc set_target r1] in
  exists results,
    trace (snd (process_command ("MOVE/" +:+ axis +:+ "/" +:+ pos) s))
    = trace s ++ calls ++ results /\
    if g_mqtt_connected s
    then exists t r, results = [result_message (move_result_text axis pos (rc r1) (rc r2)) t r]
    else results = [].
Proof. exact (move_effect s axis pos c a). Qed.

(** C5 (as amended): for every [int] n, SET_RATE/<n> sets the rate to n and
    the interval to 10^9 / n exactly when 100 <= n <= 15000.  Otherwise rate
    and interval stay as they are, and the only thing added to the trace is,
    while the broker is connected, the result
    [FAILED/Invalid rate (must be 100-15000 Hz)]; while it is not connected,
    nothing is published. *)
Theorem set_rate_applied_iff_in_range (s : Sys) (n : Z) :
  is_int32 n ->
  let s' := snd (process_command ("SET_RATE/" +:+ to_string n) s) in
  (100 <= n <= 15000 ->
     g_sample_rate_hz s' = n /\ g_sample_interval_ns s' = Z.quot 1000000000 n) /\
  (~ 100 <= n <= 15000 ->
     g_sample_rate_hz s' = g_sample_rate_hz s /\
     g_sample_interval_ns s' = g_sample_interval_ns s /\
     exists results,
       trace s' = trace s ++ results /\
       if g_mqtt_connected s
       then exists t r, results =
              [result_message "/COMMAND/SET_RATE/ALL/FAILED/Invalid rate (must be 100-15000 Hz)" t r]
       else results = []).
Proof.
  intros Hn s'. subst s'.
  destruct (process_command_known (to_string n)) as (-> & _).
  unfold cmd_set_rate.
  change (istringstream_of ("SET_RATE/" +:+ to_string n))
    with (mkStream ("SET_RATE" +:+ String slash (to_string n)) false false).
  rewrite getline_field by reflexivity.
  rewrite getline_tail by (apply to_string_one_line || apply to_string_nonempty).
  rewrite atoi_to_string by assumption.
  destruct ((100 <=? n) && (n <=? 15000)) eqn:Hr.
  - apply andb_prop in Hr as [H1 H2]. apply Z.leb_le in H1, H2.
    split; [intros _ | intros H; lia].
    unfold bind. cbv beta iota.
    match goal with |- context [publish_result ?text ?st] =>
      destruct (publish_result_effect text st) as (results & _ & (G1 & G2 & _) & _) end.
    rewrite G1, G2. split; reflexivity.
  - apply andb_false_iff in Hr.
    split; [intros H; destruct Hr as [Hr|Hr]; apply Z.leb_gt in Hr; lia | intros _].
    match goal with |- context [publish_result ?text ?st] =>
      destruct (publish_result_effect text st) as (results & T & (G1 & G2 & _) & R) end.
    split; [exact G1 |]. split; [exact G2 |]. exists results. split; assumption.
Qed.

(** *** Which axis an operation addresses *)

Lemma ecc_calls_app (a b : list Event) : ecc_calls (a ++ b) = ecc_calls a ++ ecc_calls b.
Proof. apply omap_app. Qed.

(** A handler that makes one call and reports on it. *)
Lemma single_call_effect (c : EccCall) (ok failed : string) (s : Sys) :
  ecc_calls (trace (snd (bind (call c)
      (fun r => if rc r =? 0 then publish_result ok else publish_result failed) s)))
  = ecc_calls (trace s) ++ [c].
Proof.
  unfold bind, call. destruct (ecc c (world s)) as [r w].
  assert (H : forall text st, ecc_calls (trace (snd (publish_result text st)))
                              = ecc_calls (trace st)).
  { intros text st.
    destruct (publish_result_effect text st) as (results & T & _ & R).
    rewrite T, ecc_calls_app.
    destruct (g_mqtt_connected st); [destruct R as (t & r' & ->) | subst results];
      cbn; now rewrite app_nil_r. }
  destruct (rc r =? 0); rewrite H; cbn [trace emit set_world];
    rewrite ecc_calls_app; reflexivity.
Qed.

Lemma stop_effect (s : Sys) (axis : string) (c a : Z) :
  axis_of_name axis = (c, a, true) -> axis_available s axis = true ->
  ecc_calls (trace (snd (process_command ("STOP/" +:+ axis) s)))
  = ecc_calls (trace s) ++ [ECC_controlMove (handle (g_controllers s c)) a 0 true].
Proof.
  intros E0 Ha.
  destruct (axis_available_inv s axis Ha) as (c' & a' & E & Hc & Hx & H1 & H2 & Hs & Hn & He).
  rewrite E0 in E. injection E as <- <-.
  destruct (process_command_known axis) as (_ & _ & _ & _ & ->).
  unfold cmd_stop.
  change (istringstream_of ("STOP/" +:+ axis))
    with (mkStream ("STOP" +:+ String slash axis) false false).
  rewrite getline_field by reflexivity.
  rewrite getline_tail by assumption.
  rewrite E0, Hc, Hx. cbn [andb].
  unfold bind at 1. unfold get at 1. cbv beta iota zeta. rewrite H1, H2. cbn [andb].
  apply single_call_effect.
Qed.

Lemma set_amp_effect (s : Sys) (axis value : string) (c a : Z) :
  axis_of_name axis = (c, a, true) -> axis_available s axis = true ->
  value <> "" -> contains newline value = false ->
  ecc_calls (trace (snd (process_command ("SET_AMP/" +:+ axis +:+ "/" +:+ value) s)))
  = ecc_calls (trace s)
    ++ [ECC_controlAmplitude (handle (g_controllers s c)) a (atoi value) true].
Proof.
  intros E0 Ha Hv Hl.
  destruct (axis_available_inv s axis Ha) as (c' & a' & E & Hc & Hx & H1 & H2 & Hs & Hn & He).
  rewrite E0 in E. injection E as <- <-.
  destruct (process_command_known (axis +:+ "/" +:+ value)) as (_ & -> & _).
  unfold cmd_set_amp.
  change (istringstream_of ("SET_AMP/" +:+ axis +:+ "/" +:+ value))
    with (mkStream ("SET_AMP" +:+ String slash (axis +:+ String slash value)) false false).
  rewrite getline_field by reflexivity.
  rewrite getline_field by assumption.
  rewrite getline_tail by assumption.
  rewrite E0, Hc, Hx. cbn [andb].
  unfold bind at 1. unfold get at 1. cbv beta iota zeta. rewrite H1, H2. cbn [andb].
  apply single_call_effect.
Qed.

Lemma set_freq_effect (s : Sys) (axis value : string) (c a : Z) :
  axis_of_name axis = (c, a, true) -> axis_available s axis = true ->
  value <> "" -> contains newline value = false ->
  ecc_calls (trace (snd (process_command ("SET_FREQ/" +:+ axis +:+ "/" +:+ value) s)))
  = ecc_calls (trace s)
    ++ [ECC_controlFrequency (handle (g_controllers s c)) a (atoi value) true].
Proof.
  intros E0 Ha Hv Hl.
  destruct (axis_available_inv s axis Ha) as (c' & a' & E & Hc & Hx & H1 & H2 & Hs & Hn & He).
  rewrite E0 in E. injection E as <- <-.
  destruct (process_command_known (axis +:+ "/" +:+ value)) as (_ & _ & -> & _).
  unfold cmd_set_freq.
  change (istringstream_of ("SET_FREQ/" +:+ axis +:+ "/" +:+ value))
    with (mkStream ("SET_FREQ" +:+ String slash (axis +:+ String slash value)) false false).
  rewrite getline_field by reflexivity.
  rewrite getline_field by assumption.
  rewrite getline_tail by assumption.
  rewrite E0, Hc, Hx. cbn [andb].
  unfold bind at 1. unfold get at 1. cbv beta iota zeta. rewrite H1, H2. cbn [andb].
  apply single_call_effect.
Qed.

Lemma move_first_call (s : Sys) (axis pos : string) (c a : Z) :
  axis_of_name axis = (c, a, true) -> axis_available s axis = true ->
  pos <> "" -> contains newline pos = false ->
  exists rest,
    ecc_calls (trace (snd (process_command ("MOVE/" +:+ axis +:+ "/" +:+ pos) s)))
    = ecc_calls (trace s)
      ++ ECC_controlTargetPosition (handle (g_controllers s c)) a (atoi pos) true :: rest.
Proof.
  intros E0 Ha Hp Hl.
  destruct (axis_available_inv s axis Ha) as (c' & a' & E & _ & _ & H1 & H2 & _).
  rewrite E0 in E. injection E as <- <-.
  pose proof (move_effect s axis pos c a E0 H1 H2 Hp Hl) as H. cbv zeta in H.
  destruct (ecc _ (world s)) as [r1 w1]. destruct (ecc _ w1) as [r2 w2].
  destruct H as (results & -> & R).
  rewrite !ecc_calls_app. destruct (rc r1 =? 0); cbn; eauto.
Qed.

(** The sample that the sampler assembles when every axis is connected. *)
Lemma read_all_positions_effect (s : Sys) :
  axis_available s "X" = true -> axis_available s "Y" = true ->
  axis_available s "Z" = true -> axis_available s "R" = true ->
  let h0 := handle (g_controllers_0 s) in
  let h1 := handle (g_controllers_1 s) in
  let (t, w0) := clock_now (world s) in
  let (rx, w1) := ecc (ECC_getPosition h0 0) w0 in
  let (ry, w2) := ecc (ECC_getPosition h0 1) w1 in
  let (rz, w3) := ecc (ECC_getPosition h0 2) w2 in
  let (rr, w4) := ecc (ECC_getPosition h1 0) w3 in
  let (p, s') := read_all_positions_fast s in
  trace s' = trace s ++ [Ecc (ECC_getPosition h0 0) rx; Ecc (ECC_getPosition h0 1) ry;
                         Ecc (ECC_getPosition h0 2) rz; Ecc (ECC_getPosition h1 0) rr] /\
  timestamp_ns p = wrap_uint64 t /\
  (rc rx = 0 -> x_position p = wrap_int32 (out rx)) /\
  (rc ry = 0 -> y_position p = wrap_int32 (out ry)) /\
  (rc rz = 0 -> z_position p = wrap_int32 (out rz)) /\
  (rc rr = 0 -> r_position p = wrap_int32 (out rr)).
Proof.
  unfold axis_available. cbn [axis_of_name String.eqb Ascii.eqb Bool.eqb andb]. 
  unfold g_controllers. cbn [Z.eqb Pos.eqb axes_connected].
  intros [Hc0 Hx]%andb_prop [_ Hy]%andb_prop [_ Hz]%andb_prop [Hc1 Hr]%andb_prop.
  unfold read_all_positions_fast, read_axis, get_nanosecond_timestamp, bind, now, get, ret,
    call, g_controllers, axes_connected.
  cbn [Z.eqb Pos.eqb].
  destruct (clock_now (world s)) as [t w0]. simpl.
  rewrite Hc0, Hx, Hy, Hz, Hc1, Hr. simpl.
  destruct (ecc _ w0) as [rx w1]. simpl.
  destruct (ecc _ w1) as [ry w2]. simpl.
  destruct (ecc _ w2) as [rz w3]. simpl.
  destruct (ecc _ w3) as [rr w4]. simpl.
  split; [rewrite <- !app_assoc; reflexivity |].
  destruct (rc rx =? 0) eqn:Ex, (rc ry =? 0) eqn:Ey, (rc rz =? 0) eqn:Ez, (rc rr =? 0) eqn:Er;
    simpl; repeat split; try reflexivity; intros H0; rewrite H0 in *; discriminate.
Qed.

(** C3 (as amended): the one mapping of logical axes that the program uses
    sends X to axis 0, Y to axis 1 and Z to axis 2 of controller 0, and R to
    axis 0 of controller 1.  [get_axis_name] inverts it; STOP, SET_AMP,
    SET_FREQ and MOVE address the axis it gives; and the sampler fills the
    X, Y, Z and R fields of a sample from axes 0, 1, 2 of controller 0 and
    axis 0 of controller 1, in that order. *)
Theorem axis_mapping (s : Sys) (value : string) :
  axis_available s "X" = true -> axis_available s "Y" = true ->
  axis_available s "Z" = true -> axis_available s "R" = true ->
  value <> "" -> contains newline value = false ->
  (axis_of_name "X" = (0, 0, true) /\ axis_of_name "Y" = (0, 1, true) /\
   axis_of_name "Z" = (0, 2, true) /\ axis_of_name "R" = (1, 0, true)) /\
  (get_axis_name 0 0 = "X" /\ get_axis_name 0 1 = "Y" /\
   get_axis_name 0 2 = "Z" /\ get_axis_name 1 0 = "R") /\
  (forall axis c a,
     axis_of_name axis = (c, a, true) ->
     let h := handle (g_controllers s c) in
     ecc_calls (trace (snd (process_command ("STOP/" +:+ axis) s)))
       = ecc_calls (trace s) ++ [ECC_controlMove h a 0 true] /\
     ecc_calls (trace (snd (process_command ("SET_AMP/" +:+ axis +:+ "/" +:+ value) s)))
       = ecc_calls (trace s) ++ [ECC_controlAmplitude h a (atoi value) true] /\
     ecc_calls (trace (snd (process_command ("SET_FREQ/" +:+ axis +:+ "/" +:+ value) s)))
       = ecc_calls (trace s) ++ [ECC_controlFrequency h a (atoi value) true] /\
     exists rest,
       ecc_calls (trace (snd (process_command ("MOVE/" +:+ axis +:+ "/" +:+ value) s)))
       = ecc_calls (trace s) ++ ECC_controlTargetPosition h a (atoi value) true :: rest) /\
  (let h0 := handle (g_controllers_0 s) in
   let h1 := handle (g_controllers_1 s) in
   let (t, w0) := clock_now (world s) in
   let (rx, w1) := ecc (ECC_getPosition h0 0) w0 in
   let (ry, w2) := ecc (ECC_getPosition h0 1) w1 in
   let (rz, w3) := ecc (ECC_getPosition h0 2) w2 in
   let (rr, w4) := ecc (ECC_getPosition h1 0) w3 in
   let (p, s') := read_all_positions_fast s in
   trace s' = trace s ++ [Ecc (ECC_getPosition h0 0) rx; Ecc (ECC_getPosition h0 1) ry;
                          Ecc (ECC_getPosition h0 2) rz; Ecc (ECC_getPosition h1 0) rr] /\
   timestamp_ns p = wrap_uint64 t /\
   (rc rx = 0 -> x_position p = wrap_int32 (out rx)) /\
   (rc ry = 0 -> y_position p = wrap_int32 (out ry)) /\
   (rc rz = 0 -> z_position p = wrap_int32 (out rz)) /\
   (rc rr = 0 -> r_position p = wrap_int32 (out rr))).
Proof.
  intros HX HY HZ HR Hv Hl.
  split; [repeat split |]. split; [repeat split |]. split.
  - intros axis c a E.
    assert (Ha : axis_available s axis = true).
    { destruct (axis_of_name_valid _ _ _ E) as [(-> & _)|[(-> & _)|[(-> & _)|(-> & _)]]];
        assumption. }
    split; [now apply stop_effect |].
    split; [now apply set_amp_effect |].
    split; [now apply set_freq_effect |].
    now apply move_first_call.
  - now apply read_all_positions_effect.
Qed.

Lemma answered_frame (s s' : Sys) (cmd : string) :
  (forall axis, axis_available s' axis = axis_available s axis) ->
  answered s cmd -> answered s' cmd.
Proof.
  intros Hf. destruct 1; constructor; rewrite ?Hf; assumption.
Qed.

(** C1 (as amended): for every command it takes from the queue, the command
    processor publishes at most one message, always a result (result topic,
    QoS 1, not retained) and only while the broker is connected.  While it
    is connected, an answered command (STATUS; SET_RATE with a rate; MOVE
    with an axis and a position, whatever the axis; STOP, SET_AMP and
    SET_FREQ with their fields on a connected axis) gets exactly one result;
    an ignored command (an unknown one, or a known one with a field missing)
    gets none. *)
Theorem one_result_per_command (s : Sys) (cmd : string) (rest : list string) :
  g_command_queue s = cmd :: rest ->
  exists evs,
    trace (snd (command_processor_thread_iter s)) = trace s ++ evs /\
    at_most_one_result (g_mqtt_connected s) (publishes evs) /\
    (answered s cmd -> one_result (g_mqtt_connected s) (publishes evs)) /\
    (ignored cmd -> publishes evs = []).
Proof.
  intros Hq.
  assert (Hs : command_processor_thread_iter s = process_command cmd (set_queue rest s)).
  { unfold command_processor_thread_iter, bind, get. now rewrite Hq. }
  rewrite Hs. set (s1 := set_queue rest s).
  change (trace s) with (trace s1).
  change (g_mqtt_connected s) with (g_mqtt_connected s1).
  destruct (process_command_at_most cmd s1) as (evs & _ & T & Q).
  exists evs. split; [exact T |]. split; [exact Q |]. split.
  - intros Ha. apply (answered_frame s s1) in Ha; [| reflexivity].
    destruct (answered_one s1 cmd Ha) as (evs' & _ & T' & Q').
    rewrite T in T'. apply app_inv_head in T'. now subst evs'.
  - intros Hi. destruct (ignored_silent cmd Hi s1) as (evs' & _ & T' & Q').
    rewrite T in T'. apply app_inv_head in T'. now subst evs'.
Qed.

End Dispatcher.

(** ** The threads *)

Section Threads.
Context {P : Platform}.

Import LockFreeBuffer.

(** One tick of the sampler: a sample is offered to the ring; either it is
    stored and counted as captured, or the ring is left alone and the sample
    is counted as dropped.  The deadline advances by the interval the thread
    read when it started. *)
Lemma sampler_thread_tick_effect (l : Sampler) (s : Sys) :
  exists sample evs,
    let (l', s') := high_speed_sampler_thread_tick l s in
    let (ok, b) := try_write (g_position_buffer s) sample in
    g_position_buffer s' = b /\
    g_total_captured s' =
      (if ok then wrap_uint64 (g_total_captured s + 1) else g_total_captured s) /\
    g_total_dropped s' =
      (if ok then g_total_dropped s else wrap_uint64 (g_total_dropped s + 1)) /\
    g_total_published s' = g_total_published s /\
    sample_count l' = (if ok then wrap_uint64 (sample_count l + 1) else sample_count l) /\
    dropped_count l' = (if ok then dropped_count l else wrap_uint64 (dropped_count l + 1)) /\
    target_interval l' = target_interval l /\
    next_sample_time l' = next_sample_time l + target_interval l /\
    g_running s' = g_running s /\
    g_controllers_connected s' = g_controllers_connected s /\
    g_mqtt_connected s' = g_mqtt_connected s /\
    g_sample_interval_ns s' = g_sample_interval_ns s /\
    trace s' = trace s ++ evs /\ publishes evs = [].
Proof.
  unfold high_speed_sampler_thread_tick. unfold bind at 1.
  destruct (quiet_read_all_positions_fast s) as (evs & G & T & Pb).
  destruct (read_all_positions_fast s) as [sample s1]. cbn [snd] in *.
  destruct G as (G1 & G2 & G3 & G4 & G5 & G6 & G7 & G8 & G9 & G10 & G11 & G12).
  exists sample, evs. unfold bind at 1. unfold get at 1. cbv beta iota.
  rewrite G7. unfold try_write.
  destruct (_ =? _)%nat.
  - unfold bind, ret, now, when, sleep_until. cbn [world set_counters set_buffer].
    destruct (clock_now (world s1)) as [t w].
    destruct (t <? _); cbn; rewrite ?G4, ?G5, ?G6, ?G7, ?G8, ?G9, ?G10, ?G11, ?G12, ?G2;
      repeat split; assumption.
  - unfold bind, ret, now, when, sleep_until. cbn [world set_counters set_buffer].
    destruct (clock_now (world s1)) as [t w].
    destruct (t <? _); cbn; rewrite ?G4, ?G5, ?G6, ?G7, ?G8, ?G9, ?G10, ?G11, ?G12, ?G2;
      repeat split; assumption.
Qed.

(** C7: on a ring that is full, after any sequence of writes and reads,
    [try_write] returns false and leaves cursors and contents as they were,
    so the unread samples are untouched; the sampler's tick then leaves the
    ring alone and adds one to the drop counters and none to the captured
    ones.  On any ring such a sequence leads to, a write changes the unread
    samples at most by appending to them. *)
Theorem full_ring_refuses_write
    (ops : list RingOp) (sample : PositionSample) (s : Sys) (l : Sampler) :
  full (ring_run ops) = true ->
  g_position_buffer s = ring_run ops ->
  try_write (ring_run ops) sample = (false, ring_run ops) /\
  unread (snd (try_write (ring_run ops) sample)) = unread (ring_run ops) /\
  (let (l', s') := high_speed_sampler_thread_tick l s in
   g_position_buffer s' = ring_run ops /\
   g_total_dropped s' = wrap_uint64 (g_total_dropped s + 1) /\
   g_total_captured s' = g_total_captured s /\
   dropped_count l' = wrap_uint64 (dropped_count l + 1) /\
   sample_count l' = sample_count l) /\
  (forall ops' sample', exists new,
     unread (snd (try_write (ring_run ops') sample')) = unread (ring_run ops') ++ new).
Proof.
  intros Hf Hb.
  split; [now apply try_write_full |].
  split; [now rewrite try_write_full |].
  split.
  - destruct (sampler_thread_tick_effect l s) as (smp & evs & H).
    destruct (high_speed_sampler_thread_tick l s) as [l' s'].
    rewrite Hb, try_write_full in H by assumption.
    destruct H as (H1 & H2 & H3 & _ & H5 & H6 & _). auto.
  - intros ops' sample'. apply try_write_keeps_unread, ring_run_wf.
Qed.

(** *** The command queue *)

Lemma run_app (m : Machine) (a b : list Step) : run m (a ++ b) = run (run m a) b.
Proof. apply foldl_app. Qed.

Lemma on_message_appends (m : Machine) (payloads : list string) :
  g_command_queue (sys (run m (arrivals payloads))) = g_command_queue (sys m) ++ payloads.
Proof.
  unfold run, arrivals. revert m.
  induction payloads as [|text payloads IH]; intros m; cbn [map foldl].
  - now rewrite app_nil_r.
  - rewrite IH. simpl. now rewrite <- app_assoc.
Qed.

(** C8 (as amended): the command queue has no capacity.  Every arriving
    payload is appended at the back and none is dropped, whatever is queued
    already; only a message without payload is ignored. *)
Theorem command_queue_unbounded (m : Machine) (payloads : list string) :
  g_command_queue (sys (run m (arrivals payloads))) = g_command_queue (sys m) ++ payloads /\
  g_command_queue (sys (step m (OnMessage None))) = g_command_queue (sys m).
Proof. split; [apply on_message_appends | reflexivity]. Qed.

(** *** The sampling interval *)

Lemma step_target_interval (m : Machine) (st : Step) :
  target_interval (sampler (step m st)) = target_interval (sampler m).
Proof.
  destruct st; simpl; try reflexivity.
  - destruct (g_running (sys m) && g_controllers_connected (sys m)); [| reflexivity].
    destruct (sampler_thread_tick_effect (sampler m) (sys m)) as (smp & evs & H).
    destruct (high_speed_sampler_thread_tick (sampler m) (sys m)) as [l' s'].
    destruct (try_write _ smp) as [ok b]. simpl. tauto.
  - destruct (g_running (sys m)); [| reflexivity].
    destruct (batch_publisher_thread_iter (publisher m) (sys m)). reflexivity.
  - destruct (g_running (sys m)); reflexivity.
Qed.

Lemma run_target_interval (m : Machine) (steps : list Step) :
  target_interval (sampler (run m steps)) = target_interval (sampler m).
Proof.
  unfold run. revert m. induction steps as [|st steps IH]; intros m; [reflexivity |].
  cbn [foldl]. rewrite IH. apply step_target_interval.
Qed.

Lemma boot_target_interval (w : World) (c0 c1 : ControllerInfo) :
  target_interval (sampler (boot w c0 c1)) = 12500000.
Proof.
  unfold boot, high_speed_sampler_thread_init, bind, get, now, ret. cbn [world ready].
  destruct (clock_now w) as [t w1]. cbn [world set_world].
  destruct (clock_now w1) as [t' w2]. reflexivity.
Qed.

(** C2: whatever happens after the threads have started, SET_RATE commands
    included, the sampler keeps the interval it read from
    [g_sample_interval_ns] when it started, 12.5 ms for the initial 80 Hz:
    each tick moves the deadline by that much. *)
Theorem sampler_never_reloads_interval
    (w : World) (c0 c1 : ControllerInfo) (steps : list Step) :
  let m := run (boot w c0 c1) steps in
  target_interval (sampler m) = 12500000 /\
  (g_running (sys m) && g_controllers_connected (sys m) = true ->
   next_sample_time (sampler (step m SamplerTick))
   = next_sample_time (sampler m) + 12500000).
Proof.
  intros m. assert (Ht : target_interval (sampler m) = 12500000).
  { subst m. rewrite run_target_interval. apply boot_target_interval. }
  split; [exact Ht |]. intros Hr. simpl. rewrite Hr.
  destruct (sampler_thread_tick_effect (sampler m) (sys m)) as (smp & evs & H).
  destruct (high_speed_sampler_thread_tick (sampler m) (sys m)) as [l' s'].
  destruct (try_write _ smp) as [ok b]. simpl.
  destruct H as (_ & _ & _ & _ & _ & _ & _ & H & _). rewrite H, Ht. reflexivity.
Qed.

(** *** Conservation of samples *)

(** The publisher's drain loop moves the oldest unread samples, in order,
    from the ring to the batch. *)
Lemma collect_effect (n : nat) (batch : list PositionSample) (b : t) :
  wf b ->
  let (batch', b') := collect n batch b in
  wf b' /\ batch ++ unread b = batch' ++ unread b'.
Proof.
  revert batch b. induction n as [|n IH]; intros batch b Hwf; cbn [collect]; [auto |].
  destruct (length batch <? BUFFER_SIZE)%nat; [| auto].
  pose proof (try_read_unread b Hwf) as Hr. pose proof (try_read_wf b Hwf) as Hw.
  destruct (try_read b) as [[x|] b1]; cbn [snd] in Hw.
  - specialize (IH (batch ++ [x]) b1 Hw).
    destruct (collect n (batch ++ [x]) b1) as [batch' b']. destruct IH as [IH1 IH2].
    split; [assumption |]. rewrite Hr, <- IH2, <- app_assoc. reflexivity.
  - destruct Hr as [Hr ->]. auto.
Qed.

(** One iteration of the publisher: the batch leaves the ring; it is counted
    as published when the broker is connected and accepts it, and is
    discarded otherwise. *)
Lemma publisher_thread_iter_effect (l : Publisher) (s : Sys) :
  let (batch, b) := collect BUFFER_SIZE [] (g_position_buffer s) in
  let (l', s') := batch_publisher_thread_iter l s in
  g_position_buffer s' = b /\
  g_total_captured s' = g_total_captured s /\
  g_total_dropped s' = g_total_dropped s /\
  g_mqtt_connected s' = g_mqtt_connected s /\
  exists evs,
    trace s' = trace s ++ evs /\
    if negb (length batch =? 0)%nat && g_mqtt_connected s then
      exists r,
        evs = [Publish MQTT_TOPIC_POSITION (batch_msg batch) 0 false r] /\
        g_total_published s' =
          (if r =? MOSQ_ERR_SUCCESS
           then wrap_uint64 (g_total_published s + Z.of_nat (length batch))
           else g_total_published s)
    else evs = [] /\ g_total_published s' = g_total_published s.
Proof.
  unfold batch_publisher_thread_iter, bind, get, ret, publish, sleep_until.
  destruct (collect BUFFER_SIZE [] (g_position_buffer s)) as [batch b].
  destruct (negb (length batch =? 0)%nat); simpl.
  - destruct (g_mqtt_connected s) eqn:Hc; simpl.
    + destruct (mosquitto_publish _ _ _ _ (world s)) as [r w]. simpl.
      unfold MOSQ_ERR_SUCCESS.
      destruct (r =? 0) eqn:Er; simpl; repeat split; try assumption;
        eexists; (split; [reflexivity |]); exists r; rewrite Er; split; reflexivity.
    + repeat split; try assumption.
      exists []. rewrite app_nil_r. repeat split.
  - repeat split. exists []. rewrite app_nil_r. repeat split.
Qed.

Lemma buffered_unread (s : Sys) :
  wf (g_position_buffer s) -> buffered s = Z.of_nat (length (unread (g_position_buffer s))).
Proof. intros H. unfold buffered. now rewrite available_unread. Qed.

Lemma wrap_uint64_id (z : Z) : 0 <= z < UINT64_MOD -> wrap_uint64 z = z.
Proof. intros H. unfold wrap_uint64. now apply Z.mod_small. Qed.

Lemma boot_sys (w : World) (c0 c1 : ControllerInfo) :
  exists w', sys (boot w c0 c1) = ready w' c0 c1.
Proof.
  unfold boot, high_speed_sampler_thread_init, bind, get, now, ret. cbn [world ready].
  destruct (clock_now w) as [t w1]. cbn [world set_world].
  destruct (clock_now w1) as [t' w2]. eexists. reflexivity.
Qed.

End Threads.

(** C1, counterexample: with the broker connected, the unknown command HELLO
    and the MOVE command without a position are taken from the queue and
    nothing is published. *)
Lemma no_result_for_unknown_command :
  let m := run sim_boot [OnMessage (Some "HELLO"); CommandIter;
                         OnMessage (Some "MOVE/X"); CommandIter] in
  g_mqtt_connected (sys m) = true /\ g_command_queue (sys m) = []
  /\ publishes (trace (sys m)) = [].
Proof. vm_compute. repeat split. Qed.

Lemma one_result_per_command_witness :
  let s := snd (mqtt_on_message (Some "SET_RATE/2000") (sim_ready ecc_ok)) in
  g_command_queue s = ["SET_RATE/2000"] /\
  exists evs,
    trace (snd (command_processor_thread_iter s)) = evs /\
    exists e, publishes evs = [e] /\ is_result e.
Proof.
  intros s. split; [reflexivity |].
  destruct (one_result_per_command s "SET_RATE/2000" [] eq_refl) as (evs & T & _ & A & _).
  exists evs. split; [exact T |].
  apply (A (answered_set_rate s "2000" ltac:(discriminate))).
Defined.

(** C4, counterexample: the target is set, enabling fails, the FAILED result
    is published, and no call disables movement. *)
Lemma move_enable_failure_is_not_rolled_back :
  let s' := snd (process_command "MOVE/X/1000" (sim_ready ecc_move_fails)) in
  trace s' =
    [Ecc (ECC_controlTargetPosition 7 0 1000 true) (mkReply 0 42 "ECS3030");
     Ecc (ECC_controlMove 7 0 1 true) (mkReply (-1) 0 "");
     Publish MQTT_TOPIC_RESULT "1000000/COMMAND/MOVE/X/FAILED/Failed to enable movement"
       1 false 0]
  /\ ~ In (ECC_controlMove 7 0 0 true) (ecc_calls (trace s')).
Proof.
  vm_compute. split; [reflexivity |].
  intros [H|[H|[]]]; discriminate H.
Qed.

Lemma move_sets_target_then_enables_witness :
  axis_of_name "X" = (0, 0, true) /\
  exists results,
    trace (snd (process_command "MOVE/X/1000" (sim_ready ecc_move_fails)))
    = [Ecc (ECC_controlTargetPosition 7 0 1000 true) (mkReply 0 42 "ECS3030");
       Ecc (ECC_controlMove 7 0 1 true) (mkReply (-1) 0 "")] ++ results /\
    exists t r, results =
      [result_message "/COMMAND/MOVE/X/FAILED/Failed to enable movement" t r].
Proof.
  split; [reflexivity |].
  exact (move_sets_target_then_enables (sim_ready ecc_move_fails) "X" "1000" 0 0
           eq_refl eq_refl eq_refl ltac:(discriminate) eq_refl).
Defined.

(** C5, counterexample: with the broker disconnected, SET_RATE/50 is
    rejected and no result is published. *)
Lemma set_rate_rejection_unpublished_when_disconnected :
  let s := snd (mqtt_on_disconnect 1 (sim_ready ecc_ok)) in
  let s' := snd (process_command "SET_RATE/50" s) in
  g_sample_rate_hz s' = 80 /\ g_sample_interval_ns s' = 12500000 /\ trace s' = [].
Proof. vm_compute. repeat split. Qed.

Lemma set_rate_applied_iff_in_range_witness :
  is_int32 50 /\
  let s' := snd (process_command "SET_RATE/50" (sim_ready ecc_ok)) in
  g_sample_rate_hz s' = 80 /\ g_sample_interval_ns s' = 12500000 /\
  exists results,
    trace s' = results /\
    exists t r, results =
      [result_message "/COMMAND/SET_RATE/ALL/FAILED/Invalid rate (must be 100-15000 Hz)" t r].
Proof.
  assert (H : is_int32 50) by (unfold is_int32, INT32_MIN, INT32_MAX; lia).
  split; [exact H |].
  apply (set_rate_applied_iff_in_range (sim_ready ecc_ok) 50 H). lia.
Defined.

(** C3, counterexample: X is not resolved to axis 1, nor Y to axis 0; with
    axis [n] reading [100 + n], the sampler stores 100 in the X field and
    101 in the Y field. *)
Lemma x_is_axis_0_and_y_is_axis_1 :
  ~ (axis_of_name "X" = (0, 1, true) /\ axis_of_name "Y" = (0, 0, true))
  /\ x_position (fst (read_all_positions_fast (sim_ready ecc_by_axis))) = 100
  /\ y_position (fst (read_all_positions_fast (sim_ready ecc_by_axis))) = 101.
Proof.
  split; [intros [H _]; discriminate H |]. vm_compute. split; reflexivity.
Qed.

Lemma axis_mapping_witness :
  axis_available (sim_ready ecc_by_axis) "X" = true /\
  ecc_calls (trace (snd (process_command "STOP/X" (sim_ready ecc_by_axis))))
  = [ECC_controlMove 7 0 0 true].
Proof.
  split; [reflexivity |].
  destruct (axis_mapping (sim_ready ecc_by_axis) "5" eq_refl eq_refl eq_refl eq_refl
              ltac:(discriminate) eq_refl) as (_ & _ & D & _).
  exact (proj1 (D "X" 0 0 eq_refl)).
Defined.


Lemma full_ring_refuses_write_witness :
  LockFreeBuffer.full (ring_run filled_ring) = true /\
  LockFreeBuffer.try_write (ring_run filled_ring) sample0 = (false, ring_run filled_ring).
Proof.
  assert (Hf : LockFreeBuffer.full (ring_run filled_ring) = true) by (vm_compute; reflexivity).
  assert (Hb : forall b, g_position_buffer (sim_with_ring b) = b) by reflexivity.
  split; [exact Hf |].
  exact (proj1 (full_ring_refuses_write filled_ring sample0
                  (sim_with_ring (ring_run filled_ring))
                  (mkSampler 12500000 0 0 0 0) Hf (Hb _))).
Defined.

(** C2 on the simulated platform: SET_RATE/2000 is accepted, its result is
    published and [g_sample_interval_ns] becomes 500000, yet the ticks that
    follow are still 12500000 ns apart. *)
Lemma set_rate_not_picked_up_by_sampler :
  let m := run sim_boot [SamplerTick; OnMessage (Some "SET_RATE/2000"); CommandIter] in
  let m1 := step m SamplerTick in
  let m2 := step m1 SamplerTick in
  publishes (trace (sys m)) =
    [Publish MQTT_TOPIC_RESULT
       "13500000/COMMAND/SET_RATE/ALL/SUCCESS/Sampling rate set to 2000 Hz" 1 false 0]
  /\ g_sample_rate_hz (sys m) = 2000 /\ g_sample_interval_ns (sys m) = 500000
  /\ next_sample_time (sampler m1) - next_sample_time (sampler m) = 12500000
  /\ next_sample_time (sampler m2) - next_sample_time (sampler m1) = 12500000.
Proof. vm_compute. repeat split. Qed.

(** C8, counterexample: no capacity bounds the queue. *)
Lemma no_capacity_bounds_the_queue :
  ~ exists capacity : nat, forall payloads : list string,
      (length (g_command_queue (sys (run sim_boot (arrivals payloads)))) <= capacity)%nat.
Proof.
  intros [capacity H]. specialize (H (replicate (S capacity) "STATUS")).
  rewrite on_message_appends, length_app, length_replicate in H. lia.
Qed.

(** C9, counterexample: (1) a sample is captured, the broker disconnects,
    the publisher drains the ring and discards the batch: one sample is
    counted as captured, none as published or dropped, and the ring is
    empty; (2) with no publisher iteration, the 4000th tick finds the ring
    full: 3999 samples are counted as captured and are in the ring, one is
    counted as dropped. *)
Lemma discarded_batch_breaks_conservation :
  let s := sys (run sim_boot [SamplerTick; OnDisconnect 1; PublisherIter]) in
  let s2 := sys (run (boot (mkSim 0 ecc_ok 0) controller0 controller0)
                   (replicate 4000 SamplerTick)) in
  (g_total_captured s = 1 /\ g_total_published s = 0 /\ g_total_dropped s = 0 /\
   buffered s = 0 /\
   g_total_captured s <> g_total_published s + g_total_dropped s + buffered s) /\
  (g_total_captured s2 = 3999 /\ g_total_published s2 = 0 /\ g_total_dropped s2 = 1 /\
   buffered s2 = 3999 /\
   g_total_captured s2 <> g_total_published s2 + g_total_dropped s2 + buffered s2).
Proof. vm_compute. repeat split; discriminate. Qed.

(** ** Scenarios on the simulated platform *)

(** The position line of the interface description, with Y missing. *)
Example format_position_with_gap :
  FastStringBuffer.format_position
    (mkSample 1735689123457789000 999730 5 (-224330) (-600530) 13)
  = "1735689123457789000/999730/NaN/-224330/-600530".
Proof. reflexivity. Qed.

Example format_position_extremes :
  FastStringBuffer.format_position
    (mkSample 18446744073709551615 2147483647 (-2147483647) 0 (-1) 15)
  = "18446744073709551615/2147483647/-2147483647/0/-1".
Proof. reflexivity. Qed.

(** What [atoi] makes of position and rate tokens. *)
Example atoi_tokens :
  atoi "1000" = 1000 /\ atoi "-500" = -500 /\ atoi " +7" = 7 /\
  atoi "abc" = 0 /\ atoi "" = 0 /\ atoi "-" = 0 /\ atoi "12abc" = 12.
Proof. repeat split; reflexivity. Qed.

Example getline_fields :
  getline (istringstream_of "MOVE/X/1000") slash
    = (Some "MOVE", mkStream "X/1000" false false) /\
  getline (mkStream "1000" false false) newline = (Some "1000", mkStream "" true false) /\
  getline (mkStream "" false false) newline = (None, mkStream "" true true) /\
  getline (mkStream "/5" false false) slash = (Some "", mkStream "5" false false).
Proof. repeat split; reflexivity. Qed.

(** SET_RATE/2000 with the broker connected: the rate is set and the result
    says so. *)
Example set_rate_accepted :
  let s' := snd (process_command "SET_RATE/2000" (sim_ready ecc_ok)) in
  g_sample_rate_hz s' = 2000 /\ g_sample_interval_ns s' = 500000 /\
  trace s' = [Publish MQTT_TOPIC_RESULT
                "1000000/COMMAND/SET_RATE/ALL/SUCCESS/Sampling rate set to 2000 Hz"
                1 false 0].
Proof. vm_compute. repeat split. Qed.

(** MOVE on an axis that is not connected: a FAILED result and no call into
    libecc; STOP on the same axis: neither. *)
Example move_and_stop_on_absent_axis :
  let s := ready (mkSim 1000000 ecc_ok 0) xyz_controller controller0 in
  trace (snd (process_command "MOVE/R/90000" s))
  = [Publish MQTT_TOPIC_RESULT "1000000/COMMAND/MOVE/R/FAILED/Axis not connected" 1 false 0]
  /\ trace (snd (process_command "STOP/R" s)) = [].
Proof. vm_compute. split; reflexivity. Qed.
(** * Further properties of the program *)

(** ** The ring as a queue *)

Section RingQueue.

Import LockFreeBuffer.

Lemma ring_observe_ring (ops : list RingOp) : view_ring (ring_observe ops) = ring_run ops.
Proof.
  unfold ring_observe, ring_run.
  induction ops as [|op ops IH] using rev_ind; [reflexivity |].
  rewrite !foldl_app. cbn [foldl]. rewrite <- IH.
  destruct op; cbn [ring_observe_op ring_op].
  - destruct (try_write _ sample); reflexivity.
  - destruct (try_read _); reflexivity.
Qed.

Lemma ring_run_size (ops : list RingOp) : size (ring_run ops) = (BUFFER_SIZE * 4)%nat.
Proof.
  unfold ring_run. induction ops as [|op ops IH] using rev_ind.
  - unfold size. change (buffer init) with (replicate (BUFFER_SIZE * 4) sample0).
    apply length_replicate.
  - rewrite foldl_app. cbn [foldl]. destruct op; cbn [ring_op].
    + unfold try_write. destruct (_ =? _)%nat; [exact IH |].
      unfold size in *. cbn [snd buffer]. now rewrite length_insert.
    + unfold size in *. now rewrite try_read_buffer.
Qed.

(** X1: whatever the producer and the consumer do, in whatever order, the
    samples that [try_write] accepted are, in order, the samples that
    [try_read] has returned followed by the samples still unread: the ring
    delivers every accepted sample once, in the order of capture, and
    invents none. *)
Theorem ring_is_fifo (ops : list RingOp) :
  view_accepted (ring_observe ops)
  = view_returned (ring_observe ops) ++ unread (ring_run ops).
Proof.
  rewrite <- ring_observe_ring. unfold ring_observe.
  induction ops as [|op ops IH] using rev_ind.
  - cbn. unfold unread. reflexivity.
  - rewrite foldl_app. cbn [foldl].
    assert (Hwf : wf (view_ring (foldl ring_observe_op (mkView init [] []) ops))).
    { fold (ring_observe ops). rewrite ring_observe_ring. apply ring_run_wf. }
    set (v := foldl ring_observe_op (mkView init [] []) ops) in *.
    destruct op; cbn [ring_observe_op].
    + destruct (full (view_ring v)) eqn:Hf.
      * rewrite try_write_full by assumption. exact IH.
      * destruct (try_write_unread (view_ring v) sample Hwf Hf) as [Hok Hu].
        destruct (try_write (view_ring v) sample) as [ok b]. cbn [fst snd] in *.
        subst ok. cbn [view_accepted view_returned view_ring].
        rewrite Hu, IH. now rewrite app_assoc.
    + pose proof (try_read_unread (view_ring v) Hwf) as Hr.
      destruct (try_read (view_ring v)) as [[x|] b];
        cbn [view_accepted view_returned view_ring].
      * rewrite IH, Hr. now rewrite <- app_assoc.
      * destruct Hr as [_ ->]. exact IH.
Qed.

(** X2: on every ring the two threads can reach, [available()] is the number
    of unread samples and never exceeds 3999; [try_write] refuses exactly
    when 3999 samples are unread, and [try_read] returns nothing exactly
    when none is. *)
Theorem available_counts_unread (ops : list RingOp) (sample : PositionSample) :
  let b := ring_run ops in
  available b = length (unread b) /\
  (available b <= RING_CAPACITY)%nat /\
  (fst (try_write b sample) = false <-> available b = RING_CAPACITY) /\
  (fst (try_read b) = None <-> available b = 0%nat).
Proof.
  intros b. pose proof (ring_run_wf ops) as Hwf. pose proof (ring_run_size ops) as Hs.
  fold b in Hwf, Hs. split; [now apply available_unread |].
  destruct Hwf as (Hn & Hw & Hr). unfold RING_CAPACITY.
  unfold available, try_write, try_read. rewrite next_pos by assumption. rewrite Hs in *.
  split; [destruct (_ <=? _)%nat eqn:E;
          [apply Nat.leb_le in E | apply Nat.leb_gt in E]; lia |].
  split.
  - destruct (write_pos b + 1 =? BUFFER_SIZE * 4)%nat eqn:Ew;
      [apply Nat.eqb_eq in Ew | apply Nat.eqb_neq in Ew];
      destruct (_ =? read_pos b)%nat eqn:Ef;
      [apply Nat.eqb_eq in Ef | apply Nat.eqb_neq in Ef
      |apply Nat.eqb_eq in Ef | apply Nat.eqb_neq in Ef];
      destruct (read_pos b <=? write_pos b)%nat eqn:E;
      try apply Nat.leb_le in E; try apply Nat.leb_gt in E; cbn [fst];
      split; intros H; try reflexivity; try discriminate H; try lia.
  - destruct (read_pos b =? write_pos b)%nat eqn:Ee;
      [apply Nat.eqb_eq in Ee | apply Nat.eqb_neq in Ee]; cbn [fst].
    + split; [intros _ | reflexivity]. rewrite Ee, Nat.leb_refl. lia.
    + destruct (lookup_lt_is_Some_2 (buffer b) (read_pos b)) as [x Hx];
        [unfold size in Hs; lia |].
      rewrite Hx. split; [discriminate |]. intros H. exfalso.
      destruct (read_pos b <=? write_pos b)%nat eqn:E;
        [apply Nat.leb_le in E | apply Nat.leb_gt in E]; lia.
Qed.

End RingQueue.

(** ** The formatter and its buffers *)

Section FormatterBounds.

Import FastStringBuffer.

Lemma length_append (a b : string) :
  String.length (a +:+ b) = (String.length a + String.length b)%nat.
Proof. induction a as [|c a IH]; simpl; [reflexivity | now rewrite IH]. Qed.

Lemma length_string_of_list_ascii (l : list ascii) :
  String.length (string_of_list_ascii l) = length l.
Proof. induction l as [|c l IH]; simpl; [reflexivity | now rewrite IH]. Qed.

Lemma length_dec_digits (f : nat) (v : Z) : (String.length (dec_digits f v) <= f)%nat.
Proof.
  revert v. induction f as [|f IH]; intros v; simpl; [lia |].
  destruct (v <? 10); simpl; [lia |].
  rewrite length_append. simpl. specialize (IH (v / 10)). lia.
Qed.

(** The digits that the loop leaves in [temp]. *)
Lemma length_fill_temp_u (f k : nat) (v : Z) :
  (0 < k)%nat -> 0 < v < 10 ^ Z.of_nat f -> v < 10 ^ Z.of_nat k ->
  (length (fill_temp_u f v []) <= k)%nat.
Proof.
  intros Hk Hv Hvk.
  pose proof (fill_temp_u_dec f v [] Hv) as H.
  apply (f_equal String.length) in H. unfold copy_reversed in H.
  rewrite length_append, !length_string_of_list_ascii, length_rev in H.
  simpl in H. rewrite Nat.add_0_r in H. rewrite H.
  assert (Hf : (0 < f)%nat) by (destruct f; [simpl in Hv; lia | lia]).
  rewrite (dec_digits_fuel f k) by (assumption || lia).
  apply length_dec_digits.
Qed.

Lemma length_uint64_to_string (v : Z) :
  is_uint64 v -> (String.length (uint64_to_string v) <= 20)%nat.
Proof.
  intros Hv. rewrite uint64_to_string_decimal by assumption.
  unfold to_string, is_uint64 in *.
  replace (v <? 0) with false by (symmetry; apply Z.ltb_ge; lia).
  apply length_dec_digits.
Qed.

Lemma length_int32_to_string (v : Z) :
  is_int32 v -> (String.length (int32_to_string v) <= 11)%nat.
Proof.
  intros Hv. unfold is_int32, INT32_MIN, INT32_MAX in Hv.
  destruct (Z.eq_dec v (- 2 ^ 31)) as [-> | Hne]; [vm_compute; lia |].
  rewrite int32_to_string_decimal by (unfold INT32_MIN, INT32_MAX; lia).
  unfold to_string. destruct (v <? 0) eqn:E.
  - apply Z.ltb_lt in E. rewrite (dec_digits_fuel 20 10) by (simpl; lia).
    cbn [String.length]. pose proof (length_dec_digits 10 (- v)). lia.
  - apply Z.ltb_ge in E. rewrite (dec_digits_fuel 20 10) by (simpl; lia).
    pose proof (length_dec_digits 10 v). lia.
Qed.

(** X3: for every well-formed sample the formatter stays within its arrays:
    the digit loops use at most 20 of the 32 slots of [temp] for the
    timestamp and at most 10 of the 16 for a position, and the formatted
    line has at most 68 characters, so that with its terminating NUL it
    fits the 256 bytes of [buffer]. *)
Theorem format_position_fits_its_buffers (p : PositionSample) :
  sample_wf p ->
  (length (fill_temp_u 32 (timestamp_ns p) []) <= 20)%nat /\
  (forall v, is_int32 v ->
     (length (fill_temp_s 16 (if (v <? 0)%Z then wrap_int32 (- v)%Z else v) []) <= 10)%nat) /\
  (String.length (format_position p) + 1 <= 69)%nat.
Proof.
  intros (Ht & Hx & Hy & Hz & Hr & _). split; [| split].
  - unfold is_uint64, UINT64_MOD in Ht.
    destruct (Z.eq_dec (timestamp_ns p) 0) as [-> | Hne]; [simpl; lia |].
    apply length_fill_temp_u; simpl; lia.
  - intros v Hv. unfold is_int32, INT32_MIN, INT32_MAX in Hv.
    destruct (v <? 0) eqn:E.
    + apply Z.ltb_lt in E.
      destruct (Z.eq_dec v (- 2 ^ 31)) as [-> | Hne]; [vm_compute; lia |].
      rewrite wrap_int32_id by (unfold is_int32, INT32_MIN, INT32_MAX; lia).
      rewrite fill_temp_s_u by lia. apply length_fill_temp_u; simpl; lia.
    + apply Z.ltb_ge in E.
      destruct (Z.eq_dec v 0) as [-> | Hne]; [simpl; lia |].
      rewrite fill_temp_s_u by lia. apply length_fill_temp_u; simpl; lia.
  - unfold format_position. rewrite !length_append.
    pose proof (length_uint64_to_string _ Ht).
    pose proof (length_int32_to_string _ Hx). pose proof (length_int32_to_string _ Hy).
    pose proof (length_int32_to_string _ Hz). pose proof (length_int32_to_string _ Hr).
    destruct (mask_set p 1), (mask_set p 2), (mask_set p 4), (mask_set p 8);
      cbn [String.length]; lia.
Qed.

(** X4: what [int32_to_string] prints, [atoi] reads back: for every
    [int32_t] above the least one the two are inverse to each other, and the
    digit loop of [strtol] reads back every timestamp that
    [uint64_to_string] prints. *)
Theorem printed_numbers_read_back (v t : Z) :
  INT32_MIN < v <= INT32_MAX -> is_uint64 t ->
  atoi (int32_to_string v) = v /\ strtol_digits (uint64_to_string t) 0 = t.
Proof.
  intros Hv Ht. split.
  - rewrite int32_to_string_decimal by assumption.
    apply atoi_to_string. unfold is_int32. lia.
  - rewrite uint64_to_string_decimal by assumption.
    unfold to_string, is_uint64, UINT64_MOD in *.
    replace (t <? 0) with false by (symmetry; apply Z.ltb_ge; lia).
    pose proof (strtol_digits_dec 20 t "") as H. rewrite append_nil_r in H.
    rewrite H by (simpl; lia). reflexivity.
Qed.

(** *** Separators *)

Lemma count_char_app (c : ascii) (a b : string) :
  count_char c (a +:+ b) = (count_char c a + count_char c b)%nat.
Proof. induction a as [|d a IH]; simpl; [reflexivity | rewrite IH; lia]. Qed.

Lemma count_char_list (c : ascii) (l : list ascii) :
  Forall (fun d => Ascii.eqb c d = false) l -> count_char c (string_of_list_ascii l) = 0%nat.
Proof. induction 1 as [|d l Hd _ IH]; simpl; [reflexivity | now rewrite Hd, IH]. Qed.

(** The digit loops write digits only, whatever the value. *)
Lemma fill_temp_u_digits (f : nat) (v : Z) (temp : list ascii) :
  Forall (fun d => isdigit d = true) temp ->
  Forall (fun d => isdigit d = true) (fill_temp_u f v temp).
Proof.
  revert v temp. induction f as [|f IH]; intros v temp Ht; simpl; [assumption |].
  destruct (0 <? v); [| assumption]. apply IH.
  apply Forall_app. split; [assumption |]. constructor; [| constructor].
  apply isdigit_digit_char. apply Z.mod_pos_bound. lia.
Qed.

Lemma fill_temp_s_digits (f : nat) (v : Z) (temp : list ascii) :
  Forall (fun d => isdigit d = true) temp ->
  Forall (fun d => isdigit d = true) (fill_temp_s f v temp).
Proof.
  revert v temp. induction f as [|f IH]; intros v temp Ht; simpl; [assumption |].
  destruct (0 <? v) eqn:E; [| assumption]. apply Z.ltb_lt in E. apply IH.
  apply Forall_app. split; [assumption |]. constructor; [| constructor].
  apply isdigit_digit_char. rewrite Z.rem_mod_nonneg by lia. apply Z.mod_pos_bound. lia.
Qed.

Lemma count_digits (c : ascii) (l : list ascii) :
  (forall d, isdigit d = true -> Ascii.eqb c d = false) ->
  Forall (fun d => isdigit d = true) l ->
  count_char c (copy_reversed l) = 0%nat.
Proof.
  intros Hc Hl. unfold copy_reversed. apply count_char_list.
  apply Forall_rev. eapply Forall_impl; [exact Hl | auto].
Qed.

Lemma count_separator_number (c : ascii) (v : Z) :
  c = newline \/ c = slash ->
  count_char c (uint64_to_string v) = 0%nat /\ count_char c (int32_to_string v) = 0%nat.
Proof.
  intros Hc.
  assert (Hd : forall d, isdigit d = true -> Ascii.eqb c d = false).
  { intros d Hd. destruct (isdigit_plain d Hd) as (_ & _ & _ & Hn & Hs).
    rewrite Ascii.eqb_sym. destruct Hc as [-> | ->]; assumption. }
  assert (Hm : Ascii.eqb c "-" = false) by (destruct Hc as [-> | ->]; reflexivity).
  assert (H0 : Ascii.eqb c "0" = false) by (destruct Hc as [-> | ->]; reflexivity).
  split.
  - unfold uint64_to_string. destruct (v =? 0); [simpl; now rewrite H0 |].
    apply count_digits; [assumption |]. apply fill_temp_u_digits. constructor.
  - unfold int32_to_string.
    assert (Hs : count_char c (if v <? 0 then "-" else "") = 0%nat)
      by (destruct (v <? 0); simpl; [now rewrite Hm | reflexivity]).
    destruct (_ =? 0); rewrite count_char_app, Hs.
    + cbn [count_char]. now rewrite H0.
    + rewrite count_digits; [reflexivity | assumption |].
      apply fill_temp_s_digits. constructor.
Qed.

Lemma count_format_position (p : PositionSample) :
  count_char newline (format_position p) = 0%nat /\
  count_char slash (format_position p) = 4%nat.
Proof.
  unfold format_position. rewrite !count_char_app.
  destruct (count_separator_number newline (timestamp_ns p)) as [Tn _]; [auto |].
  destruct (count_separator_number slash (timestamp_ns p)) as [Ts _]; [auto |].
  assert (F : forall c bit v, c = newline \/ c = slash ->
            count_char c (if mask_set p bit then int32_to_string v else "NaN") = 0%nat).
  { intros c bit v Hc. destruct (mask_set p bit).
    - now apply count_separator_number.
    - destruct Hc as [-> | ->]; reflexivity. }
  rewrite Tn, Ts, !F by auto. split; reflexivity.
Qed.

(** X5: whatever the samples, the message of a batch of n >= 1 samples has
    n - 1 newline characters and 4 n slashes: it splits at the newlines into
    n lines of five fields each. *)
Theorem batch_message_shape (batch : list PositionSample) :
  batch <> [] ->
  count_char newline (batch_msg batch) = (length batch - 1)%nat /\
  count_char slash (batch_msg batch) = (4 * length batch)%nat.
Proof.
  induction batch as [|p rest IH]; intros Hne; [contradiction |].
  destruct (count_format_position p) as [Hn Hs].
  destruct rest as [|q rest].
  - cbn [batch_msg length]. rewrite Hn, Hs. split; reflexivity.
  - destruct IH as [IHn IHs]; [discriminate |].
    change (batch_msg (p :: q :: rest))
      with (format_position p +:+ String newline "" +:+ batch_msg (q :: rest)).
    rewrite !count_char_app, Hn, Hs, IHn, IHs. cbn [length count_char Ascii.eqb].
    split; simpl; lia.
Qed.

End FormatterBounds.

Lemma format_position_fits_its_buffers_witness :
  sample_wf (mkSample 18446744073709551615 (-2147483648) 2147483647 (-1) 0 15) /\
  (String.length (FastStringBuffer.format_position
     (mkSample 18446744073709551615 (-2147483648) 2147483647 (-1) 0 15)) + 1 <= 69)%nat.
Proof.
  assert (H : sample_wf (mkSample 18446744073709551615 (-2147483648) 2147483647 (-1) 0 15)).
  { unfold sample_wf, is_uint64, is_int32, INT32_MIN, INT32_MAX, UINT64_MOD. simpl. lia. }
  split; [exact H |].
  exact (proj2 (proj2 (format_position_fits_its_buffers _ H))).
Defined.

Lemma printed_numbers_read_back_witness :
  atoi (FastStringBuffer.int32_to_string (-224330)) = -224330 /\
  strtol_digits (FastStringBuffer.uint64_to_string 1735689123457789000) 0
  = 1735689123457789000.
Proof.
  apply printed_numbers_read_back.
  - unfold INT32_MIN, INT32_MAX. lia.
  - unfold is_uint64, UINT64_MOD. lia.
Defined.

Lemma batch_message_shape_witness :
  count_char newline (batch_msg [sample0; sample0; sample0]) = 2%nat /\
  count_char slash (batch_msg [sample0; sample0; sample0]) = 12%nat.
Proof. exact (batch_message_shape [sample0; sample0; sample0] ltac:(discriminate)). Defined.

(** ** The publisher's batch, and the locals of the threads *)

Section ThreadLocals.
Context {P : Platform}.

Import LockFreeBuffer.

(** The drain loop takes the oldest samples, up to the room left in the
    batch. *)
Lemma collect_take (n : nat) (batch : list PositionSample) (b : t) :
  wf b -> (length batch + n = BUFFER_SIZE)%nat ->
  let (batch', b') := collect n batch b in
  batch' = batch ++ take n (unread b) /\ unread b' = drop n (unread b).
Proof.
  revert batch b. induction n as [|n IH]; intros batch b Hwf Hlen; cbn [collect].
  - rewrite take_0, drop_0, app_nil_r. auto.
  - replace (length batch <? BUFFER_SIZE)%nat with true
      by (symmetry; apply Nat.ltb_lt; lia).
    pose proof (try_read_unread b Hwf) as Hr. pose proof (try_read_wf b Hwf) as Hw.
    destruct (try_read b) as [[x|] b1]; cbn [snd] in Hw.
    + specialize (IH (batch ++ [x]) b1 Hw).
      rewrite length_app in IH. cbn [length] in IH. specialize (IH ltac:(lia)).
      destruct (collect n (batch ++ [x]) b1) as [batch' b']. destruct IH as [-> ->].
      rewrite Hr. cbn [take drop]. rewrite <- app_assoc. auto.
    + destruct Hr as [Hr ->]. rewrite Hr, take_nil, drop_nil, app_nil_r. auto.
Qed.

(** X6: one iteration of the publisher takes from the ring its oldest unread
    samples, in order and at most [BUFFER_SIZE] of them, and leaves the rest;
    when it took any and the broker is connected it hands them to the broker
    as one message on the position topic, at QoS 0 and not retained, and
    otherwise it publishes nothing.  A batch that is not empty is counted,
    published or not, and the deadline moves by the batch interval. *)
Theorem publisher_drains_oldest_first (l : Publisher) (s : Sys) :
  wf (g_position_buffer s) ->
  let pending := unread (g_position_buffer s) in
  let batch := take BUFFER_SIZE pending in
  let (l', s') := batch_publisher_thread_iter l s in
  unread (g_position_buffer s') = drop BUFFER_SIZE pending /\
  (exists results,
     trace s' = trace s ++ results /\
     if negb (length batch =? 0)%nat && g_mqtt_connected s
     then exists r, results = [Publish MQTT_TOPIC_POSITION (batch_msg batch) 0 false r]
     else results = []) /\
  batch_count l'
    = (if (length batch =? 0)%nat then batch_count l else wrap_uint64 (batch_count l + 1)) /\
  next_batch_time l' = next_batch_time l + batch_interval.
Proof.
  intros Hwf. cbv zeta.
  pose proof (collect_take BUFFER_SIZE [] (g_position_buffer s) Hwf eq_refl) as Hc.
  unfold batch_publisher_thread_iter, bind, get, ret, publish, sleep_until.
  destruct (collect BUFFER_SIZE [] (g_position_buffer s)) as [batch b].
  destruct Hc as [Hb Hu]. rewrite app_nil_l in Hb. rewrite <- Hb, <- Hu. clear Hb Hu.
  destruct (length batch =? 0)%nat; cbn [negb andb]; simpl.
  - split; [reflexivity |]. split; [| auto].
    exists []. now rewrite app_nil_r.
  - destruct (g_mqtt_connected s); simpl.
    + destruct (mosquitto_publish _ _ _ _ (world s)) as [r w]. simpl.
      destruct (r =? MOSQ_ERR_SUCCESS); simpl; (split; [reflexivity |]);
        (split; [| auto]); eexists; (split; [reflexivity |]); exists r; reflexivity.
    + split; [reflexivity |]. split; [| auto].
      exists []. now rewrite app_nil_r.
Qed.

(** *** Counting in the locals and in the globals *)

Lemma tick_debug_counter (l : Sampler) (s : Sys) :
  debug_counter (fst (high_speed_sampler_thread_tick l s)) = wrap_uint64 (debug_counter l + 1).
Proof.
  unfold high_speed_sampler_thread_tick. unfold bind at 1.
  destruct (read_all_positions_fast s) as [sample s1].
  unfold bind at 1. unfold get at 1. cbv beta iota.
  destruct (try_write _ _) as [[] b]; unfold bind, ret, now, when, sleep_until;
    cbn [world set_counters set_buffer];
    destruct (clock_now _) as [t w]; destruct (t <? _); reflexivity.
Qed.

Lemma publisher_counts (l : Publisher) (s : Sys) :
  let (l', s') := batch_publisher_thread_iter l s in
  g_running s' = g_running s /\
  g_controllers_connected s' = g_controllers_connected s /\
  next_batch_time l' = next_batch_time l + batch_interval /\
  exists n, published_count l' = wrap_uint64 (published_count l + n) /\
            g_total_published s' = wrap_uint64 (g_total_published s + n) \/
            published_count l' = published_count l /\
            g_total_published s' = g_total_published s.
Proof.
  unfold batch_publisher_thread_iter, bind, get, ret, publish, sleep_until.
  destruct (collect BUFFER_SIZE [] (g_position_buffer s)) as [batch b].
  destruct (negb _); simpl.
  - destruct (g_mqtt_connected s); simpl.
    + destruct (mosquitto_publish _ _ _ _ (world s)) as [r w]. simpl.
      destruct (r =? MOSQ_ERR_SUCCESS); simpl; repeat split;
        exists (Z.of_nat (length batch)); auto.
    + repeat split. exists 0. auto.
  - repeat split. exists 0. auto.
Qed.

Lemma wrap_uint64_succ_l (a b : Z) :
  wrap_uint64 (wrap_uint64 (a + b) + 1) = wrap_uint64 (wrap_uint64 (a + 1) + b).
Proof.
  unfold wrap_uint64. rewrite !Z.add_mod_idemp_l by (unfold UINT64_MOD; lia).
  f_equal. lia.
Qed.

Lemma wrap_uint64_succ_r (a b : Z) :
  wrap_uint64 (wrap_uint64 (a + b) + 1) = wrap_uint64 (a + wrap_uint64 (b + 1)).
Proof.
  unfold wrap_uint64. rewrite Z.add_mod_idemp_l, Z.add_mod_idemp_r by (unfold UINT64_MOD; lia).
  f_equal. lia.
Qed.

Lemma run_snoc (m : Machine) (steps : list Step) (st : Step) :
  run m (steps ++ [st]) = step (run m steps) st.
Proof. unfold run. now rewrite foldl_app. Qed.

(** The flags that keep the threads running are left alone by every step. *)
Lemma step_flags (m : Machine) (st : Step) :
  g_running (sys (step m st)) = g_running (sys m) /\
  g_controllers_connected (sys (step m st)) = g_controllers_connected (sys m).
Proof.
  destruct st; cbn [step].
  - destruct (_ && _); [| auto].
    destruct (sampler_thread_tick_effect (sampler m) (sys m)) as (sample & evs & H).
    destruct (high_speed_sampler_thread_tick _ _) as [l' s'].
    destruct (try_write _ _) as [ok b]. cbn [sys].
    destruct H as (_ & _ & _ & _ & _ & _ & _ & _ & H1 & H2 & _). auto.
  - destruct (g_running (sys m)) eqn:E; [| auto].
    pose proof (publisher_counts (publisher m) (sys m)) as H.
    destruct (batch_publisher_thread_iter _ _) as [l' s']. cbn [sys].
    destruct H as (H1 & H2 & _). rewrite H1, H2. auto.
  - destruct (g_running (sys m)) eqn:E; [| auto].
    destruct (command_processor_thread_iter_at_most (sys m)) as (evs & St & _).
    cbn [sys]. destruct St as (S1 & S2 & _). rewrite S1, S2. auto.
  - destruct payload; auto.
  - unfold mqtt_on_connect, when. destruct (result =? 0); auto.
  - auto.
Qed.

Lemma step_locals (m : Machine) (st : Step) : locals_agree m -> locals_agree (step m st).
Proof.
  unfold locals_agree. intros (Hc & Hd & Hg & Hp). destruct st; cbn [step].
  - destruct (_ && _); [| auto].
    destruct (sampler_thread_tick_effect (sampler m) (sys m)) as (sample & evs & H).
    pose proof (tick_debug_counter (sampler m) (sys m)) as D.
    destruct (high_speed_sampler_thread_tick _ _) as [l' s'].
    destruct (try_write _ _) as [ok b]. cbn [sys sampler publisher fst] in *.
    destruct H as (_ & H1 & H2 & H3 & H4 & H5 & _).
    rewrite H1, H2, H3, H4, H5, D, Hg, Hc, Hd.
    destruct ok; repeat split; auto using wrap_uint64_succ_l, wrap_uint64_succ_r.
  - destruct (g_running (sys m)); [| auto].
    pose proof (publisher_thread_iter_effect (publisher m) (sys m)) as E.
    pose proof (publisher_counts (publisher m) (sys m)) as H.
    destruct (collect _ _ _) as [batch b].
    destruct (batch_publisher_thread_iter _ _) as [l' s']. cbn [sys sampler publisher].
    destruct E as (_ & E1 & E2 & _). rewrite E1, E2.
    destruct H as (_ & _ & _ & n & [[H1 H2] | [H1 H2]]); rewrite H1, H2, Hp; auto.
  - destruct (g_running (sys m)); [| auto].
    destruct (command_processor_thread_iter_at_most (sys m)) as (evs & St & _).
    cbn [sys sampler publisher]. unfold stable in St.
    destruct St as (_ & _ & _ & _ & _ & _ & S1 & S2 & S3). rewrite S1, S2, S3. auto.
  - destruct payload; cbn; auto.
  - unfold mqtt_on_connect, when. destruct (result =? 0); cbn; auto.
  - cbn. auto.
Qed.

Lemma run_locals (w : World) (c0 c1 : ControllerInfo) (steps : list Step) :
  locals_agree (run (boot w c0 c1) steps).
Proof.
  induction steps as [|st steps IH] using rev_ind.
  - unfold run. cbn [foldl].
    unfold boot, high_speed_sampler_thread_init, bind, get, ret, now, ready.
    cbn [world]. destruct (clock_now w) as [t1 w1]. cbn [set_world world].
    destruct (clock_now w1) as [t2 w2]. unfold locals_agree. cbn. auto.
  - rewrite run_snoc. now apply step_locals.
Qed.

(** X7: whatever the threads and the callbacks do after the threads have
    started, the locals of the sampler and of the publisher agree with the
    shared counters: [sample_count] with [g_total_captured], [dropped_count]
    with [g_total_dropped], [published_count] with [g_total_published], and
    [debug_counter] is the sum of captured and dropped samples (in
    [uint64_t]).  No other thread writes the counters. *)
Theorem locals_agree_with_counters (w : World) (c0 c1 : ControllerInfo) (steps : list Step) :
  locals_agree (run (boot w c0 c1) steps).
Proof. exact (run_locals w c0 c1 steps). Qed.


Lemma count_steps_snoc (kind : Step -> bool) (steps : list Step) (st : Step) :
  count_steps kind (steps ++ [st])
  = count_steps kind steps + (if kind st then 1 else 0).
Proof.
  unfold count_steps. rewrite filter_app, length_app, filter_cons, filter_nil.
  destruct (kind st); [rewrite decide_True by reflexivity | rewrite decide_False by discriminate];
    cbn [length]; lia.
Qed.

(** The threads keep running from wherever they are: no step clears
    [g_running] or [g_controllers_connected]. *)
Lemma run_keeps_flags (m : Machine) (steps : list Step) :
  g_running (sys (run m steps)) = g_running (sys m) /\
  g_controllers_connected (sys (run m steps)) = g_controllers_connected (sys m).
Proof.
  induction steps as [|st steps IH] using rev_ind.
  - unfold run. cbn [foldl]. auto.
  - rewrite run_snoc.
    destruct (step_flags (run m steps) st) as [-> ->]. exact IH.
Qed.

Lemma run_flags (w : World) (c0 c1 : ControllerInfo) (steps : list Step) :
  g_running (sys (run (boot w c0 c1) steps)) = true /\
  g_controllers_connected (sys (run (boot w c0 c1) steps)) = true.
Proof.
  destruct (run_keeps_flags (boot w c0 c1) steps) as [-> ->].
  destruct (boot_sys w c0 c1) as [w' ->]. cbn. auto.
Qed.

(** X8: the deadlines of the sampler and of the publisher do not depend on
    the clock.  From any state in which the threads are running, each tick
    of the sampler moves its deadline by the interval that the sampler read
    when it started, whatever that was, and each iteration of the publisher
    moves its deadline by 100 ms, so that after n of them the deadline is n
    intervals later, however late the thread is. *)
Theorem deadlines_do_not_drift (m : Machine) (steps : list Step) :
  g_running (sys m) = true -> g_controllers_connected (sys m) = true ->
  next_sample_time (sampler (run m steps))
    = next_sample_time (sampler m)
      + target_interval (sampler m) * count_steps is_sampler_tick steps /\
  next_batch_time (publisher (run m steps))
    = next_batch_time (publisher m) + batch_interval * count_steps is_publisher_iter steps.
Proof.
  intros Hr Hc. induction steps as [|st steps IH] using rev_ind.
  - unfold count_steps, run. cbn. split; lia.
  - destruct (run_keeps_flags m steps) as [Fr Fc]. rewrite Hr in Fr. rewrite Hc in Fc.
    pose proof (run_target_interval m steps) as Ft.
    rewrite run_snoc, !count_steps_snoc. destruct IH as [IH1 IH2].
    set (m' := run m steps) in *.
    destruct st; cbn [step is_sampler_tick is_publisher_iter].
    + rewrite Fr, Fc. cbn [andb].
      destruct (sampler_thread_tick_effect (sampler m') (sys m')) as (sample & evs & H).
      destruct (high_speed_sampler_thread_tick _ _) as [l' s'].
      destruct (try_write _ _) as [ok b]. cbn [sys sampler publisher].
      destruct H as (_ & _ & _ & _ & _ & _ & _ & H & _). rewrite H, Ft, IH1, IH2. split; lia.
    + rewrite Fr.
      pose proof (publisher_counts (publisher m') (sys m')) as H.
      destruct (batch_publisher_thread_iter _ _) as [l' s']. cbn [sys sampler publisher].
      destruct H as (_ & _ & H & _). rewrite H, IH1, IH2. split; lia.
    + rewrite Fr. cbn [sampler publisher]. rewrite IH1, IH2. split; lia.
    + cbn [sampler publisher]. rewrite IH1, IH2. split; lia.
    + cbn [sampler publisher]. rewrite IH1, IH2. split; lia.
    + cbn [sampler publisher]. rewrite IH1, IH2. split; lia.
Qed.

(** X20: every sample that the sampler takes is counted once, as captured
    or as dropped: after the threads have started, the two shared counters
    add up (in [uint64_t]) to the number of ticks of the sampler. *)
Theorem every_tick_is_counted (w : World) (c0 c1 : ControllerInfo) (steps : list Step) :
  let s := sys (run (boot w c0 c1) steps) in
  wrap_uint64 (g_total_captured s + g_total_dropped s)
  = wrap_uint64 (count_steps is_sampler_tick steps).
Proof.
  cbv zeta. destruct (run_locals w c0 c1 steps) as (_ & _ & <- & _).
  induction steps as [|st steps IH] using rev_ind.
  - unfold run. cbn [foldl].
    unfold boot, high_speed_sampler_thread_init, bind, get, ret, now, ready.
    cbn [world]. destruct (clock_now w) as [t1 w1]. cbn [set_world world].
    destruct (clock_now w1) as [t2 w2]. reflexivity.
  - destruct (run_flags w c0 c1 steps) as [Fr Fc].
    rewrite run_snoc, count_steps_snoc.
    set (m := run (boot w c0 c1) steps) in *.
    destruct st; cbn [step is_sampler_tick]; rewrite ?Fr, ?Fc; cbn [andb sampler];
      rewrite ?Z.add_0_r; try exact IH.
    + pose proof (tick_debug_counter (sampler m) (sys m)) as D.
      destruct (high_speed_sampler_thread_tick _ _) as [l' s']. cbn [fst sampler] in *.
      rewrite D, IH. unfold wrap_uint64.
      rewrite Z.add_mod_idemp_l by (unfold UINT64_MOD; lia). reflexivity.
    + pose proof (publisher_counts (publisher m) (sys m)) as H.
      destruct (batch_publisher_thread_iter _ _) as [l' s']. exact IH.
Qed.

End ThreadLocals.

Lemma publisher_drains_oldest_first_witness :
  let s := sys (run sim_boot [SamplerTick; SamplerTick]) in
  LockFreeBuffer.wf (g_position_buffer s) /\
  length (LockFreeBuffer.unread (g_position_buffer s)) = 2%nat /\
  LockFreeBuffer.unread
    (g_position_buffer (snd (batch_publisher_thread_iter (publisher sim_boot) s))) = [].
Proof.
  cbv zeta.
  assert (Hwf : LockFreeBuffer.wf
                  (g_position_buffer (sys (run sim_boot [SamplerTick; SamplerTick])))).
  { unfold LockFreeBuffer.wf. vm_compute. lia. }
  split; [exact Hwf |]. split; [vm_compute; reflexivity |].
  pose proof (publisher_drains_oldest_first (publisher sim_boot) _ Hwf) as H.
  cbv zeta in H. destruct (batch_publisher_thread_iter _ _) as [l' s'].
  destruct H as [H _]. cbn [snd]. rewrite H. vm_compute. reflexivity.
Defined.

Lemma deadlines_do_not_drift_witness :
  let m := run sim_boot [OnMessage (Some "SET_RATE/2000"); CommandIter] in
  g_sample_interval_ns (sys m) = 500000 /\
  next_sample_time (sampler (run m [SamplerTick; PublisherIter; SamplerTick]))
  = next_sample_time (sampler m) + target_interval (sampler m) * 2.
Proof.
  cbv zeta. split; [reflexivity |].
  exact (proj1 (deadlines_do_not_drift
                  (run sim_boot [OnMessage (Some "SET_RATE/2000"); CommandIter])
                  [SamplerTick; PublisherIter; SamplerTick] eq_refl eq_refl)).
Defined.

(** ** The sample that the sampler assembles *)

Section Sample.
Context {P : Platform}.

Lemma wrap_uint64_range (z : Z) : is_uint64 (wrap_uint64 z).
Proof. unfold is_uint64, wrap_uint64, UINT64_MOD. apply Z.mod_pos_bound. lia. Qed.

Lemma bind_eq {A B} (m : M A) (f : A -> M B) (s : Sys) :
  bind m f s = let (a, s') := m s in f a s'.
Proof. reflexivity. Qed.

Lemma reads_refl (s : Sys) : reads 0 s s.
Proof.
  split; [apply same_globals_refl |]. exists []. rewrite app_nil_r. repeat split. cbn. lia.
Qed.

Lemma reads_trans (n m : nat) (s1 s2 s3 : Sys) :
  reads n s1 s2 -> reads m s2 s3 -> reads (n + m) s1 s3.
Proof.
  intros [G1 (e1 & T1 & L1 & F1)] [G2 (e2 & T2 & L2 & F2)].
  split; [eapply same_globals_trans; eassumption |].
  exists (e1 ++ e2). rewrite T2, T1, <- app_assoc, length_app, forallb_app, F1, F2.
  repeat split. lia.
Qed.

Lemma reads_call (h axis : Z) (s : Sys) :
  reads 1 s (snd (call (ECC_getPosition h axis) s)).
Proof.
  unfold call. destruct (ecc _ (world s)) as [r w]. split; [repeat split |].
  eexists. split; [reflexivity |]. split; [cbn; lia | reflexivity].
Qed.

(** One guarded position read: at most one call, a position read, and a
    value only from a connected axis whose read succeeded. *)
Lemma read_axis_effect (c : ControllerInfo) (axis : Z) (s : Sys) :
  let (v, s') := read_axis c axis s in
  reads 1 s s' /\
  match v with
  | Some pos => is_int32 pos /\ axes_connected c axis = true
  | None => True
  end.
Proof.
  unfold read_axis. destruct (axes_connected c axis).
  - rewrite bind_eq. pose proof (reads_call (handle c) axis s) as H.
    destruct (call _ s) as [r s']. unfold ret. split; [exact H |].
    destruct (rc r =? 0); [| exact I]. split; [apply wrap_int32_range | reflexivity].
  - unfold ret. split; [| exact I].
    destruct (reads_refl s) as [G (evs & T & L & F)].
    split; [exact G |]. exists evs. repeat split; auto.
Qed.

Lemma same_globals_controllers (s s' : Sys) (i : Z) :
  same_globals s s' -> g_controllers s' i = g_controllers s i.
Proof.
  intros (_ & _ & _ & _ & _ & _ & _ & H0 & H1 & _). unfold g_controllers.
  now rewrite H0, H1.
Qed.

(** Settles what is asked of a sample once its fields are known. *)
Ltac sample_fields :=
  unfold sample_wf, mask_set, is_int32, is_uint64, INT32_MIN, INT32_MAX in *;
  cbn [timestamp_ns x_position y_position z_position r_position valid_mask];
  repeat match goal with
         | |- context [Z.lor ?a ?b] => let v := eval vm_compute in (Z.lor a b) in
                                       change (Z.lor a b) with v
         end;
  repeat match goal with
         | |- context [Z.land ?a ?b] => let v := eval vm_compute in (Z.land a b) in
                                        change (Z.land a b) with v
         end;
  cbn [Z.eqb Pos.eqb negb];
  repeat match goal with
         | |- _ /\ _ => split
         | |- _ -> _ => intro
         end;
  first [ discriminate | reflexivity | assumption | lia | tauto ].

(** X9: every sample the sampler assembles is well-formed, its validity
    mask has no bit beyond X, Y, Z and R, a bit is set only for an axis that
    the controller table has as connected, and a field whose bit is clear
    holds 0.  Assembling it takes at most four calls into libecc, all of
    them position reads, publishes nothing and changes no global. *)
Theorem sample_is_well_formed (s : Sys) :
  let (p, s') := read_all_positions_fast s in
  (sample_wf p /\ 0 <= valid_mask p < 16) /\
  ((mask_set p 1 = true -> axis_available s "X" = true) /\
   (mask_set p 2 = true -> axis_available s "Y" = true) /\
   (mask_set p 4 = true -> axis_available s "Z" = true) /\
   (mask_set p 8 = true -> axis_available s "R" = true)) /\
  ((mask_set p 1 = false -> x_position p = 0) /\
   (mask_set p 2 = false -> y_position p = 0) /\
   (mask_set p 4 = false -> z_position p = 0) /\
   (mask_set p 8 = false -> r_position p = 0)) /\
  same_globals s s' /\
  exists evs, trace s' = trace s ++ evs /\ (length evs <= 4)%nat /\
              forallb is_position_read evs = true.
Proof.
  assert (Fin : forall p s', reads 4 s s' ->
            (sample_wf p /\ 0 <= valid_mask p < 16) /\
            ((mask_set p 1 = true -> axis_available s "X" = true) /\
             (mask_set p 2 = true -> axis_available s "Y" = true) /\
             (mask_set p 4 = true -> axis_available s "Z" = true) /\
             (mask_set p 8 = true -> axis_available s "R" = true)) /\
            ((mask_set p 1 = false -> x_position p = 0) /\
             (mask_set p 2 = false -> y_position p = 0) /\
             (mask_set p 4 = false -> z_position p = 0) /\
             (mask_set p 8 = false -> r_position p = 0)) ->
            (sample_wf p /\ 0 <= valid_mask p < 16) /\
            ((mask_set p 1 = true -> axis_available s "X" = true) /\
             (mask_set p 2 = true -> axis_available s "Y" = true) /\
             (mask_set p 4 = true -> axis_available s "Z" = true) /\
             (mask_set p 8 = true -> axis_available s "R" = true)) /\
            ((mask_set p 1 = false -> x_position p = 0) /\
             (mask_set p 2 = false -> y_position p = 0) /\
             (mask_set p 4 = false -> z_position p = 0) /\
             (mask_set p 8 = false -> r_position p = 0)) /\
            same_globals s s' /\
            exists evs, trace s' = trace s ++ evs /\ (length evs <= 4)%nat /\
                        forallb is_position_read evs = true).
  { intros p s' [G E] (H1 & H2 & H3). auto. }
  unfold read_all_positions_fast, get_nanosecond_timestamp, now.
  rewrite bind_eq, bind_eq. destruct (clock_now (world s)) as [t w0].
  unfold ret at 1. rewrite bind_eq. unfold get at 1.
  pose proof (wrap_uint64_range t) as Ht.
  assert (R0 : reads 0 s (set_world w0 s)).
  { split; [repeat split |]. exists []. cbn. rewrite app_nil_r. repeat split. lia. }
  assert (AX : axis_available s "X"
               = connected (g_controllers (set_world w0 s) 0)
                 && axes_connected (g_controllers (set_world w0 s) 0) 0) by reflexivity.
  assert (AY : axis_available s "Y"
               = connected (g_controllers (set_world w0 s) 0)
                 && axes_connected (g_controllers (set_world w0 s) 0) 1) by reflexivity.
  assert (AZ : axis_available s "Z"
               = connected (g_controllers (set_world w0 s) 0)
                 && axes_connected (g_controllers (set_world w0 s) 0) 2) by reflexivity.
  assert (AR : axis_available s "R"
               = connected (g_controllers (set_world w0 s) 1)
                 && axes_connected (g_controllers (set_world w0 s) 1) 0) by reflexivity.
  rewrite AX, AY, AZ, AR in Fin |- *. clear AX AY AZ AR.
  set (s0 := set_world w0 s) in *. clearbody s0.
  set (c0 := g_controllers s0 0) in *. set (c1 := g_controllers s0 1) in *.
  clearbody c0 c1. rewrite bind_eq.
  destruct (connected c0) eqn:C0.
  - rewrite bind_eq.
    pose proof (read_axis_effect c0 0 s0) as Hx.
    destruct (read_axis c0 0 s0) as [x s1]. destruct Hx as [Rx Vx]. cbv zeta.
    rewrite bind_eq.
    pose proof (read_axis_effect c0 1 s1) as Hy.
    destruct (read_axis c0 1 s1) as [y s2]. destruct Hy as [Ry Vy].
    rewrite bind_eq.
    pose proof (read_axis_effect c0 2 s2) as Hz.
    destruct (read_axis c0 2 s2) as [z s3]. destruct Hz as [Rz Vz].
    unfold ret at 1.
    pose proof (reads_trans _ _ _ _ _ R0 (reads_trans _ _ _ _ _ Rx
                 (reads_trans _ _ _ _ _ Ry Rz))) as R3.
    cbn [Nat.add] in R3. clear R0 Rx Ry Rz.
    destruct (connected c1 && axes_connected c1 0) eqn:C1.
    + rewrite bind_eq. pose proof (reads_call (handle c1) 0 s3) as Rr.
      destruct (call _ s3) as [r s4]. cbn [snd] in Rr. unfold ret.
      pose proof (reads_trans _ _ _ _ _ R3 Rr) as R4. cbn [Nat.add] in R4.
      pose proof (wrap_int32_range (out r)) as Hr.
      cbv beta iota zeta. apply Fin; [exact R4 |]. clear Fin R3 Rr R4.
      destruct x as [x|], y as [y|], z as [z|], (rc r =? 0);
        repeat match goal with
               | H : is_int32 _ /\ _ = true |- _ =>
                   let V := fresh "V" in let A := fresh "A" in
                   destruct H as [V A]; rewrite ?A
               end;
        sample_fields.
    + unfold ret.
      assert (R4 : reads 4 s s3).
      { destruct R3 as [G (evs & T & L & F)]. split; [exact G |].
        exists evs. repeat split; auto; lia. }
      cbv beta iota zeta. apply Fin; [exact R4 |]. clear Fin R3 R4.
      destruct x as [x|], y as [y|], z as [z|];
        repeat match goal with
               | H : is_int32 _ /\ _ = true |- _ =>
                   let V := fresh "V" in let A := fresh "A" in
                   destruct H as [V A]; rewrite ?A
               end;
        sample_fields.
  - unfold ret at 1.
    destruct (connected c1 && axes_connected c1 0) eqn:C1.
    + rewrite bind_eq. pose proof (reads_call (handle c1) 0 s0) as Rr.
      destruct (call _ s0) as [r s4]. cbn [snd] in Rr. unfold ret.
      pose proof (reads_trans _ _ _ _ _ R0 Rr) as R1. cbn [Nat.add] in R1.
      pose proof (wrap_int32_range (out r)) as Hr.
      assert (R4 : reads 4 s s4).
      { destruct R1 as [G (evs & T & L & F)]. split; [exact G |].
        exists evs. repeat split; auto; lia. }
      cbv beta iota zeta. apply Fin; [exact R4 |]. clear Fin R0 Rr R1 R4.
      destruct (rc r =? 0); sample_fields.
    + unfold ret.
      assert (R4 : reads 4 s s0).
      { destruct R0 as [G (evs & T & L & F)]. split; [exact G |].
        exists evs. repeat split; auto; lia. }
      cbv beta iota zeta. apply Fin; [exact R4 |]. clear Fin R0 R4. sample_fields.
Qed.

End Sample.

(** ** Commands on one axis *)

Section AxisCommands.
Context {P : Platform}.

(** An axis that is not available: either its name is none of X, Y, Z and
    R, or the controller table does not have it as connected. *)
Lemma axis_unavailable (s : Sys) (axis : string) :
  axis_available s axis = false ->
  let '(c, a, v) := axis_of_name axis in
  (v = false /\ v && (0 <=? c) && (0 <=? a) = false) \/
  (v = true /\ v && (0 <=? c) && (0 <=? a) = true /\
   connected (g_controllers s c) && axes_connected (g_controllers s c) a = false).
Proof.
  unfold axis_available. destruct (axis_of_name axis) as [[c a] v] eqn:E.
  destruct v; [| auto]. intros H. right.
  destruct (axis_of_name_valid axis c a E) as [(_ & -> & ->) | [(_ & -> & ->) |
    [(_ & -> & ->) | (_ & -> & ->)]]]; cbn [andb] in *; auto.
Qed.

(** X10: a command that names an axis which is not available (no such name,
    or not connected) makes no call into libecc.  STOP, SET_AMP and SET_FREQ
    then do nothing at all: the state is left exactly as it was and nothing
    is published.  MOVE publishes a FAILED result, while the broker is
    connected, which says whether the name or the connection is missing. *)
Theorem unavailable_axis_is_left_alone (s : Sys) (axis value : string) :
  axis_available s axis = false ->
  contains slash axis = false -> contains newline axis = false ->
  snd (process_command ("STOP/" +:+ axis) s) = s /\
  snd (process_command ("SET_AMP/" +:+ axis +:+ "/" +:+ value) s) = s /\
  snd (process_command ("SET_FREQ/" +:+ axis +:+ "/" +:+ value) s) = s /\
  (value <> "" ->
   let s' := snd (process_command ("MOVE/" +:+ axis +:+ "/" +:+ value) s) in
   same_globals s s' /\
   exists results,
     trace s' = trace s ++ results /\
     if g_mqtt_connected s
     then exists t r, results = [result_message (move_refusal_text axis) t r]
     else results = []).
Proof.
  intros Ha Hs Hn. pose proof (axis_unavailable s axis Ha) as U.
  unfold move_refusal_text.
  destruct (axis_of_name axis) as [[c a] v] eqn:E.
  split; [| split; [| split]].
  - destruct (process_command_known axis) as (_ & _ & _ & _ & ->).
    unfold cmd_stop.
    change (istringstream_of ("STOP/" +:+ axis))
      with (mkStream ("STOP" +:+ String slash axis) false false).
    rewrite getline_field by reflexivity.
    destruct (string_dec axis "") as [-> | He].
    + rewrite getline_empty. reflexivity.
    + rewrite getline_tail by assumption. rewrite E.
      destruct U as [[-> ->] | (-> & -> & U)]; [reflexivity |].
      unfold bind, get. rewrite U. reflexivity.
  - destruct (process_command_known (axis +:+ "/" +:+ value)) as (_ & -> & _).
    unfold cmd_set_amp.
    change (istringstream_of ("SET_AMP/" +:+ axis +:+ "/" +:+ value))
      with (mkStream ("SET_AMP" +:+ String slash (axis +:+ String slash value)) false false).
    rewrite getline_field by reflexivity.
    rewrite getline_field by assumption.
    destruct (getline _ newline) as [[line|] iss]; [| reflexivity]. rewrite E.
    destruct U as [[-> ->] | (-> & -> & U)]; [reflexivity |].
    unfold bind, get. rewrite U. reflexivity.
  - destruct (process_command_known (axis +:+ "/" +:+ value)) as (_ & _ & -> & _).
    unfold cmd_set_freq.
    change (istringstream_of ("SET_FREQ/" +:+ axis +:+ "/" +:+ value))
      with (mkStream ("SET_FREQ" +:+ String slash (axis +:+ String slash value)) false false).
    rewrite getline_field by reflexivity.
    rewrite getline_field by assumption.
    destruct (getline _ newline) as [[line|] iss]; [| reflexivity]. rewrite E.
    destruct U as [[-> ->] | (-> & -> & U)]; [reflexivity |].
    unfold bind, get. rewrite U. reflexivity.
  - intros Hv. cbv zeta.
    destruct (process_command_known (axis +:+ "/" +:+ value)) as (_ & _ & _ & -> & _).
    unfold cmd_move.
    change (istringstream_of ("MOVE/" +:+ axis +:+ "/" +:+ value))
      with (mkStream ("MOVE" +:+ String slash (axis +:+ String slash value)) false false).
    rewrite getline_field by reflexivity.
    rewrite getline_field by assumption.
    destruct (getline_some newline value Hv) as (line & iss & ->). rewrite E.
    destruct U as [[-> ->] | (-> & -> & U)].
    + match goal with |- context [publish_result ?text ?st] =>
        destruct (publish_result_effect text st) as (results & T & G & R) end.
      split; [exact G |]. exists results. auto.
    + set (m := bind get _).
      assert (Hm : m s = publish_result
                ("/COMMAND/MOVE/" +:+ axis +:+ "/FAILED/Axis not connected") s).
      { subst m. unfold bind at 1. unfold get at 1. cbv beta iota. rewrite U. reflexivity. }
      rewrite Hm. clear Hm m.
      match goal with |- context [publish_result ?text ?st] =>
        destruct (publish_result_effect text st) as (results & T & G & R) end.
      split; [exact G |]. exists results. auto.
Qed.

(** A handler that makes one call and reports on it. *)
Lemma single_call_trace (c : EccCall) (ok failed : string) (s : Sys) :
  let (r, _) := ecc c (world s) in
  let s' := snd (bind (call c)
      (fun r => if rc r =? 0 then publish_result ok else publish_result failed) s) in
  same_globals s s' /\
  exists results,
    trace s' = trace s ++ [Ecc c r] ++ results /\
    if g_mqtt_connected s
    then exists t r', results = [result_message (if rc r =? 0 then ok else failed) t r']
    else results = [].
Proof.
  unfold bind, call. destruct (ecc c (world s)) as [r w]. cbv zeta.
  destruct (rc r =? 0);
    match goal with |- context [publish_result ?text ?st] =>
      destruct (publish_result_effect text st) as (results & T & G & R) end;
    (split; [exact G |]); exists results;
    (split; [rewrite T; cbn [trace emit set_world]; rewrite <- app_assoc; reflexivity
            | exact R]).
Qed.

Lemma reports_intro (s : Sys) (cmd : string) (c : EccCall) (ok failed : string) :
  process_command cmd s
  = bind (call c) (fun r => if rc r =? 0 then publish_result ok else publish_result failed) s ->
  reports s cmd c ok failed.
Proof. intros Eq. unfold reports. rewrite Eq. apply single_call_trace. Qed.

(** X11: STOP, SET_AMP and SET_FREQ on an available axis make exactly one
    call into libecc (disable movement; set the amplitude or the frequency
    to what [atoi] reads in the value) and then, while the broker is
    connected, publish one result which is SUCCESS exactly when the call
    returned 0; the success text repeats the value as it was written, not
    as it was read.  No global is changed. *)
Theorem single_call_commands_report (s : Sys) (axis value : string) (c a : Z) :
  axis_of_name axis = (c, a, true) -> axis_available s axis = true ->
  value <> "" -> contains newline value = false ->
  let h := handle (g_controllers s c) in
  reports s ("STOP/" +:+ axis) (ECC_controlMove h a 0 true)
    ("/COMMAND/STOP/" +:+ axis +:+ "/SUCCESS/Movement stopped")
    ("/COMMAND/STOP/" +:+ axis +:+ "/FAILED/Failed to stop movement") /\
  reports s ("SET_AMP/" +:+ axis +:+ "/" +:+ value) (ECC_controlAmplitude h a (atoi value) true)
    ("/COMMAND/SET_AMP/" +:+ axis +:+ "/SUCCESS/Amplitude set to " +:+ value +:+ " mV")
    ("/COMMAND/SET_AMP/" +:+ axis +:+ "/FAILED/Failed to set amplitude") /\
  reports s ("SET_FREQ/" +:+ axis +:+ "/" +:+ value) (ECC_controlFrequency h a (atoi value) true)
    ("/COMMAND/SET_FREQ/" +:+ axis +:+ "/SUCCESS/Frequency set to " +:+ value +:+ " mHz")
    ("/COMMAND/SET_FREQ/" +:+ axis +:+ "/FAILED/Failed to set frequency").
Proof.
  intros E0 Ha Hv Hnv.
  destruct (axis_available_inv s axis Ha) as (c' & a' & E & Hc & Hx & H1 & H2 & Hs & Hn & He).
  rewrite E0 in E. injection E as <- <-. cbv zeta.
  split; [| split]; apply reports_intro.
  - destruct (process_command_known axis) as (_ & _ & _ & _ & ->).
    unfold cmd_stop.
    change (istringstream_of ("STOP/" +:+ axis))
      with (mkStream ("STOP" +:+ String slash axis) false false).
    rewrite getline_field by reflexivity.
    rewrite getline_tail by assumption.
    rewrite E0, Hc, Hx. cbn [andb].
    unfold bind at 1. unfold get at 1. cbv beta iota. rewrite H1, H2. reflexivity.
  - destruct (process_command_known (axis +:+ "/" +:+ value)) as (_ & -> & _).
    unfold cmd_set_amp.
    change (istringstream_of ("SET_AMP/" +:+ axis +:+ "/" +:+ value))
      with (mkStream ("SET_AMP" +:+ String slash (axis +:+ String slash value)) false false).
    rewrite getline_field by reflexivity.
    rewrite getline_field by assumption.
    rewrite getline_tail by assumption.
    rewrite E0, Hc, Hx. cbn [andb].
    unfold bind at 1. unfold get at 1. cbv beta iota. rewrite H1, H2. reflexivity.
  - destruct (process_command_known (axis +:+ "/" +:+ value)) as (_ & _ & -> & _).
    unfold cmd_set_freq.
    change (istringstream_of ("SET_FREQ/" +:+ axis +:+ "/" +:+ value))
      with (mkStream ("SET_FREQ" +:+ String slash (axis +:+ String slash value)) false false).
    rewrite getline_field by reflexivity.
    rewrite getline_field by assumption.
    rewrite getline_tail by assumption.
    rewrite E0, Hc, Hx. cbn [andb].
    unfold bind at 1. unfold get at 1. cbv beta iota. rewrite H1, H2. reflexivity.
Qed.

End AxisCommands.

Lemma unavailable_axis_is_left_alone_witness :
  let s := ready (mkSim 1000000 ecc_ok 0) xyz_controller controller0 in
  axis_available s "R" = false /\
  snd (process_command "STOP/R" s) = s /\
  snd (process_command "SET_AMP/R/30000" s) = s.
Proof.
  cbv zeta.
  assert (Ha : axis_available (ready (mkSim 1000000 ecc_ok 0) xyz_controller controller0) "R"
               = false) by reflexivity.
  split; [exact Ha |].
  destruct (unavailable_axis_is_left_alone _ "R" "30000" Ha eq_refl eq_refl)
    as (H1 & H2 & _).
  split; [exact H1 | exact H2].
Defined.

Lemma single_call_commands_report_witness :
  axis_available (sim_ready ecc_ok) "Z" = true /\
  reports (sim_ready ecc_ok) "SET_AMP/Z/abc" (ECC_controlAmplitude 7 2 0 true)
    "/COMMAND/SET_AMP/Z/SUCCESS/Amplitude set to abc mV"
    "/COMMAND/SET_AMP/Z/FAILED/Failed to set amplitude".
Proof.
  assert (Ha : axis_available (sim_ready ecc_ok) "Z" = true) by reflexivity.
  split; [exact Ha |].
  exact (proj1 (proj2 (single_call_commands_report (sim_ready ecc_ok) "Z" "abc" 0 2
                         eq_refl Ha ltac:(discriminate) eq_refl))).
Defined.

(** ** Invariants *)

Section Frame.
Context {P : Platform}.

Variable I : Sys -> Prop.
Variable allowed : Event -> bool.

Hypothesis I_world : forall s w, I s -> I (set_world w s).
Hypothesis I_emit : forall s e, allowed e = true -> I s -> I (emit e s).
Hypothesis I_buffer : forall s b, I s -> I (set_buffer b s).
Hypothesis I_counters : forall s c p d, I s -> I (set_counters c p d s).
Hypothesis I_queue : forall s q, I s -> I (set_queue q s).
Hypothesis I_rate : forall s n,
  100 <= n <= 15000 -> I s -> I (set_rate n (Z.quot 1000000000 n) s).
Hypothesis allowed_publish : forall topic payload qos retain r,
  allowed (Publish topic payload qos retain r) = true.
Hypothesis allowed_query : forall c r, is_query c = true -> allowed (Ecc c r) = true.
Hypothesis allowed_call : forall c r, allowed (Ecc c r) = true.
Hypothesis I_connected : forall s b, I s -> I (set_mqtt_connected b s).
Hypothesis allowed_subscribe : forall topic qos, allowed (Subscribe topic qos) = true.

Lemma preserves_ret {A} (a : A) : preserves I (ret a).
Proof. intros s H. exact H. Qed.

Lemma preserves_get : preserves I get.
Proof. intros s H. exact H. Qed.

Lemma preserves_bind {A B} (m : M A) (f : A -> M B) :
  preserves I m -> (forall a, preserves I (f a)) -> preserves I (bind m f).
Proof.
  intros Hm Hf s H. unfold bind. specialize (Hm s H).
  destruct (m s) as [a s1]. apply Hf. exact Hm.
Qed.

Lemma preserves_query (c : EccCall) : is_query c = true -> preserves I (call c).
Proof.
  intros Hq s H. unfold call. destruct (ecc c (world s)) as [r w]. cbn [snd].
  apply I_emit; [now apply allowed_query | now apply I_world].
Qed.

Lemma preserves_call (c : EccCall) : preserves I (call c).
Proof.
  intros s H. unfold call. destruct (ecc c (world s)) as [r w]. cbn [snd].
  apply I_emit; [apply allowed_call | now apply I_world].
Qed.

Lemma preserves_now : preserves I now.
Proof.
  intros s H. unfold now. destruct (clock_now (world s)) as [t w]. now apply I_world.
Qed.

Lemma preserves_timestamp : preserves I get_nanosecond_timestamp.
Proof.
  apply preserves_bind; [apply preserves_now | intros; apply preserves_ret].
Qed.

Lemma preserves_sleep_until (t : Z) : preserves I (sleep_until t).
Proof. intros s H. now apply I_world. Qed.

Lemma preserves_when (c : bool) (m : M unit) : preserves I m -> preserves I (when c m).
Proof. intros H. destruct c; [exact H | apply preserves_ret]. Qed.

Lemma preserves_publish (topic payload : string) (qos : Z) (retain : bool) :
  preserves I (publish topic payload qos retain).
Proof.
  intros s H. unfold publish. destruct (mosquitto_publish _ _ _ _ _) as [r w]. cbn [snd].
  apply I_emit; [apply allowed_publish | now apply I_world].
Qed.

Lemma preserves_publish_result (text : string) : preserves I (publish_result text).
Proof.
  unfold publish_result.
  apply preserves_bind; [apply preserves_get | intros s].
  apply preserves_when.
  apply preserves_bind; [apply preserves_timestamp | intros t].
  apply preserves_bind; [apply preserves_publish | intros; apply preserves_ret].
Qed.

Lemma preserves_set_queue (q : list string) : preserves I (fun s => (tt, set_queue q s)).
Proof. intros s H. now apply I_queue. Qed.

(** Walks through a computation that reads from the device and publishes. *)
Ltac reading_step :=
  first
    [ apply preserves_ret | apply preserves_get
    | apply preserves_query; reflexivity
    | apply preserves_now | apply preserves_timestamp | apply preserves_sleep_until
    | apply preserves_publish_result | apply preserves_publish
    | apply preserves_when
    | apply preserves_bind; [| intros ?]
    | match goal with
      | |- preserves _ (if ?c then _ else _) => destruct c
      | |- preserves _ (match ?x with _ => _ end) => destruct x
      end ].

Ltac reading := cbv zeta; repeat (reading_step; cbv zeta).

Lemma preserves_status_axis (i : Z) (c : ControllerInfo) (axis : Z) (status : string) :
  preserves I (status_axis i c axis status).
Proof. unfold status_axis. reading. Qed.

Lemma preserves_status_axes
    (n : nat) (i : Z) (c : ControllerInfo) (axis : Z) (status : string) :
  preserves I (status_axes n i c axis status).
Proof.
  revert axis status. induction n as [|n IH]; intros axis status; simpl.
  - apply preserves_ret.
  - apply preserves_bind; [| intros; apply IH].
    destruct (axes_connected c axis); [apply preserves_status_axis | apply preserves_ret].
Qed.

Lemma preserves_status_controller (i : Z) (status : string) :
  preserves I (status_controller i status).
Proof.
  unfold status_controller.
  repeat first [ apply preserves_status_axes | reading_step; cbv zeta ].
Qed.

(** STATUS only reads and publishes. *)
Lemma preserves_cmd_status : preserves I cmd_status.
Proof.
  unfold cmd_status, status_report.
  apply preserves_bind; [| intros; apply preserves_publish_result].
  apply preserves_bind; [apply preserves_get | intros s; cbv zeta].
  apply preserves_bind; [apply preserves_status_controller |
                         intros; apply preserves_status_controller].
Qed.

(** So does the sampler, which also writes the ring and the counters. *)
Lemma preserves_read_all_positions_fast : preserves I read_all_positions_fast.
Proof. unfold read_all_positions_fast, read_axis. reading. Qed.

Lemma preserves_tick (l : Sampler) : preserves I (high_speed_sampler_thread_tick l).
Proof.
  unfold high_speed_sampler_thread_tick.
  apply preserves_bind; [apply preserves_read_all_positions_fast | intros sample].
  cbv zeta. apply preserves_bind; [apply preserves_get | intros s].
  destruct (LockFreeBuffer.try_write _ _) as [[] b].
  - apply preserves_bind; [| intros l'; reading].
    apply preserves_bind; [| intros; apply preserves_ret].
    intros s0 H. cbn [snd]. now apply I_counters, I_buffer.
  - apply preserves_bind; [| intros l'; reading].
    apply preserves_bind; [| intros; apply preserves_ret].
    intros s0 H. cbn [snd]. now apply I_counters.
Qed.

(** And the publisher. *)
Lemma preserves_publisher (l : Publisher) : preserves I (batch_publisher_thread_iter l).
Proof.
  unfold batch_publisher_thread_iter.
  apply preserves_bind; [apply preserves_get | intros s].
  destruct (collect _ _ _) as [batch b].
  apply preserves_bind; [intros s0 H; cbn [snd]; now apply I_buffer | intros _].
  apply preserves_bind; [| intros l'; reading].
  destruct (negb _); [| apply preserves_ret]. cbv zeta.
  apply preserves_bind; [apply preserves_get | intros s1].
  destruct (g_mqtt_connected s1); [| apply preserves_ret].
  apply preserves_bind; [apply preserves_publish | intros r].
  destruct (r =? MOSQ_ERR_SUCCESS); [| apply preserves_ret].
  apply preserves_bind; [| intros; apply preserves_ret].
  intros s0 H. cbn [snd]. now apply I_counters.
Qed.

(** Walks through a command handler. *)
Ltac handling_step :=
  first
    [ apply preserves_ret | apply preserves_get
    | apply preserves_call
    | apply preserves_publish_result
    | apply preserves_bind; [| intros ?]
    | match goal with
      | |- preserves _ (if ?c then _ else _) => destruct c eqn:?
      | |- preserves _ (match ?x with _ => _ end) => destruct x
      end ].

Ltac handling := cbv zeta; repeat (handling_step; cbv zeta).

Lemma preserves_cmd_set_rate (cmd : string) : preserves I (cmd_set_rate cmd).
Proof.
  unfold cmd_set_rate. cbv zeta.
  destruct (getline _ slash) as [[rate_cmd|] iss]; [| apply preserves_ret].
  destruct (getline _ newline) as [[rate_str|] iss']; [| apply preserves_ret].
  destruct (_ && _) eqn:E; [| apply preserves_publish_result].
  apply preserves_bind; [| intros; apply preserves_publish_result].
  intros s H. cbn [snd]. apply I_rate; [lia | exact H].
Qed.

Lemma preserves_process_command (cmd : string) : preserves I (process_command cmd).
Proof.
  unfold process_command.
  repeat match goal with |- preserves _ (if ?c then _ else _) => destruct c end;
    auto using preserves_cmd_status, preserves_cmd_set_rate, preserves_ret.
  - unfold cmd_set_amp. handling.
  - unfold cmd_set_freq. handling.
  - unfold cmd_move. handling.
  - unfold cmd_stop. handling.
Qed.

Lemma preserves_command_iter : preserves I command_processor_thread_iter.
Proof.
  unfold command_processor_thread_iter.
  apply preserves_bind; [apply preserves_get | intros s].
  destruct (g_command_queue s) as [|cmd rest]; [apply preserves_ret |].
  apply preserves_bind; [apply preserves_set_queue | intros _; apply preserves_process_command].
Qed.

(** An invariant that nothing in the program breaks holds after every step,
    and so after every run. *)
Lemma step_preserves (m : Machine) (st : Step) : I (sys m) -> I (sys (step m st)).
Proof.
  intros H. destruct st; cbn [step].
  - destruct (_ && _); [| exact H].
    pose proof (preserves_tick (sampler m) (sys m) H) as H'.
    destruct (high_speed_sampler_thread_tick _ _) as [l s]. exact H'.
  - destruct (g_running (sys m)); [| exact H].
    pose proof (preserves_publisher (publisher m) (sys m) H) as H'.
    destruct (batch_publisher_thread_iter _ _) as [l s]. exact H'.
  - destruct (g_running (sys m)); [| exact H].
    cbn [sys]. now apply preserves_command_iter.
  - cbn [sys]. destruct payload as [text|]; [| exact H]. now apply I_queue.
  - cbn [sys]. unfold mqtt_on_connect, when. destruct (result =? 0); [| exact H].
    cbn. apply I_emit; [apply allowed_subscribe | now apply I_connected].
  - cbn [sys]. now apply I_connected.
Qed.

Lemma run_preserves (m : Machine) (steps : list Step) : I (sys m) -> I (sys (run m steps)).
Proof.
  intros H. unfold run. induction steps as [|st steps IH] using rev_ind; [exact H |].
  rewrite foldl_app. cbn [foldl]. now apply step_preserves.
Qed.

End Frame.

Section RunInvariants.
Context {P : Platform}.

(** X12: STATUS only reads.  Every call into libecc that it makes is a
    getter or a control function called with [set] = 0; no global is
    changed; and its one result is published while the broker is
    connected. *)
Theorem status_is_read_only (s : Sys) :
  let s' := snd (process_command "STATUS" s) in
  same_globals s s' /\
  exists evs,
    trace s' = trace s ++ evs /\ forallb query_event evs = true /\
    one_result (g_mqtt_connected s) (publishes evs).
Proof.
  cbv zeta. change (process_command "STATUS") with cmd_status.
  destruct (cmd_status_one s) as (evs & St & T & R).
  pose (I := fun x : Sys =>
    g_sample_rate_hz x = g_sample_rate_hz s /\
    g_sample_interval_ns x = g_sample_interval_ns s /\
    g_command_queue x = g_command_queue s /\
    exists evs, trace x = trace s ++ evs /\ forallb query_event evs = true).
  assert (H : I (snd (cmd_status s))).
  { apply (preserves_cmd_status I query_event); subst I; cbv beta.
    - intros x w Hx. exact Hx.
    - intros x e He (H1 & H2 & H3 & evs' & T' & F'). repeat split; try assumption.
      exists (evs' ++ [e]). cbn [trace emit]. rewrite T', <- app_assoc, forallb_app, F'.
      cbn. rewrite He. auto.
    - reflexivity.
    - intros c r Hc. exact Hc.
    - repeat split. exists []. now rewrite app_nil_r. }
  destruct H as (H1 & H2 & H3 & evs' & T' & F').
  split; [repeat split; assumption || apply St |].
  exists evs. rewrite T in T'. apply app_inv_head in T'. subst evs'. auto.
Qed.

Lemma rate_ok_bounds (s : Sys) :
  rate_ok s -> 66666 <= g_sample_interval_ns s <= 12500000.
Proof.
  intros [[E | B] ->]; [rewrite E; vm_compute; split; discriminate |].
  rewrite Z.quot_div_nonneg by lia. split.
  - apply Z.div_le_lower_bound; lia.
  - apply Z.lt_le_incl, Z.div_lt_upper_bound; lia.
Qed.

(** X13: after the threads have started, whatever commands arrive, the
    sampling rate is the initial 80 Hz or a rate between 100 and 15000 Hz
    that SET_RATE accepted, the interval is 10^9 divided by it, and so lies
    between 66666 ns and 12.5 ms: it is never zero or negative, and the
    division is never by zero. *)
Theorem rate_stays_valid (w : World) (c0 c1 : ControllerInfo) (steps : list Step) :
  let s := sys (run (boot w c0 c1) steps) in
  (g_sample_rate_hz s = 80 \/ 100 <= g_sample_rate_hz s <= 15000) /\
  g_sample_interval_ns s = Z.quot 1000000000 (g_sample_rate_hz s) /\
  66666 <= g_sample_interval_ns s <= 12500000.
Proof.
  cbv zeta.
  assert (H : rate_ok (sys (run (boot w c0 c1) steps))).
  { apply (run_preserves rate_ok (fun _ => true)); try (intros; assumption);
      try reflexivity.
    - intros s n Hn _. split; [right; exact Hn | reflexivity].
    - destruct (boot_sys w c0 c1) as [w' ->]. split; [left |]; reflexivity. }
  pose proof (rate_ok_bounds _ H). destruct H. auto.
Qed.

(** *** The command queue *)

Lemma queue_kept_by_sampler (l : Sampler) (s : Sys) :
  g_command_queue (snd (high_speed_sampler_thread_tick l s)) = g_command_queue s.
Proof.
  apply (preserves_tick (fun x => g_command_queue x = g_command_queue s) (fun _ => true));
    try (intros; assumption); reflexivity.
Qed.

Lemma queue_kept_by_publisher (l : Publisher) (s : Sys) :
  g_command_queue (snd (batch_publisher_thread_iter l s)) = g_command_queue s.
Proof.
  apply (preserves_publisher (fun x => g_command_queue x = g_command_queue s) (fun _ => true));
    try (intros; assumption); reflexivity.
Qed.

(** Processing a command does not touch the queue. *)
Lemma queue_kept_by_command (cmd : string) (s : Sys) :
  g_command_queue (snd (process_command cmd s)) = g_command_queue s.
Proof.
  apply (preserves_process_command (fun x => g_command_queue x = g_command_queue s)
           (fun _ => true));
    try (intros; assumption); reflexivity.
Qed.

Lemma command_iter_queue (s : Sys) :
  g_command_queue (snd (command_processor_thread_iter s)) = tail (g_command_queue s).
Proof.
  unfold command_processor_thread_iter, bind, get.
  destruct (g_command_queue s) as [|cmd rest] eqn:E; [cbn; now rewrite E |].
  cbn [tail]. now rewrite queue_kept_by_command.
Qed.

Lemma arrived_snoc (steps : list Step) (st : Step) :
  arrived (steps ++ [st])
  = arrived steps ++ match st with OnMessage (Some text) => [text] | _ => [] end.
Proof.
  unfold arrived. rewrite omap_app. f_equal. destruct st as [| | | [text|] | |]; reflexivity.
Qed.

Lemma tail_drop {A} (l : list A) (n : nat) : tail (drop n l) = drop (S n) l.
Proof.
  revert n. induction l as [|x l IH]; intros n; [now rewrite !drop_nil |].
  destruct n; [now rewrite drop_0 | cbn [drop]; apply IH].
Qed.

(** X14: the command queue is first in, first out: at any time it holds a
    final segment of what was queued at the start followed by the payloads
    that have arrived since, in their order; and the commands missing at its
    front are at most as many as the command processor has made iterations.
    Neither the sampler nor the publisher nor the processing of a command
    touches the queue. *)
Theorem command_queue_is_fifo (m : Machine) (steps : list Step) :
  exists n : nat,
    (n <= length (g_command_queue (sys m) ++ arrived steps))%nat /\
    Z.of_nat n <= count_steps is_command_iter steps /\
    g_command_queue (sys (run m steps)) = drop n (g_command_queue (sys m) ++ arrived steps).
Proof.
  induction steps as [|st steps IH] using rev_ind.
  - exists 0%nat. unfold run, count_steps, arrived. cbn. rewrite app_nil_r.
    repeat split; lia.
  - destruct IH as (n & Hn & Hc & Hq).
    rewrite run_snoc, arrived_snoc, count_steps_snoc, app_assoc.
    set (m' := run m steps) in *. set (L := g_command_queue (sys m) ++ arrived steps) in *.
    assert (Keep : g_command_queue (sys (step m' st)) = g_command_queue (sys m') ->
                   (match st with OnMessage (Some text) => [text] | _ => [] end) = [] ->
                   exists n0 : nat,
                     (n0 <= length (L ++ []))%nat /\
                     Z.of_nat n0 <= count_steps is_command_iter steps
                                    + (if is_command_iter st then 1 else 0) /\
                     g_command_queue (sys (step m' st)) = drop n0 (L ++ [])).
    { intros K _. exists n. rewrite K, app_nil_r, Hq.
      repeat split; [assumption | destruct (is_command_iter st); lia]. }
    destruct st as [| | | [text|] | |].
    + apply Keep; [| reflexivity]. cbn [step].
      destruct (_ && _); [| reflexivity].
      pose proof (queue_kept_by_sampler (sampler m') (sys m')) as K.
      destruct (high_speed_sampler_thread_tick _ _) as [l s]. exact K.
    + apply Keep; [| reflexivity]. cbn [step].
      destruct (g_running (sys m')); [| reflexivity].
      pose proof (queue_kept_by_publisher (publisher m') (sys m')) as K.
      destruct (batch_publisher_thread_iter _ _) as [l s]. exact K.
    + destruct (g_running (sys m')) eqn:Er.
      * cbn [step]. rewrite Er. cbn [sys is_command_iter].
        rewrite command_iter_queue, Hq, app_nil_r.
        destruct (drop n L) as [|cmd rest] eqn:E.
        -- exists n. repeat split; first [assumption | lia | now rewrite E].
        -- exists (S n). rewrite <- tail_drop, E. repeat split; try lia; try reflexivity.
           assert (n < length L)%nat; [| lia].
           destruct (Nat.lt_ge_cases n (length L)) as [Hl | Hl]; [assumption |].
           rewrite drop_ge in E by assumption. discriminate.
      * apply Keep; [| reflexivity]. cbn [step]. now rewrite Er.
    + exists n. cbn [step sys mqtt_on_message snd set_queue g_command_queue is_command_iter].
      rewrite Hq, length_app, drop_app_le by assumption. repeat split; lia.
    + apply Keep; reflexivity.
    + apply Keep; [| reflexivity]. cbn [step sys]. unfold mqtt_on_connect, when.
      destruct (result =? 0); reflexivity.
    + apply Keep; reflexivity.
Qed.

End RunInvariants.

(** *** The connection to the broker *)

Section Connection.
Context {P : Platform}.

Lemma subscriptions_snoc (tr : list Event) (e : Event) :
  subscriptions (tr ++ [e]) = subscriptions tr ++ (if is_subscribe e then [e] else []).
Proof.
  unfold subscriptions. rewrite filter_app, filter_cons, filter_nil.
  destruct (is_subscribe e); [rewrite decide_True by reflexivity
                             | rewrite decide_False by discriminate]; reflexivity.
Qed.

(** What the threads do neither subscribes nor touches the flag. *)
Lemma connection_kept (c : bool) (subs : list Event) (m : Machine) (st : Step) :
  match st with OnConnect _ | OnDisconnect _ => False | _ => True end ->
  g_mqtt_connected (sys m) = c /\ subscriptions (trace (sys m)) = subs ->
  g_mqtt_connected (sys (step m st)) = c /\ subscriptions (trace (sys (step m st))) = subs.
Proof.
  set (I := fun x : Sys => g_mqtt_connected x = c /\ subscriptions (trace x) = subs).
  set (allowed := fun e => negb (is_subscribe e)).
  assert (I_emit : forall s e, allowed e = true -> I s -> I (emit e s)).
  { intros s e He [H1 H2]. split; [exact H1 |]. cbn [trace emit].
    rewrite subscriptions_snoc. unfold allowed in He.
    destruct (is_subscribe e); [discriminate | now rewrite app_nil_r]. }
  assert (Hw : forall s w, I s -> I (set_world w s)) by (intros; assumption).
  assert (Hb : forall s b, I s -> I (set_buffer b s)) by (intros; assumption).
  assert (Hn : forall s c p d, I s -> I (set_counters c p d s)) by (intros; assumption).
  assert (Hq : forall s q, I s -> I (set_queue q s)) by (intros; assumption).
  assert (Hr : forall s n, 100 <= n <= 15000 -> I s ->
                           I (set_rate n (Z.quot 1000000000 n) s)) by (intros; assumption).
  assert (Ap : forall topic payload qos retain r,
                 allowed (Publish topic payload qos retain r) = true) by reflexivity.
  assert (Aq : forall c r, is_query c = true -> allowed (Ecc c r) = true) by reflexivity.
  assert (Ac : forall c r, allowed (Ecc c r) = true) by reflexivity.
  intros Hst H. change (I (sys (step m st))). change (I (sys m)) in H.
  destruct st as [| | | payload | |]; try contradiction; cbn [step].
  - destruct (_ && _); [| exact H].
    pose proof (preserves_tick I allowed Hw I_emit Hb Hn Aq (sampler m) (sys m) H) as K.
    destruct (high_speed_sampler_thread_tick _ _) as [l s]. exact K.
  - destruct (g_running (sys m)); [| exact H].
    pose proof (preserves_publisher I allowed Hw I_emit Hb Hn Ap (publisher m) (sys m) H) as K.
    destruct (batch_publisher_thread_iter _ _) as [l s]. exact K.
  - destruct (g_running (sys m)); [| exact H]. cbn [sys].
    exact (preserves_command_iter I allowed Hw I_emit Hq Hr Ap Aq Ac (sys m) H).
  - destruct payload; exact H.
Qed.

(** X15: the connection flag is what the callbacks made of it: set by a
    connect callback with result 0, cleared by every disconnect callback,
    and left as it was by a connect callback with another result and by
    everything the threads do.  The command topic is subscribed to, at QoS 0,
    once for every successful connect and by nothing else. *)
Theorem connection_follows_callbacks (m : Machine) (steps : list Step) :
  g_mqtt_connected (sys (run m steps))
  = connection_after (g_mqtt_connected (sys m)) steps /\
  subscriptions (trace (sys (run m steps)))
  = subscriptions (trace (sys m))
    ++ replicate (length (filter (fun st => is_successful_connect st = true) steps))
         (Subscribe MQTT_TOPIC_COMMAND 0).
Proof.
  induction steps as [|st steps IH] using rev_ind.
  - unfold run. cbn. now rewrite app_nil_r.
  - rewrite run_snoc. unfold connection_after. rewrite foldl_app. cbn [foldl].
    fold (connection_after (g_mqtt_connected (sys m)) steps).
    rewrite filter_app, length_app, filter_cons, filter_nil, replicate_add, app_assoc.
    set (m' := run m steps) in *.
    assert (Keep : match st with OnConnect _ | OnDisconnect _ => False | _ => True end ->
                   g_mqtt_connected (sys (step m' st))
                     = connection_after (g_mqtt_connected (sys m)) steps /\
                   subscriptions (trace (sys (step m' st)))
                     = subscriptions (trace (sys m))
                       ++ replicate (length (filter (fun st => is_successful_connect st = true)
                                               steps)) (Subscribe MQTT_TOPIC_COMMAND 0)).
    { intros Hst. now apply connection_kept. }
    destruct IH as [IH1 IH2].
    destruct st as [| | | payload | result | reason]; cbn [is_successful_connect];
      try (rewrite decide_False by discriminate; cbn [length replicate];
           rewrite app_nil_r; now apply Keep).
    + cbn [step sys]. unfold mqtt_on_connect, when.
      destruct (result =? 0).
      * rewrite decide_True by reflexivity. cbn. rewrite subscriptions_snoc, IH2. auto.
      * rewrite decide_False by discriminate. cbn. rewrite app_nil_r. auto.
    + rewrite decide_False by discriminate. cbn. rewrite app_nil_r. auto.
Qed.

End Connection.

(** ** Start-up and shutdown of the controllers *)

Section LifecycleProperties.
Context {P : Platform} {D : Devices P}.

Lemma untouched_refl (s : Sys) : untouched s s.
Proof. repeat split. Qed.

Lemma untouched_trans (s1 s2 s3 : Sys) : untouched s1 s2 -> untouched s2 s3 -> untouched s1 s3.
Proof.
  unfold untouched. intros H1 H2.
  repeat match goal with H : _ /\ _ |- _ => destruct H end.
  repeat split; congruence.
Qed.

Lemma same_globals_controllers_1 (s s' : Sys) :
  same_globals s s' -> g_controllers s' 1 = g_controllers s 1.
Proof.
  intros (_ & _ & _ & _ & _ & _ & _ & _ & H1 & _). unfold g_controllers.
  cbn. exact H1.
Qed.

Lemma lbind_eq {A B} (m : L A) (f : A -> L B) (st : Sys * list LibCall) :
  lbind m f st = let (a, st') := m st in f a st'.
Proof. reflexivity. Qed.

(** One axis at start-up: the axis is asked about, and when it is there it
    is entered in the table and its output is enabled. *)
Lemma init_axis_effect (i h a : Z) (s : Sys) (log : list LibCall) :
  i = 0 \/ i = 1 ->
  let '(_, (s', log')) := init_axis i h a (s, log) in
  untouched s s' /\ g_controllers_connected s' = g_controllers_connected s /\
  g_controllers s' (1 - i) = g_controllers s (1 - i) /\
  exists on : bool,
    g_controllers s' i
      = (if on then set_axis_connected (g_controllers s i) a else g_controllers s i) /\
    log' = log ++ Setup (ECC_getStatusConnected h a)
                  :: (if on then [Setup (ECC_controlOutput h a 1 true)] else []).
Proof.
  intros Hi. unfold init_axis, lbind, setup, modify, lret. cbn [fst snd].
  destruct (ecc_setup (ECC_getStatusConnected h a) (world s)) as [r w1].
  destruct (_ && _).
  - cbn [fst snd world set_world set_controller].
    destruct (ecc_setup (ECC_controlOutput h a 1 true) w1) as [r2 w2].
    split; [repeat split |]. split; [reflexivity |].
    split; [destruct Hi as [-> | ->]; reflexivity |].
    exists true. split; [destruct Hi as [-> | ->]; reflexivity |].
    now rewrite <- app_assoc.
  - split; [repeat split |]. split; [reflexivity |]. split; [reflexivity |].
    exists false. split; reflexivity.
Qed.

(** One controller at start-up, from a fresh entry of the table. *)
Lemma init_controller_effect (i : Z) (s : Sys) (log : list LibCall) :
  i = 0 \/ i = 1 -> g_controllers s i = controller0 ->
  let d := fst (ecc_setup (ECC_getDeviceInfo i) (world s)) in
  let '(_, (s', log')) := init_controller i (s, log) in
  untouched s s' /\ g_controllers_connected s' = g_controllers_connected s /\
  g_controllers s' (1 - i) = g_controllers s (1 - i) /\
  exists new,
    log' = log ++ Setup (ECC_getDeviceInfo i) :: new /\
    let c := g_controllers s' i in
    if connected c
    then setup_rc d = 0 /\ setup_locked d = 0 /\ id c = wrap_int32 (setup_out d) /\
         new = startup_calls i c
    else c = controller0 /\ (new = [] \/ new = [Setup (ECC_Connect i)]).
Proof.
  intros Hi Hc. cbv zeta. unfold init_controller.
  rewrite lbind_eq. unfold setup at 1. cbn [fst snd].
  destruct (ecc_setup (ECC_getDeviceInfo i) (world s)) as [d w1]. cbn [fst].
  assert (Skip : forall w, untouched s (set_world w s) /\
                   g_controllers_connected (set_world w s) = g_controllers_connected s /\
                   g_controllers (set_world w s) (1 - i) = g_controllers s (1 - i))
    by (intros; repeat split).
  destruct (setup_rc d =? 0) eqn:Ed; cbn [negb].
  2: { unfold lret. destruct (Skip w1) as (S1 & S2 & S3).
       split; [exact S1 |]. split; [exact S2 |]. split; [exact S3 |].
       exists []. split; [reflexivity |]. cbv zeta.
       change (g_controllers (set_world w1 s) i) with (g_controllers s i).
       rewrite Hc. cbn. auto. }
  destruct (setup_locked d =? 0) eqn:El; cbn [negb].
  2: { unfold lret. destruct (Skip w1) as (S1 & S2 & S3).
       split; [exact S1 |]. split; [exact S2 |]. split; [exact S3 |].
       exists []. split; [reflexivity |]. cbv zeta.
       change (g_controllers (set_world w1 s) i) with (g_controllers s i).
       rewrite Hc. cbn. auto. }
  rewrite lbind_eq. unfold setup at 1. cbn [fst snd world set_world].
  destruct (ecc_setup (ECC_Connect i) w1) as [c w2].
  destruct (setup_rc c =? 0) eqn:Ec; cbn [negb].
  2: { unfold lret. destruct (Skip w2) as (S1 & S2 & S3).
       split; [exact S1 |]. split; [exact S2 |]. split; [exact S3 |].
       exists [Setup (ECC_Connect i)]. split; [now rewrite <- app_assoc |]. cbv zeta.
       change (g_controllers (set_world w2 (set_world w1 s)) i) with (g_controllers s i).
       rewrite Hc. cbn. auto. }
  cbv zeta. rewrite lbind_eq. unfold modify at 1. cbn [fst snd].
  change (g_controllers (set_world w2 (set_world w1 s)) i) with (g_controllers s i).
  rewrite Hc. cbn [axis0_connected axis1_connected axis2_connected controller0].
  set (h := wrap_int32 (setup_out c)).
  set (c1 := mkController h (wrap_int32 (setup_out d)) true false false false).
  set (s1 := set_controller i c1 (set_world w2 (set_world w1 s))).
  assert (U1 : untouched s s1) by (repeat split).
  assert (K1 : g_controllers_connected s1 = g_controllers_connected s) by reflexivity.
  assert (O1 : g_controllers s1 (1 - i) = g_controllers s (1 - i))
    by (destruct Hi as [-> | ->]; reflexivity).
  assert (C1 : g_controllers s1 i = c1) by (destruct Hi as [-> | ->]; reflexivity).
  clearbody s1. cbn [init_axes].
  rewrite lbind_eq.
  match goal with |- context [init_axis i h ?a (?s', ?l')] =>
    pose proof (init_axis_effect i h a s' l' Hi) as A0;
    destruct (init_axis i h a (s', l')) as [[] [s2 l2]] end.
  destruct A0 as (U2 & K2 & O2 & on0 & C2 & ->).
  rewrite lbind_eq.
  match goal with |- context [init_axis i h ?a (?s', ?l')] =>
    pose proof (init_axis_effect i h a s' l' Hi) as A1;
    destruct (init_axis i h a (s', l')) as [[] [s3 l3]] end.
  destruct A1 as (U3 & K3 & O3 & on1 & C3 & ->).
  rewrite lbind_eq.
  match goal with |- context [init_axis i h ?a (?s', ?l')] =>
    pose proof (init_axis_effect i h a s' l' Hi) as A2;
    destruct (init_axis i h a (s', l')) as [[] [s4 l4]] end.
  destruct A2 as (U4 & K4 & O4 & on2 & C4 & ->).
  unfold lret.
  split; [eauto using untouched_trans |]. split; [congruence |]. split; [congruence |].
  eexists. split; [rewrite <- !app_assoc; cbn [app]; reflexivity |].
  cbv zeta. rewrite C4, C3, C2, C1. apply Z.eqb_eq in Ed, El.
  destruct on0, on1, on2; cbn; repeat split; assumption.
Qed.

(** X16: start-up of the controllers, from a fresh controller table.
    It fails exactly when [ECC_Check] finds no controller; otherwise it
    succeeds and sets [g_controllers_connected], whether or not any
    controller could be connected.  [ECC_Check] is the first call and
    [ECC_ReleaseInfo] the last one, on both paths.  In between at most the
    devices 0 and 1 are probed, device 1 only when two controllers were
    found; a device that was connected has its three axes asked about in
    order, and the output of an axis is enabled exactly when the axis is
    entered in the table as connected; a device that was not connected
    keeps its fresh entry.  Nothing else of the globals is changed. *)
Theorem initialize_controllers_outcome (s : Sys) :
  table_fresh s ->
  let num := wrap_int32 (setup_rc (fst (ecc_setup ECC_Check (world s)))) in
  let r := initialize_controllers (s, []) in
  let s' := fst (snd r) in
  fst r = (0 <? num) /\
  g_controllers_connected s' = (fst r || g_controllers_connected s) /\
  untouched s s' /\
  exists new0 new1,
    snd (snd r)
    = Setup ECC_Check
      :: (if 0 <? num then Setup (ECC_getDeviceInfo 0) :: new0 else [])
      ++ (if 1 <? num then Setup (ECC_getDeviceInfo 1) :: new1 else [])
      ++ [Setup ECC_ReleaseInfo] /\
    probed 0 (g_controllers_0 s') new0 /\ probed 1 (g_controllers_1 s') new1 /\
    (num <= 0 -> new0 = []) /\ (num <= 1 -> new1 = []).
Proof.
  intros [F0 F1]. cbv zeta.
  set (r := initialize_controllers (s, [])).
  assert (Hr : r = initialize_controllers (s, [])) by reflexivity. clearbody r.
  unfold initialize_controllers in Hr.
  rewrite lbind_eq in Hr. unfold setup at 1 in Hr. cbn [fst snd app] in Hr.
  destruct (ecc_setup ECC_Check (world s)) as [n w0]. cbn [fst].
  set (num := wrap_int32 (setup_rc n)) in *.
  destruct (num <=? 0) eqn:En.
  - apply Z.leb_le in En.
    replace (0 <? num) with false by (symmetry; apply Z.ltb_ge; lia).
    replace (1 <? num) with false by (symmetry; apply Z.ltb_ge; lia).
    unfold lbind, setup, lret in Hr. cbn [fst snd world set_world] in Hr.
    destruct (ecc_setup ECC_ReleaseInfo w0) as [r' w1]. subst r. cbn [fst snd app].
    split; [reflexivity |]. split; [reflexivity |]. split; [repeat split |].
    exists [], []. cbn [g_controllers_0 g_controllers_1 set_world]. rewrite F0, F1.
    cbn. repeat split; auto.
  - apply Z.leb_gt in En.
    replace (0 <? num) with true by (symmetry; apply Z.ltb_lt; lia).
    cbn [init_controllers] in Hr.
    replace (0 <? Z.min num 2) with true in Hr by (symmetry; apply Z.ltb_lt; lia).
    replace (0 + 1 <? Z.min num 2) with (1 <? num) in Hr
      by (destruct (1 <? num) eqn:E1; symmetry;
          [apply Z.ltb_lt; apply Z.ltb_lt in E1 | apply Z.ltb_ge; apply Z.ltb_ge in E1]; lia).
    rewrite !lbind_eq in Hr.
    pose proof (init_controller_effect 0 (set_world w0 s) [Setup ECC_Check]
                  (or_introl eq_refl) F0) as I0.
    cbv zeta in I0.
    destruct (init_controller 0 _) as [[] [s1 l1]].
    destruct I0 as (U1 & K1 & O1 & new0 & -> & R0).
    assert (P0 : probed 0 (g_controllers_0 s1) new0).
    { unfold probed. change (g_controllers s1 0) with (g_controllers_0 s1) in R0.
      destruct (connected (g_controllers_0 s1)); tauto. }
    clear R0. change (g_controllers s1 (1 - 0)) with (g_controllers_1 s1) in O1.
    change (g_controllers (set_world w0 s) (1 - 0)) with (g_controllers_1 s) in O1.
    destruct (1 <? num) eqn:E1.
    + rewrite !lbind_eq in Hr.
      pose proof (init_controller_effect (0 + 1) s1 ([Setup ECC_Check] ++
                    Setup (ECC_getDeviceInfo 0) :: new0) (or_intror eq_refl)) as I1.
      cbv zeta in I1.
      change (g_controllers s1 (0 + 1)) with (g_controllers_1 s1) in I1.
      specialize (I1 ltac:(congruence)).
      destruct (init_controller (0 + 1) _) as [[] [s2 l2]].
      destruct I1 as (U2 & K2 & O2 & new1 & -> & R1).
      change (g_controllers s2 (0 + 1)) with (g_controllers_1 s2) in R1.
      change (g_controllers s2 (1 - (0 + 1))) with (g_controllers_0 s2) in O2.
      change (g_controllers s1 (1 - (0 + 1))) with (g_controllers_0 s1) in O2.
      unfold lret, setup, modify, lbind in Hr. cbn [fst snd world set_world] in Hr.
      destruct (ecc_setup ECC_ReleaseInfo (world s2)) as [r' w3]. subst r. cbn [fst snd].
      split; [reflexivity |]. split; [reflexivity |].
      split; [apply (untouched_trans _ (set_world w0 s)); [repeat split |];
              apply (untouched_trans _ s1); [assumption |];
              apply (untouched_trans _ s2); [assumption | repeat split] |].
      exists new0, new1. cbn [g_controllers_0 g_controllers_1 set_controllers_connected set_world].
      rewrite O2. apply Z.ltb_lt in E1.
      split; [rewrite <- !app_assoc; reflexivity |].
      split; [assumption |].
      split; [unfold probed; destruct (connected (g_controllers_1 s2)); tauto |].
      split; intros; lia.
    + unfold lret, setup, modify, lbind in Hr. cbn [fst snd world set_world] in Hr.
      destruct (ecc_setup ECC_ReleaseInfo (world s1)) as [r' w3]. subst r. cbn [fst snd].
      split; [reflexivity |]. split; [reflexivity |].
      split; [apply (untouched_trans _ (set_world w0 s)); [repeat split |];
              apply (untouched_trans _ s1); [assumption | repeat split] |].
      exists new0, []. cbn [g_controllers_0 g_controllers_1 set_controllers_connected set_world].
      rewrite O1, F1.
      split; [rewrite <- !app_assoc; reflexivity |].
      split; [assumption |].
      split; [unfold probed; cbn; auto |].
      split; [intros; lia | reflexivity].
Qed.


(** *** Shutdown *)

Lemma cleanup_axis_effect (c : ControllerInfo) (a : Z) (s : Sys) (log : list LibCall) :
  let r := cleanup_axis c a (s, log) in
  same_globals s (fst (snd r)) /\
  exists reply,
    snd (snd r) = log ++ shutdown_axis c a reply /\
    trace (fst (snd r)) = trace s ++ shutdown_axis_events c a reply.
Proof.
  cbv zeta. unfold cleanup_axis, shutdown_axis, shutdown_axis_events.
  destruct (axes_connected c a).
  - unfold lbind, control, setup, lret, call. cbn [fst snd].
    destruct (ecc _ (world s)) as [r w1]. cbn [fst snd world set_world emit].
    destruct (ecc_setup _ w1) as [r2 w2]. cbn [fst snd].
    split; [repeat split |]. exists r.
    split; [now rewrite <- app_assoc | reflexivity].
  - cbn. rewrite !app_nil_r. split; [apply same_globals_refl |].
    exists (mkReply 0 0 ""). auto.
Qed.

Lemma cleanup_controller_effect (i : Z) (s : Sys) (log : list LibCall) :
  let r := cleanup_controller i (s, log) in
  same_globals s (fst (snd r)) /\
  exists r0 r1 r2,
    snd (snd r) = log ++ shutdown_calls (g_controllers s i) r0 r1 r2 /\
    trace (fst (snd r)) = trace s ++ shutdown_events (g_controllers s i) r0 r1 r2.
Proof.
  cbv zeta. set (r := cleanup_controller i (s, log)).
  assert (Hr : r = cleanup_controller i (s, log)) by reflexivity. clearbody r.
  unfold cleanup_controller, shutdown_calls, shutdown_events in *.
  rewrite lbind_eq in Hr. unfold lget at 1 in Hr. cbn [fst] in Hr. cbv zeta in Hr.
  set (c := g_controllers s i) in *. clearbody c.
  destruct (connected c && negb (handle c =? -1)).
  - cbn [cleanup_axes] in Hr. rewrite !lbind_eq in Hr.
    pose proof (cleanup_axis_effect c 0 s log) as A0. cbv zeta in A0.
    destruct (cleanup_axis c 0 _) as [[] [s1 l1]]. cbn [fst snd] in A0.
    destruct A0 as (G1 & r0 & -> & T1). rewrite !lbind_eq in Hr.
    pose proof (cleanup_axis_effect c (0 + 1) s1 (log ++ shutdown_axis c 0 r0)) as A1.
    cbv zeta in A1.
    destruct (cleanup_axis c (0 + 1) _) as [[] [s2 l2]]. cbn [fst snd] in A1.
    destruct A1 as (G2 & r1 & -> & T2). rewrite !lbind_eq in Hr.
    pose proof (cleanup_axis_effect c (0 + 1 + 1) s2
                  ((log ++ shutdown_axis c 0 r0) ++ shutdown_axis c (0 + 1) r1)) as A2.
    cbv zeta in A2.
    destruct (cleanup_axis c (0 + 1 + 1) _) as [[] [s3 l3]]. cbn [fst snd] in A2.
    destruct A2 as (G3 & r2 & -> & T3). cbv beta iota in Hr.
    unfold lret, setup, lbind in Hr. cbn [fst snd] in Hr.
    destruct (ecc_setup (ECC_Close (handle c)) (world s3)) as [r' w]. subst r.
    cbn [fst snd].
    split.
    + apply (same_globals_trans _ s1); [assumption |].
      apply (same_globals_trans _ s2); [assumption |].
      apply (same_globals_trans _ s3); [assumption | repeat split].
    + exists r0, r1, r2. cbn [trace set_world].
      split; [rewrite <- !app_assoc; reflexivity |].
      rewrite T3, T2, T1, <- !app_assoc. reflexivity.
  - unfold lret in Hr. subst r. cbn [fst snd]. rewrite !app_nil_r.
    split; [apply same_globals_refl |].
    exists (mkReply 0 0 ""), (mkReply 0 0 ""), (mkReply 0 0 ""). auto.
Qed.

Lemma publishes_shutdown_events (c : ControllerInfo) (r0 r1 r2 : EccReply) :
  publishes (shutdown_events c r0 r1 r2) = [].
Proof.
  unfold shutdown_events, shutdown_axis_events.
  destruct (_ && _); [| reflexivity].
  destruct (axes_connected c 0), (axes_connected c 1), (axes_connected c 2); reflexivity.
Qed.

(** X17: what [cleanup_controllers] does, whenever it is called.  Which
    controllers and axes it addresses, and in which order, depends on the
    controller table alone: for each of the two controllers that is
    connected and whose handle is not -1, and for each of its axes that is
    connected, in the order of the axes, [ECC_controlMove] is called with 0
    and then [ECC_controlOutput] with what [ECC_controlMove] left in the
    variable that the two calls share; then the handle is closed; for any
    other controller no call is made.  So the output is disabled only if
    libecc leaves 0 in that variable.  The return codes make no difference.
    The table is left as it is (a closed controller still counts as
    connected), no other global is changed, and nothing is published. *)
Theorem cleanup_controllers_calls (s : Sys) (log : list LibCall) :
  let r := cleanup_controllers (s, log) in
  same_globals s (fst (snd r)) /\
  exists r0 r1 r2 q0 q1 q2 : EccReply,
    let events := shutdown_events (g_controllers_0 s) r0 r1 r2
                  ++ shutdown_events (g_controllers_1 s) q0 q1 q2 in
    snd (snd r)
    = log ++ shutdown_calls (g_controllers_0 s) r0 r1 r2
          ++ shutdown_calls (g_controllers_1 s) q0 q1 q2 /\
    trace (fst (snd r)) = trace s ++ events /\ publishes events = [].
Proof.
  cbv zeta. set (r := cleanup_controllers (s, log)).
  assert (Hr : r = cleanup_controllers (s, log)) by reflexivity. clearbody r.
  unfold cleanup_controllers in Hr. rewrite lbind_eq in Hr.
  pose proof (cleanup_controller_effect 0 s log) as C0. cbv zeta in C0.
  destruct (cleanup_controller 0 _) as [[] [s1 l1]]. cbn [fst snd] in C0.
  destruct C0 as (G1 & r0 & r1 & r2 & -> & T1). cbv beta iota in Hr.
  pose proof (cleanup_controller_effect 1 s1
                (log ++ shutdown_calls (g_controllers s 0) r0 r1 r2)) as C1.
  cbv zeta in C1. subst r.
  destruct (cleanup_controller 1 _) as [[] [s2 l2]]. cbn [fst snd] in *.
  destruct C1 as (G2 & q0 & q1 & q2 & -> & T2).
  rewrite (same_globals_controllers_1 s s1 G1) in *.
  split; [eapply same_globals_trans; eassumption |].
  exists r0, r1, r2, q0, q1, q2.
  split; [rewrite <- app_assoc; reflexivity |].
  split; [rewrite T2, T1, <- app_assoc; reflexivity |].
  rewrite publishes_app, !publishes_shutdown_events. reflexivity.
Qed.

End LifecycleProperties.

Lemma initialize_controllers_outcome_witness :
  let D := sim_devices second_locked in
  let r := initialize_controllers (initial (mkSim 0 ecc_ok 0), []) in
  table_fresh (initial (mkSim 0 ecc_ok 0)) /\
  fst r = true /\ g_controllers_connected (fst (snd r)) = true.
Proof.
  cbv zeta.
  assert (Hf : table_fresh (initial (mkSim 0 ecc_ok 0))) by (split; reflexivity).
  split; [exact Hf |].
  destruct (@initialize_controllers_outcome sim (sim_devices second_locked) _ Hf)
    as (H1 & H2 & _).
  split; [exact H1 | exact H2].
Defined.

(** ** Start-up and shutdown on the simulated platform *)

(** Two controllers are found and the second one is locked: the first is
    connected, its axes 0 and 1 get their output enabled, the second is not
    connected to. *)
Example startup_with_second_locked :
  let D := sim_devices second_locked in
  let r := initialize_controllers (initial (mkSim 0 ecc_ok 0), []) in
  fst r = true /\
  g_controllers_0 (fst (snd r)) = mkController 7 4 true true true false /\
  g_controllers_1 (fst (snd r)) = controller0 /\
  snd (snd r) =
    [Setup ECC_Check; Setup (ECC_getDeviceInfo 0); Setup (ECC_Connect 0);
     Setup (ECC_getStatusConnected 7 0); Setup (ECC_controlOutput 7 0 1 true);
     Setup (ECC_getStatusConnected 7 1); Setup (ECC_controlOutput 7 1 1 true);
     Setup (ECC_getStatusConnected 7 2);
     Setup (ECC_getDeviceInfo 1); Setup ECC_ReleaseInfo].
Proof. vm_compute. repeat split. Qed.

(** A controller is found and cannot be queried: start-up succeeds, the
    sampler is let run, and no controller is connected. *)
Example startup_without_usable_controller :
  let D := sim_devices none_usable in
  let r := initialize_controllers (initial (mkSim 0 ecc_ok 0), []) in
  fst r = true /\ g_controllers_connected (fst (snd r)) = true /\
  connected (g_controllers_0 (fst (snd r))) = false /\
  connected (g_controllers_1 (fst (snd r))) = false.
Proof. vm_compute. repeat split. Qed.

(** A controller whose handle is -1: its outputs are enabled at start-up,
    and [cleanup_controllers], called on the table that start-up leaves,
    makes no call at all. *)
Example handle_minus_one_is_never_closed :
  let D := sim_devices handle_minus_one in
  let st := snd (initialize_controllers (initial (mkSim 0 ecc_ok 0), [])) in
  In (Setup (ECC_controlOutput (-1) 0 1 true)) (snd st) /\
  connected (g_controllers_0 (fst st)) = true /\
  snd (snd (cleanup_controllers (fst st, []))) = [].
Proof. vm_compute. repeat split. tauto. Qed.

(** libecc leaves 42 in the argument of [ECC_controlMove]: that is what
    [cleanup_controllers] passes on to [ECC_controlOutput]. *)
Example cleanup_passes_on_what_move_left :
  let D := sim_devices second_locked in
  snd (snd (cleanup_controllers
              (ready (mkSim 0 ecc_ok 0) (mkController 7 4 true true false false) controller0,
               [])))
  = [Control (ECC_controlMove 7 0 0 true); Setup (ECC_controlOutput 7 0 42 true);
     Setup (ECC_Close 7)].
Proof. vm_compute. reflexivity. Qed.

(** ** Numbers followed by other text *)

Section TrailingText.
Context {P : Platform}.

Lemma strtol_digits_stop (junk : string) (acc : Z) :
  starts_with_digit junk = false -> strtol_digits junk acc = acc.
Proof. destruct junk as [|c junk]; [reflexivity |]. simpl. now intros ->. Qed.

(** [atoi] reads a number up to the first character that is no digit. *)
Lemma atoi_prefix (n : Z) (junk : string) :
  is_int32 n -> starts_with_digit junk = false -> atoi (to_string n +:+ junk) = n.
Proof.
  intros Hn Hj. pose proof Hn as Hr. unfold is_int32, INT32_MIN, INT32_MAX in Hr.
  assert (Hval : strtol_skip (to_string n +:+ junk) = n).
  { unfold to_string. destruct (n <? 0) eqn:E.
    - apply Z.ltb_lt in E.
      pose proof (strtol_digits_dec 20 (- n) junk) as H.
      remember (dec_digits 20 (- n)) as d. simpl.
      rewrite H by (simpl; lia). rewrite strtol_digits_stop by assumption. lia.
    - apply Z.ltb_ge in E.
      destruct (dec_digits_head 20 n) as (c & s & Hs & Hc); [lia | lia |].
      destruct (isdigit_plain c Hc) as (Hsp & Hm & Hp & _).
      pose proof (strtol_digits_dec 20 n junk) as H.
      remember (dec_digits 20 n) as d. subst d. rewrite Hs in *.
      cbn [String.append]. unfold strtol_skip, strtol_signed. rewrite Hsp, Hm, Hp.
      cbn [String.append] in H.
      rewrite H by (simpl; lia). now apply strtol_digits_stop. }
  unfold atoi, strtol. rewrite Hval.
  unfold LONG_MIN, LONG_MAX.
  rewrite Z.min_r, Z.max_r by lia. now apply wrap_int32_id.
Qed.

Lemma append_nonempty (a b : string) : a <> "" -> a +:+ b <> "".
Proof. destruct a; [contradiction | discriminate]. Qed.

(** X19: a number in a command is read up to its first character that is
    no digit, and what follows is ignored: SET_RATE with a rate between 100
    and 15000 followed by any text without a digit at its start is accepted,
    the rate and the interval are set from the number, and the result
    repeats the text as it was written. *)
Theorem set_rate_ignores_trailing_text (s : Sys) (n : Z) (junk : string) :
  100 <= n <= 15000 -> starts_with_digit junk = false -> contains newline junk = false ->
  let text := to_string n +:+ junk in
  let s' := snd (process_command ("SET_RATE/" +:+ text) s) in
  atoi text = n /\
  g_sample_rate_hz s' = n /\ g_sample_interval_ns s' = Z.quot 1000000000 n /\
  exists results,
    trace s' = trace s ++ results /\
    if g_mqtt_connected s
    then exists t r, results =
           [result_message
              ("/COMMAND/SET_RATE/ALL/SUCCESS/Sampling rate set to " +:+ text +:+ " Hz") t r]
    else results = [].
Proof.
  intros Hn Hj Hl. cbv zeta.
  assert (Hi : is_int32 n) by (unfold is_int32, INT32_MIN, INT32_MAX; lia).
  pose proof (atoi_prefix n junk Hi Hj) as Ha. split; [exact Ha |].
  destruct (process_command_known (to_string n +:+ junk)) as (-> & _).
  unfold cmd_set_rate.
  change (istringstream_of ("SET_RATE/" +:+ to_string n +:+ junk))
    with (mkStream ("SET_RATE" +:+ String slash (to_string n +:+ junk)) false false).
  rewrite getline_field by reflexivity.
  rewrite getline_tail
    by (first [ rewrite contains_app, to_string_one_line, Hl; reflexivity
              | apply append_nonempty, to_string_nonempty ]).
  rewrite Ha.
  replace ((100 <=? n) && (n <=? 15000)) with true
    by (symmetry; apply andb_true_intro; split; apply Z.leb_le; lia).
  unfold bind. cbv beta iota.
  match goal with |- context [publish_result ?text ?st] =>
    destruct (publish_result_effect text st) as (results & T & (G1 & G2 & _) & R) end.
  rewrite G1, G2. split; [reflexivity |]. split; [reflexivity |].
  exists results. split; [exact T | exact R].
Qed.

End TrailingText.

Lemma set_rate_ignores_trailing_text_witness :
  atoi "2000 Hz" = 2000 /\
  g_sample_rate_hz (snd (process_command "SET_RATE/2000 Hz" (sim_ready ecc_ok))) = 2000.
Proof.
  destruct (set_rate_ignores_trailing_text (sim_ready ecc_ok) 2000 " Hz"
              ltac:(lia) eq_refl eq_refl) as (H1 & H2 & _).
  split; [exact H1 | exact H2].
Defined.

(** ** The formatter and the least [int32_t] *)

Section FormatterDefined.

Import FastStringBuffer.

Lemma int32_to_string_defined_spec (v : Z) :
  is_int32 v ->
  if v =? INT32_MIN then int32_to_string_defined v = None
  else int32_to_string_defined v = Some (to_string v) /\ int32_to_string v = to_string v.
Proof.
  intros Hv. unfold is_int32, INT32_MIN, INT32_MAX in Hv.
  destruct (v =? INT32_MIN) eqn:E.
  - apply Z.eqb_eq in E. subst v. reflexivity.
  - apply Z.eqb_neq in E. unfold INT32_MIN in E.
    pose proof (int32_to_string_decimal v) as D.
    rewrite <- D by (unfold INT32_MIN, INT32_MAX; lia). split; [| reflexivity].
    unfold int32_to_string_defined, int32_to_string, negate_int32, int32_digits,
      INT32_MIN, INT32_MAX.
    destruct (v <? 0) eqn:N; [| reflexivity]. apply Z.ltb_lt in N.
    replace ((- 2 ^ 31 <=? - v) && (- v <=? 2 ^ 31 - 1)) with true
      by (symmetry; apply andb_true_intro; split; apply Z.leb_le; lia).
    rewrite wrap_int32_id by (unfold is_int32, INT32_MIN, INT32_MAX; lia).
    destruct (- v =? 0); reflexivity.
Qed.

Lemma field_defined_spec (p : PositionSample) (bit pos : Z) :
  is_int32 pos ->
  match field_defined p bit pos with
  | Some text =>
      text = position_field (mask_set p bit) pos /\
      text = (if mask_set p bit then int32_to_string pos else "NaN") /\
      ~ (mask_set p bit = true /\ pos = INT32_MIN)
  | None => mask_set p bit = true /\ pos = INT32_MIN
  end.
Proof.
  intros Hv. unfold field_defined, position_field.
  pose proof (int32_to_string_defined_spec pos Hv) as H.
  destruct (mask_set p bit).
  - destruct (pos =? INT32_MIN) eqn:E.
    + rewrite H. apply Z.eqb_eq in E. auto.
    + destruct H as [-> H]. apply Z.eqb_neq in E.
      split; [reflexivity |]. split; [auto |]. intros [_ ?]. contradiction.
  - split; [reflexivity |]. split; [reflexivity |]. intros [? _]. discriminate.
Qed.

(** C6: the behaviour of [format_position] on a well-formed sample is
    defined exactly when no field that is marked valid holds the least
    [int32_t].  Where it is defined, the line is that of the interface:
    [<timestamp>/<X>/<Y>/<Z>/<R>] with the decimal text of the timestamp
    and of each valid field, and [NaN] for a field exactly when its bit is
    clear.  Where a valid field holds the least [int32_t], [value = -value]
    overflows and the source does not determine what is written. *)
Theorem format_position_defined_unless_least_int32 (p : PositionSample) :
  sample_wf p ->
  match format_position_defined p with
  | Some line =>
      line = position_line p /\ format_position p = line /\ ~ least_int32_field p
  | None => least_int32_field p
  end.
Proof.
  intros (Ht & Hx & Hy & Hz & Hr & _).
  pose proof (field_defined_spec p 1 _ Hx) as Fx.
  pose proof (field_defined_spec p 2 _ Hy) as Fy.
  pose proof (field_defined_spec p 4 _ Hz) as Fz.
  pose proof (field_defined_spec p 8 _ Hr) as Fr.
  unfold format_position_defined, least_int32_field, position_line, format_position.
  destruct (field_defined p 1 _) as [x|]; [| tauto].
  destruct (field_defined p 2 _) as [y|]; [| tauto].
  destruct (field_defined p 4 _) as [z|]; [| tauto].
  destruct (field_defined p 8 _) as [r|]; [| tauto].
  destruct Fx as (Sx & Cx & Nx), Fy as (Sy & Cy & Ny), Fz as (Sz & Cz & Nz),
    Fr as (Sr & Cr & Nr).
  rewrite uint64_to_string_decimal by assumption.
  split; [now rewrite Sx, Sy, Sz, Sr |].
  split; [now rewrite <- Cx, <- Cy, <- Cz, <- Cr |]. tauto.
Qed.

End FormatterDefined.

Lemma format_position_defined_unless_least_int32_witness :
  sample_wf (mkSample 0 (-2147483648) 0 0 0 1) /\
  format_position_defined (mkSample 0 (-2147483648) 0 0 0 1) = None /\
  least_int32_field (mkSample 0 (-2147483648) 0 0 0 1).
Proof.
  assert (H : sample_wf (mkSample 0 (-2147483648) 0 0 0 1)).
  { unfold sample_wf, is_uint64, is_int32, INT32_MIN, INT32_MAX, UINT64_MOD. simpl. lia. }
  split; [exact H |]. split; [reflexivity |].
  exact (format_position_defined_unless_least_int32 _ H).
Defined.

(** ** The position token of MOVE *)

Section MoveToken.
Context {P : Platform}.


End MoveToken.



(** ** The threads between their accesses to the ring and the counters *)

Section FineThreads.
Context {P : Platform}.

Import LockFreeBuffer.

(** *** The actions make up the iterations *)

(** The two actions of the sampler, one after the other, are a tick. *)
Lemma sampler_actions_make_tick (l : Sampler) (s : Sys) :
  high_speed_sampler_thread_tick l s
  = let (x, s1) := sampler_write l s in sampler_count (fst x) (snd x) s1.
Proof.
  unfold high_speed_sampler_thread_tick, sampler_write, sampler_count.
  unfold bind, get, ret, when, now, sleep_until.
  destruct (read_all_positions_fast s) as [sample s1].
  destruct (try_write (g_position_buffer s1) sample) as [[|] b]; cbn;
    destruct (clock_now (world s1)) as [t w]; cbn; reflexivity.
Qed.

Lemma collect_full (n : nat) (batch : list PositionSample) (b : t) :
  (length batch + n = BUFFER_SIZE)%nat -> collect (S n) batch b = collect n batch b.
Proof.
  revert batch b. induction n as [|n IH]; intros batch b Hlen.
  - cbn [collect]. replace (length batch <? BUFFER_SIZE)%nat with false; [reflexivity |].
    symmetry. apply Nat.ltb_ge. lia.
  - change (collect (S (S n)) batch b)
      with (if (length batch <? BUFFER_SIZE)%nat then
              match try_read b with
              | (Some sample, b') => collect (S n) (batch ++ [sample]) b'
              | (None, b') => (batch, b')
              end
            else (batch, b)).
    cbn [collect]. destruct (_ <? _)%nat; [| reflexivity].
    destruct (try_read b) as [[x|] b']; [| reflexivity].
    apply IH. rewrite length_app. cbn [length]. lia.
Qed.

Lemma set_buffer_same (s : Sys) : set_buffer (g_position_buffer s) s = s.
Proof. now destruct s. Qed.

(** The turns of the drain loop take from the ring what [collect] takes. *)
Lemma publisher_drain_collect (n : nat) (batch : list PositionSample) (s : Sys) :
  wf (g_position_buffer s) ->
  publisher_drain n batch s
  = let (batch', b') := collect n batch (g_position_buffer s) in (batch', set_buffer b' s).
Proof.
  revert batch s. induction n as [|n IH]; intros batch s Hwf; cbn [publisher_drain collect].
  - unfold ret. now rewrite set_buffer_same.
  - unfold bind, publisher_read.
    destruct (_ <? _)%nat; [| unfold ret; cbn; now rewrite set_buffer_same].
    unfold bind, get, ret.
    pose proof (try_read_unread _ Hwf) as Hu. pose proof (try_read_wf _ Hwf) as Hw.
    destruct (try_read (g_position_buffer s)) as [[x|] b]; cbn [snd] in Hw.
    + rewrite IH by exact Hw. cbn [g_position_buffer set_buffer].
      destruct (collect n (batch ++ [x]) b). reflexivity.
    + destruct Hu as [_ ->]. cbn. now rewrite set_buffer_same.
Qed.

(** The actions of the publisher, one after the other, are an iteration. *)
Lemma publisher_actions_make_iteration (l : Publisher) (s : Sys) :
  wf (g_position_buffer s) ->
  batch_publisher_thread_iter l s
  = let (batch, s1) := publisher_drain (S BUFFER_SIZE) [] s in
    let (x, s2) := publisher_publish l batch s1 in
    match snd x with
    | Sent sent result => publisher_count (fst x) sent result s2
    | _ => (fst x, s2)
    end.
Proof.
  intros Hwf. rewrite publisher_drain_collect, collect_full by (assumption || reflexivity).
  unfold batch_publisher_thread_iter. unfold bind at 1. unfold get at 1. cbv beta iota.
  destruct (collect BUFFER_SIZE [] (g_position_buffer s)) as [batch b].
  unfold bind at 1. cbv beta iota.
  unfold publisher_publish, publisher_count.
  destruct batch as [|p batch]; cbn [length Nat.eqb negb].
  - reflexivity.
  - unfold bind, get, ret, publish, sleep_until. cbv beta iota.
    destruct (g_mqtt_connected (set_buffer b s)); [| reflexivity].
    destruct (mosquitto_publish _ _ _ _ _) as [r w]. cbn [fst snd].
    destruct (r =? MOSQ_ERR_SUCCESS); reflexivity.
Qed.

(** *** What each action does *)

Lemma sampler_write_effect (l : Sampler) (s : Sys) :
  exists sample evs,
    let (x, s') := sampler_write l s in
    try_write (g_position_buffer s) sample = (snd x, g_position_buffer s') /\
    counters_kept s s' /\
    g_mqtt_connected s' = g_mqtt_connected s /\
    trace s' = trace s ++ evs /\
    debug_counter (fst x) = wrap_uint64 (debug_counter l + 1).
Proof.
  unfold sampler_write. unfold bind at 1.
  destruct (quiet_read_all_positions_fast s) as (evs & G & T & _).
  destruct (read_all_positions_fast s) as [sample s1]. cbn [snd] in *.
  destruct G as (_ & _ & _ & _ & _ & G6 & G7 & _ & _ & G10 & G11 & G12).
  exists sample, evs. unfold bind at 1. unfold get at 1. cbv beta iota.
  rewrite G7. unfold try_write.
  destruct (_ =? _)%nat; unfold bind, ret, when, counters_kept; cbn;
    rewrite ?G7; auto.
Qed.

Lemma sampler_count_effect (l : Sampler) (ok : bool) (s : Sys) :
  let (l', s') := sampler_count l ok s in
  g_position_buffer s' = g_position_buffer s /\
  g_total_captured s' = (if ok then wrap_uint64 (g_total_captured s + 1) else g_total_captured s) /\
  g_total_dropped s' = (if ok then g_total_dropped s else wrap_uint64 (g_total_dropped s + 1)) /\
  g_total_published s' = g_total_published s /\
  g_mqtt_connected s' = g_mqtt_connected s /\
  trace s' = trace s /\
  debug_counter l' = debug_counter l.
Proof.
  unfold sampler_count, bind, ret, now, when, sleep_until.
  destruct ok; cbn; destruct (clock_now (world s)) as [t w]; cbn;
    destruct (t <? _); cbn; auto 10.
Qed.

Lemma publisher_read_effect (batch : list PositionSample) (s : Sys) :
  let (ph, s') := publisher_read batch s in
  counters_kept s s' /\
  g_mqtt_connected s' = g_mqtt_connected s /\
  trace s' = trace s /\
  ((exists sample,
      ph = Draining (batch ++ [sample]) /\
      try_read (g_position_buffer s) = (Some sample, g_position_buffer s')) \/
   (ph = Drained batch /\ g_position_buffer s' = g_position_buffer s)).
Proof.
  unfold publisher_read, counters_kept.
  destruct (_ <? _)%nat; [| cbn; auto 10].
  unfold bind, get, ret.
  destruct (try_read (g_position_buffer s)) as [[x|] b]; cbn; [| auto 10].
  repeat split. left. exists x. auto.
Qed.

Lemma publisher_publish_effect (l : Publisher) (batch : list PositionSample) (s : Sys) :
  let (x, s') := publisher_publish l batch s in
  g_position_buffer s' = g_position_buffer s /\
  counters_kept s s' /\
  g_mqtt_connected s' = g_mqtt_connected s /\
  ((exists result,
      snd x = Sent batch result /\ g_mqtt_connected s = true /\
      trace s' = trace s ++ [Publish MQTT_TOPIC_POSITION (batch_msg batch) 0 false result]) \/
   (snd x = Draining [] /\ (batch = [] \/ g_mqtt_connected s = false) /\
    trace s' = trace s)).
Proof.
  unfold publisher_publish, counters_kept.
  destruct batch as [|p batch]; cbn [length Nat.eqb negb].
  - unfold bind, ret, sleep_until. cbn. auto 10.
  - unfold bind, get, ret, sleep_until, publish. cbv beta iota.
    destruct (g_mqtt_connected s) eqn:Hc.
    + destruct (mosquitto_publish _ _ _ _ (world s)) as [r w]. cbn.
      rewrite Hc. repeat split. left. exists r. auto.
    + cbn. rewrite Hc. auto 10.
Qed.

Lemma publisher_count_effect (l : Publisher) (batch : list PositionSample) (result : Z) (s : Sys) :
  let (l', s') := publisher_count l batch result s in
  g_position_buffer s' = g_position_buffer s /\
  g_total_captured s' = g_total_captured s /\
  g_total_dropped s' = g_total_dropped s /\
  g_total_published s'
    = (if result =? MOSQ_ERR_SUCCESS
       then wrap_uint64 (g_total_published s + Z.of_nat (length batch))
       else g_total_published s) /\
  g_mqtt_connected s' = g_mqtt_connected s /\
  trace s' = trace s.
Proof.
  unfold publisher_count, bind, ret, sleep_until.
  destruct (result =? MOSQ_ERR_SUCCESS); cbn; auto 10.
Qed.

(** The callbacks and the command processor leave the ring and the counters
    alone. *)
Lemma stable_kept (s s' : Sys) :
  stable s s' ->
  g_position_buffer s' = g_position_buffer s /\ counters_kept s s'.
Proof. unfold stable, counters_kept. tauto. Qed.

Lemma did_nothing_refl (m : Fine) : acted m m.
Proof.
  apply (did_nothing m m []); unfold counters_kept; auto.
  now rewrite app_nil_r.
Qed.

(** Every action is one of the eight. *)
Lemma fine_step_acted (m : Fine) (a : Action) : acted m (fine_step m a).
Proof.
  destruct a; cbn [fine_step].
  - destruct (sampler_phase m) as [|ok] eqn:Hs.
    + destruct (_ && _); [| apply did_nothing_refl].
      destruct (sampler_write_effect (fine_sampler m) (fine_sys m)) as (smp & evs & H).
      destruct (sampler_write (fine_sampler m) (fine_sys m)) as [[l ok] s'].
      destruct H as (H1 & H2 & _ & H4 & H5).
      now apply (did_write _ _ smp ok evs).
    + pose proof (sampler_count_effect (fine_sampler m) ok (fine_sys m)) as H.
      destruct (sampler_count (fine_sampler m) ok (fine_sys m)) as [l s'].
      destruct H as (H1 & H2 & H3 & H4 & _ & H6 & H7).
      now apply (did_count _ _ ok).
  - destruct (publisher_phase m) as [batch|batch|batch r] eqn:Hp.
    + destruct (match batch with [] => _ | _ => _ end); [| apply did_nothing_refl].
      pose proof (publisher_read_effect batch (fine_sys m)) as H.
      destruct (publisher_read batch (fine_sys m)) as [ph s'].
      destruct H as (H1 & _ & H3 & [(x & -> & H4)|(-> & H4)]).
      * now apply (did_read _ _ batch x).
      * now apply (did_end_drain _ _ batch).
    + pose proof (publisher_publish_effect (fine_publisher m) batch (fine_sys m)) as H.
      destruct (publisher_publish (fine_publisher m) batch (fine_sys m)) as [[l ph] s'].
      cbn [fst snd] in *.
      destruct H as (H1 & H2 & _ & [(r & -> & H4 & H5)|(-> & H4 & H5)]).
      * apply (did_send _ _ batch r); cbn; auto. lia.
      * now apply (did_skip _ _ batch).
    + pose proof (publisher_count_effect (fine_publisher m) batch r (fine_sys m)) as H.
      destruct (publisher_count (fine_publisher m) batch r (fine_sys m)) as [l s'].
      destruct H as (H1 & H2 & H3 & H4 & _ & H6).
      now apply (did_count_batch _ _ batch r).
  - destruct (g_running (fine_sys m)); [| apply did_nothing_refl].
    destruct (command_processor_thread_iter_at_most (fine_sys m)) as (evs & St & T & _).
    apply stable_kept in St as [Hb Hc].
    now apply (did_nothing _ _ evs).
  - destruct payload; apply (did_nothing _ _ []); unfold counters_kept; cbn;
      rewrite ?app_nil_r; auto.
  - unfold mqtt_on_connect, when. destruct (result =? 0).
    + apply (did_nothing _ _ [Subscribe MQTT_TOPIC_COMMAND 0]); unfold counters_kept; cbn; auto.
    + apply (did_nothing _ _ []); unfold counters_kept; cbn; rewrite ?app_nil_r; auto.
  - apply (did_nothing _ _ []); unfold counters_kept; cbn; rewrite ?app_nil_r; auto.
Qed.

(** *** Conservation *)

Lemma buffered_kept (s s' : Sys) :
  g_position_buffer s' = g_position_buffer s -> buffered s' = buffered s.
Proof. unfold buffered. now intros ->. Qed.

Lemma buffered_nonneg (s : Sys) : 0 <= buffered s.
Proof. unfold buffered. lia. Qed.

(** What [try_write] does to the number of unread samples. *)
Lemma try_write_buffered (s s' : Sys) (sample : PositionSample) (ok : bool) :
  wf (g_position_buffer s) ->
  try_write (g_position_buffer s) sample = (ok, g_position_buffer s') ->
  wf (g_position_buffer s') /\
  buffered s' = buffered s + (if ok then 1 else 0).
Proof.
  intros Hwf E.
  pose proof (try_write_wf _ sample Hwf) as Hw. rewrite E in Hw. cbn [snd] in Hw.
  split; [assumption |].
  destruct (full (g_position_buffer s)) eqn:Hf.
  - rewrite try_write_full in E by assumption. injection E as <- E.
    rewrite (buffered_kept s s') by now symmetry. lia.
  - destruct (try_write_unread _ sample Hwf Hf) as [Hok Hu].
    rewrite E in Hok, Hu. cbn [fst snd] in Hok, Hu. subst ok.
    rewrite !buffered_unread, Hu, length_app by assumption. cbn [length]. lia.
Qed.

(** What a successful [try_read] does to it. *)
Lemma try_read_buffered (s s' : Sys) (sample : PositionSample) :
  wf (g_position_buffer s) ->
  try_read (g_position_buffer s) = (Some sample, g_position_buffer s') ->
  wf (g_position_buffer s') /\ buffered s = buffered s' + 1.
Proof.
  intros Hwf E.
  pose proof (try_read_wf _ Hwf) as Hw. rewrite E in Hw. cbn [snd] in Hw.
  split; [assumption |].
  pose proof (try_read_unread _ Hwf) as Hu. rewrite E in Hu.
  rewrite !buffered_unread, Hu by assumption. cbn [length]. lia.
Qed.

(** The accounts stay right over an action, as long as no counter wraps. *)
Lemma acted_accounts (m m' : Fine) (n : nat) :
  acted m m' -> accounts m n -> Z.of_nat (S n) < UINT64_MOD -> accounts m' (S n).
Proof.
  intros Ha (Hwf & Hc & Hp & Hd & Hx & L1 & L2 & Hn) Hlt.
  pose proof (buffered_nonneg (fine_sys m)) as Hb0.
  unfold accounts, pending_captured, pending_dropped, held in *.
  destruct Ha
    as [evs Hb (C1 & C2 & C3) Hs Hq Ht Hz _
       |smp ok evs Hs Hs' E (C1 & C2 & C3) Hq Ht Hz _
       |ok Hs Hs' Hb C1 C3 C2 Hq Ht Hz _
       |batch x Hq Hq' E (C1 & C2 & C3) Hs Ht Hz _
       |batch Hq Hq' Hb (C1 & C2 & C3) Hs Ht Hz _
       |batch r Hq Hq' _ Hb (C1 & C2 & C3) Hs Ht Hz _
       |batch Hq Hq' _ Hb (C1 & C2 & C3) Hs Ht Hz _
       |batch r Hq Hq' Hb C1 C3 C2 Hs Ht Hz _].
  - rewrite (buffered_kept _ _ Hb), Hb, C1, C2, C3, Hs, Hq, Ht, Hz.
    (split; [assumption |]); repeat split; lia.
  - destruct (try_write_buffered _ _ _ _ Hwf E) as [Hw Hb].
    rewrite Hb, C1, C2, C3, Hs', Hq, Ht, Hz. rewrite Hs in L1, L2.
    rewrite wrap_uint64_id by lia.
    destruct ok; (split; [assumption |]); repeat split; lia.
  - rewrite (buffered_kept _ _ Hb), Hb, C1, C2, C3, Hs', Hq, Ht, Hz.
    rewrite Hs in L1, L2.
    destruct ok; rewrite wrap_uint64_id by lia; (split; [assumption |]); repeat split; lia.
  - destruct (try_read_buffered _ _ _ Hwf E) as [Hw Hb].
    rewrite C1, C2, C3, Hs, Hq', Ht, Hz. rewrite Hq in L1. cbn [batch_of] in *.
    rewrite length_app. cbn [length].
    (split; [assumption |]); repeat split; lia.
  - rewrite (buffered_kept _ _ Hb), Hb, C1, C2, C3, Hs, Hq', Ht, Hz. rewrite Hq in L1.
    cbn [batch_of] in *. (split; [assumption |]); repeat split; lia.
  - rewrite (buffered_kept _ _ Hb), Hb, C1, C2, C3, Hs, Hq', Ht, Hz. rewrite Hq in L1.
    cbn [batch_of] in *. (split; [assumption |]); repeat split; lia.
  - rewrite (buffered_kept _ _ Hb), Hb, C1, C2, C3, Hs, Hq', Ht, Hz. rewrite Hq in L1.
    cbn [batch_of length] in *. (split; [assumption |]); repeat split; lia.
  - rewrite (buffered_kept _ _ Hb), Hb, C1, C2, C3, Hs, Hq', Ht, Hz. rewrite Hq in L1.
    cbn [batch_of length] in *.
    assert (0 <= match sampler_phase m with Wrote false => 1 | _ => 0 end)
      by (destruct (sampler_phase m) as [|[|]]; lia).
    destruct (r =? MOSQ_ERR_SUCCESS); [rewrite wrap_uint64_id by lia |];
      (split; [assumption |]); repeat split; lia.
Qed.

Lemma fine_run_snoc (m : Fine) (actions : list Action) (a : Action) :
  fine_run m (actions ++ [a]) = fine_step (fine_run m actions) a.
Proof. unfold fine_run. now rewrite foldl_app. Qed.

Lemma start_accounts (s : Sys) (l : Sampler) (p : Publisher) :
  nothing_sampled s -> debug_counter l = 0 -> accounts (fine_start s l p) 0.
Proof.
  intros (Hb & Hc & Hp & Hd) Hl.
  unfold accounts, pending_captured, pending_dropped, held, buffered. cbn.
  rewrite Hb, Hc, Hp, Hd, Hl. split; [apply init_wf |].
  change (available init) with 0%nat. repeat split; lia.
Qed.

Lemma fine_run_accounts (s : Sys) (l : Sampler) (p : Publisher) (actions : list Action) :
  nothing_sampled s -> debug_counter l = 0 -> Z.of_nat (length actions) < UINT64_MOD ->
  accounts (fine_run (fine_start s l p) actions) (length actions).
Proof.
  intros H0 Hl. induction actions as [|a actions IH] using rev_ind; intros Hlt.
  - now apply start_accounts.
  - rewrite fine_run_snoc, length_app, Nat.add_1_r in *.
    apply (acted_accounts (fine_run (fine_start s l p) actions));
      [apply fine_step_acted | apply IH; lia | assumption].
Qed.

(** *** Batches that are cleared without being counted *)

Lemma acted_trace (m m' : Fine) :
  acted m m' -> exists evs, trace (fine_sys m') = trace (fine_sys m) ++ evs.
Proof.
  intros [evs _ _ _ _ _ _ T|smp ok evs _ _ _ _ _ _ _ T|ok _ _ _ _ _ _ _ _ _ T
         |batch x _ _ _ _ _ _ _ T|batch _ _ _ _ _ _ _ T|batch r _ _ _ _ _ _ _ _ T
         |batch _ _ _ _ _ _ _ _ T|batch r _ _ _ _ _ _ _ _ _ T];
    rewrite T; first [now eexists | exists []; now rewrite app_nil_r].
Qed.

Lemma acted_recorded (m m' : Fine) : acted m m' -> sent_recorded m -> sent_recorded m'.
Proof.
  unfold sent_recorded.
  intros [evs _ _ _ Hq _ _ T|smp ok evs _ _ _ _ Hq _ _ T|ok _ _ _ _ _ _ Hq _ _ T
         |batch x _ Hq _ _ _ _ _ _|batch _ Hq _ _ _ _ _ _|batch r _ Hq _ _ _ _ _ _ T
         |batch _ Hq _ _ _ _ _ _ _|batch r _ Hq _ _ _ _ _ _ _ _] H;
    rewrite Hq; try exact I.
  - destruct (publisher_phase m); try exact I.
    destruct H as (payload & H). exists payload. rewrite T. apply in_or_app. now left.
  - destruct (publisher_phase m); try exact I.
    destruct H as (payload & H). exists payload. rewrite T. apply in_or_app. now left.
  - destruct (publisher_phase m); try exact I. now rewrite T.
  - exists (batch_msg batch). rewrite T. apply in_or_app. right. now left.
Qed.

Lemma fine_run_recorded (s : Sys) (l : Sampler) (p : Publisher) (actions : list Action) :
  sent_recorded (fine_run (fine_start s l p) actions).
Proof.
  induction actions as [|a actions IH] using rev_ind; [exact I |].
  rewrite fine_run_snoc.
  exact (acted_recorded _ _ (fine_step_acted _ a) IH).
Qed.

(** Only the disconnect callback clears [g_mqtt_connected]. *)
Lemma fine_step_connected (m : Fine) (a : Action) :
  no_disconnect a = true -> g_mqtt_connected (fine_sys m) = true ->
  g_mqtt_connected (fine_sys (fine_step m a)) = true.
Proof.
  intros Ha Hc. destruct a; cbn [fine_step]; try discriminate Ha.
  - destruct (sampler_phase m) as [|ok].
    + destruct (_ && _); [| exact Hc].
      destruct (sampler_write_effect (fine_sampler m) (fine_sys m)) as (smp & evs & H).
      destruct (sampler_write (fine_sampler m) (fine_sys m)) as [x s'].
      destruct H as (_ & _ & H & _). cbn. congruence.
    + pose proof (sampler_count_effect (fine_sampler m) ok (fine_sys m)) as H.
      destruct (sampler_count (fine_sampler m) ok (fine_sys m)) as [l s'].
      destruct H as (_ & _ & _ & _ & H & _). cbn. congruence.
  - destruct (publisher_phase m) as [batch|batch|batch r].
    + destruct (match batch with [] => _ | _ => _ end); [| exact Hc].
      pose proof (publisher_read_effect batch (fine_sys m)) as H.
      destruct (publisher_read batch (fine_sys m)) as [ph s'].
      destruct H as (_ & H & _). cbn. congruence.
    + pose proof (publisher_publish_effect (fine_publisher m) batch (fine_sys m)) as H.
      destruct (publisher_publish (fine_publisher m) batch (fine_sys m)) as [x s'].
      destruct H as (_ & _ & H & _). cbn. congruence.
    + pose proof (publisher_count_effect (fine_publisher m) batch r (fine_sys m)) as H.
      destruct (publisher_count (fine_publisher m) batch r (fine_sys m)) as [l s'].
      destruct H as (_ & _ & _ & _ & H & _). cbn. congruence.
  - destruct (g_running (fine_sys m)); [| exact Hc].
    destruct (command_processor_thread_iter_at_most (fine_sys m)) as (evs & (_ & _ & H & _) & _).
    cbn [fine_sys]. now rewrite H.
  - destruct payload; exact Hc.
  - unfold mqtt_on_connect, when. destruct (result =? 0); [reflexivity | exact Hc].
Qed.

(** With the broker connected, an action clears no batch uncounted unless
    the broker has refused one. *)
Lemma acted_discards_nothing (m m' : Fine) :
  acted m m' -> sent_recorded m -> g_mqtt_connected (fine_sys m) = true ->
  forallb batch_ok (trace (fine_sys m)) = true ->
  samples_discarded m' = samples_discarded m.
Proof.
  unfold sent_recorded.
  intros [evs _ _ _ _ _ Hz _|smp ok evs _ _ _ _ _ _ Hz _|ok _ _ _ _ _ _ _ _ Hz _
         |batch x _ _ _ _ _ _ Hz _|batch _ _ _ _ _ _ Hz _|batch r _ _ _ _ _ _ _ Hz _
         |batch Hq _ Hb _ _ _ _ Hz _|batch r Hq _ _ _ _ _ _ _ Hz _] Hr Hc Hok;
    try exact Hz.
  - destruct Hb as [-> | Hb]; [rewrite Hz; cbn; lia | congruence].
  - rewrite Hq in Hr. destruct Hr as (payload & Hr).
    rewrite forallb_forall in Hok. specialize (Hok _ Hr). cbn in Hok.
    rewrite Hz, Hok. lia.
Qed.

Lemma fine_run_discards_nothing (s : Sys) (l : Sampler) (p : Publisher) (actions : list Action) :
  g_mqtt_connected s = true -> forallb no_disconnect actions = true ->
  forallb batch_ok (trace (fine_sys (fine_run (fine_start s l p) actions))) = true ->
  samples_discarded (fine_run (fine_start s l p) actions) = 0 /\
  g_mqtt_connected (fine_sys (fine_run (fine_start s l p) actions)) = true.
Proof.
  intros Hc. induction actions as [|a actions IH] using rev_ind; intros Hn Hok.
  - cbn. auto.
  - rewrite fine_run_snoc in *. rewrite forallb_app in Hn.
    apply andb_prop in Hn as [Hn Ha]. cbn in Ha. rewrite andb_true_r in Ha.
    pose proof (fine_step_acted (fine_run (fine_start s l p) actions) a) as Hact.
    destruct (acted_trace _ _ Hact) as (evs & T).
    rewrite T, forallb_app in Hok. apply andb_prop in Hok as [Hok _].
    destruct (IH Hn Hok) as [Hz Hc'].
    split; [| now apply fine_step_connected].
    rewrite (acted_discards_nothing _ _ Hact); auto using fine_run_recorded.
Qed.

(** C9 (as amended): the threads run interleaved, each from one access of
    the ring or of a counter to its next, with the callbacks in between, in
    any order; the run starts with the ring empty and the counters zero and
    has fewer than 2^64 actions.  Between any two actions:
    - the samples counted as captured, and the one that is in the ring and
      about to be counted, are the samples counted as published, the samples
      in the ring, the samples in the hands of the publisher, and the
      samples of the batches that the publisher has cleared without counting
      them;
    - the samples that the sampler has assembled, as its [debug_counter]
      numbers them, are those counted as captured or as dropped and the one
      about to be counted: a sample that the full ring refuses is counted as
      dropped and not as captured;
    - no batch has been cleared uncounted if the broker was connected at the
      start, no disconnect callback has run, and the broker has accepted
      every position batch handed to it. *)
Theorem samples_conserved (s : Sys) (l : Sampler) (p : Publisher) (actions : list Action) :
  nothing_sampled s -> debug_counter l = 0 ->
  Z.of_nat (length actions) < UINT64_MOD ->
  let m := fine_run (fine_start s l p) actions in
  g_total_captured (fine_sys m) + pending_captured m
    = g_total_published (fine_sys m) + buffered (fine_sys m) + held m + samples_discarded m /\
  g_total_captured (fine_sys m) + pending_captured m
    + g_total_dropped (fine_sys m) + pending_dropped m = debug_counter (fine_sampler m) /\
  0 <= samples_discarded m /\
  (g_mqtt_connected s = true -> forallb no_disconnect actions = true ->
   forallb batch_ok (trace (fine_sys m)) = true ->
   samples_discarded m = 0).
Proof.
  intros H0 Hl Hlt m.
  destruct (fine_run_accounts s l p actions H0 Hl Hlt) as (_ & _ & _ & _ & Hx & L1 & L2 & _).
  repeat split; try assumption.
  intros Hc Hn Hok. now apply fine_run_discards_nothing.
Qed.

End FineThreads.

(** C9 on the simulated platform: the sampler stores a sample; before it
    counts the sample, the publisher takes it from the ring, ends the drain
    loop, hands the batch to the broker and counts it.  One sample is
    counted as published and none as captured yet. *)
Lemma samples_conserved_witness :
  let s := sys sim_boot in
  let l := sampler sim_boot in
  let p := publisher sim_boot in
  let actions := [SamplerAction; PublisherAction; PublisherAction;
                  PublisherAction; PublisherAction] in
  let m := fine_run (fine_start s l p) actions in
  (nothing_sampled s /\ debug_counter l = 0 /\ Z.of_nat (length actions) < UINT64_MOD /\
   g_mqtt_connected s = true /\ forallb no_disconnect actions = true /\
   forallb batch_ok (trace (fine_sys m)) = true) /\
  (g_total_captured (fine_sys m) = 0 /\ pending_captured m = 1 /\
   g_total_published (fine_sys m) = 1 /\ buffered (fine_sys m) = 0 /\ held m = 0) /\
  g_total_captured (fine_sys m) + pending_captured m
    = g_total_published (fine_sys m) + buffered (fine_sys m) + held m + samples_discarded m /\
  samples_discarded m = 0.
Proof.
  intros s l p actions m.
  assert (H0 : nothing_sampled s) by (vm_compute; repeat split).
  assert (Hl : debug_counter l = 0) by reflexivity.
  assert (Hlt : Z.of_nat (length actions) < UINT64_MOD) by (vm_compute; reflexivity).
  assert (Hc : g_mqtt_connected s = true) by reflexivity.
  assert (Hn : forallb no_disconnect actions = true) by reflexivity.
  assert (Hok : forallb batch_ok (trace (fine_sys m)) = true) by (vm_compute; reflexivity).
  split; [repeat split; assumption |].
  split; [vm_compute; repeat split |].
  pose proof (samples_conserved s l p actions H0 Hl Hlt) as (L1 & _ & _ & Hz).
  split; [exact L1 | exact (Hz Hc Hn Hok)].
Defined.

(** A batch that the broker refuses is cleared without being counted, at
    this granularity too. *)
Example refused_batch_is_discarded :
  let refuses := mkSim 1000000 ecc_ok 14 in
  let m := @fine_run sim
             (fine_start (ready refuses xyz_controller r_controller)
                (mkSampler 12500000 0 0 0 0) (mkPublisher 0 0 0))
             [SamplerAction; SamplerAction; PublisherAction; PublisherAction;
              PublisherAction; PublisherAction] in
  g_total_captured (fine_sys m) = 1 /\ g_total_published (fine_sys m) = 0 /\
  buffered (fine_sys m) = 0 /\ held m = 0 /\ samples_discarded m = 1.
Proof. vm_compute. repeat split. Qed.
